(** * solar-ueberwachung: a shallow embedding of [main.py]

    The program grabs a snapshot from a camera streamer, draws a timestamp
    and two OpenDTU readings on it, saves the frame under a name derived
    from the capture time and sleeps; before the loop it checks the camera
    status and prints a storage estimate.

    The embedding follows the source function by function.  Python values
    are modelled as the interpreter has them: unbounded integers as [Z],
    floats as binary64 values with their exact rational value, parsed JSON
    as a tree whose objects are finite maps, exceptions as a result type.
    Effects (HTTP requests, the clock, the image objects, the file system,
    the console, sleeping) are threaded through a state-and-exception monad
    whose state records in a trace every operation that reaches outside
    the process or changes an image or a file, and every exception; a
    library computation on data the process already holds (parsing a
    reply, making a draw object, building the font, converting a time)
    appears in the trace only when it raises.  The
    [while True] loop is followed for any finite number of turns.

    Outside the model: the creation of [SAVE_DIR] when the module is
    loaded (a directory missing at the time of a save is one of the
    failures the environment can inject); requests that never return;
    exhausted memory (strings and files are unbounded); the pixels of the
    images, of which only the source bytes and the texts drawn are kept. *)

From Stdlib Require Import ZArith QArith Qcanon String Ascii List Lia DecimalString.
From Stdlib Require SpecFloat DecimalPos.
From stdpp Require Import base option gmap strings.

Open Scope string_scope.
Open Scope Z_scope.

(** ** Exceptions and results *)

Inductive exn :=
| RuntimeError (msg : string)
| AttributeError
| TypeError
| ValueError
| ZeroDivisionError
| OverflowError
| ConnectionError
| JSONDecodeError
| UnidentifiedImageError
| KeyError
| FileNotFoundError
| OSError.

Inductive result (A : Type) :=
| Ok (a : A)
| Raise (e : exn).
Arguments Ok {A} a.
Arguments Raise {A} e.

#[global] Instance result_ret : MRet result := fun A a => Ok a.
#[global] Instance result_bind : MBind result := fun A B k r =>
  match r with
  | Ok a => k a
  | Raise e => Raise e
  end.

(** ** Python floats

    A float is an IEEE binary64 value.  A finite one carries its exact
    value as a rational; the negative zero, the infinities and the
    not-a-number are separate. *)

Module PyFloat.

Inductive pyfloat :=
| FFinite (q : Q)
| FNegZero
| FInf (neg : bool)
| FNaN.

(** [n / d] rounded to the nearest integer, ties to the even one
    ([0 <= n], [0 < d]). *)
Definition round_half_even (n d : Z) : Z :=
  let q := n / d in
  match 2 * (n mod d) ?= d with
  | Lt => q
  | Gt => q + 1
  | Eq => if Z.even q then q else q + 1
  end.

(** The exponent [e] with [2^e <= n/d < 2^(e+1)] ([0 < n], [0 < d]). *)
Definition floor_log2 (n d : Z) : Z :=
  if d <=? n then Z.log2 (n / d) else - Z.log2_up ((d + n - 1) / n).

(** [m * 2^e] as a rational. *)
Definition scale2 (m e : Z) : Q :=
  if 0 <=? e then Qmake (m * 2 ^ e) 1 else Qmake m (Z.to_pos (2 ^ (- e))).

(** The binary64 number nearest to [n/d], ties to even, before the
    overflow check: 53 significant bits, the unit in the last place never
    below [2^-1074] ([0 <= n], [0 < d]). *)
Definition round_mag (n d : Z) : Q :=
  if n =? 0 then 0%Q else
  let e := Z.max (floor_log2 n d - 52) (-1074) in
  let m := if 0 <=? e then round_half_even n (d * 2 ^ e)
           else round_half_even (n * 2 ^ (- e)) d in
  Qred (scale2 m e).

Definition is_zero (q : Q) : bool := Qnum q =? 0.
Definition is_neg (q : Q) : bool := Qnum q <? 0.

(** Sign and magnitude [n/d] rounded to a float; a magnitude that rounds
    to [2^1024] or more becomes an infinity. *)
Definition of_ratio (neg : bool) (n d : Z) : pyfloat :=
  let m := round_mag n d in
  if Qle_bool (inject_Z (2 ^ 1024)) m then FInf neg
  else if is_zero m then (if neg then FNegZero else FFinite 0)
  else FFinite (if neg then Qopp m else m).

(** The float nearest to a rational (the value of a decimal literal). *)
Definition of_Q (q : Q) : pyfloat :=
  of_ratio (is_neg q) (Z.abs (Qnum q)) (Zpos (Qden q)).

(** [a / b] on two Python integers: the correctly rounded quotient. *)
Definition int_true_divide (a b : Z) : result pyfloat :=
  if b =? 0 then Raise ZeroDivisionError else
  match of_ratio (xorb (a <? 0) (b <? 0)) (Z.abs a) (Z.abs b) with
  | FInf _ => Raise OverflowError
  | f => Ok f
  end.

(** [float(z)] on a Python integer. *)
Definition of_int (z : Z) : result pyfloat :=
  match of_ratio (z <? 0) (Z.abs z) 1 with
  | FInf _ => Raise OverflowError
  | f => Ok f
  end.

(** [x / k] for a float [x] and a positive Python integer [k] below
    [2^53] (it converts exactly). *)
Definition div_int (x : pyfloat) (k : Z) : pyfloat :=
  match x with
  | FFinite q => of_Q (q / inject_Z k)
  | other => other
  end.

(** [x < k] for a float [x] and a Python integer [k]. *)
Definition lt_int (x : pyfloat) (k : Z) : bool :=
  match x with
  | FFinite q => negb (Qle_bool (inject_Z k) q)
  | FNegZero => 0 <? k
  | FInf neg => neg
  | FNaN => false
  end.

(** [x == 0]. *)
Definition eq_zero (x : pyfloat) : bool :=
  match x with
  | FFinite q => is_zero q
  | FNegZero => true
  | _ => false
  end.

End PyFloat.
Export PyFloat.

(** ** Decimal digits *)

Definition digit_char (d : Z) : ascii := ascii_of_nat (48 + Z.to_nat d).

(** The [w] lowest decimal digits of [n], most significant first. *)
Fixpoint zpad (w : nat) (n : Z) : string :=
  match w with
  | O => ""
  | S w' => String (digit_char (n / 10 ^ Z.of_nat w' mod 10)) (zpad w' n)
  end.

(** [str(z)] for a Python integer. *)
Definition str_of_int (z : Z) : string := NilZero.string_of_int (Z.to_int z).

(** The digits of [format(x, ".pf")] for a magnitude [n/d]: the value
    rounded half-even to [p] decimals, a point only when [p > 0]. *)
Definition fixed_digits (n d : Z) (p : nat) : string :=
  let m := round_half_even (n * 10 ^ Z.of_nat p) d in
  str_of_int (m / 10 ^ Z.of_nat p) +:+
  match p with
  | O => ""
  | S _ => "." +:+ zpad p m
  end.

(** [format(x, ".pf")] for a float. *)
Definition format_float_fixed (x : pyfloat) (p : nat) : string :=
  match x with
  | FFinite q =>
      (if is_neg q then "-" else "") +:+
      fixed_digits (Z.abs (Qnum q)) (Zpos (Qden q)) p
  | FNegZero => "-" +:+ fixed_digits 0 1 p
  | FInf false => "inf"
  | FInf true => "-inf"
  | FNaN => "nan"
  end.

(** ** Parsed JSON

    What [response.json()] returns: [None], [bool], [int], [float], [str],
    [list], or a [dict] with string keys. *)

#[warnings="-register-all"]
Inductive json :=
| JNull
| JBool (b : bool)
| JInt (z : Z)
| JFloat (f : pyfloat)
| JStr (s : string)
| JArr (l : list json)
| JObj (m : gmap string json).

(** [bool(j)], the test behind [not j] and [if j]. *)
Definition truthy (j : json) : bool :=
  match j with
  | JNull => false
  | JBool b => b
  | JInt z => negb (z =? 0)
  | JFloat f => negb (eq_zero f)
  | JStr s => negb (String.eqb s "")
  | JArr l => match l with [] => false | _ => true end
  | JObj m => negb (bool_decide (m = ∅))
  end.

(** [d.get(key, default)]: only a [dict] has the method. *)
Definition dict_get (d : json) (key : string) (default : json) : result json :=
  match d with
  | JObj m => Ok (match m !! key with Some v => v | None => default end)
  | _ => Raise AttributeError
  end.

(** [d[key]]. *)
Definition dict_item (d : json) (key : string) : result json :=
  match d with
  | JObj m => match m !! key with Some v => Ok v | None => Raise KeyError end
  | _ => Raise TypeError
  end.

(** [j == 0]. *)
Definition eq_int_zero (j : json) : bool :=
  match j with
  | JInt z => z =? 0
  | JFloat f => eq_zero f
  | JBool b => negb b
  | _ => false
  end.

(** The parts of the interpreter that the program reaches only on
    payloads of unusual shape and that are taken as given: the shortest
    [repr] of a float, the [repr] of a list or dict, and [format] with a
    specification other than [".<digits>f"]. *)
Record Builtins := {
  float_repr : pyfloat -> string;
  container_repr : json -> string;
  format_other : json -> string -> result string;
}.

(** The last character of a string and what precedes it. *)
Fixpoint split_last (s : string) : option (string * ascii) :=
  match s with
  | EmptyString => None
  | String c rest =>
      match split_last rest with
      | None => Some (EmptyString, c)
      | Some (init, l) => Some (String c init, l)
      end
  end.

(** The precision [p] of a format specification [".pf"]. *)
Definition precision_of_spec (spec : string) : option N :=
  match spec with
  | String "."%char body =>
      match split_last body with
      | Some (digits, "f"%char) => N.of_uint <$> NilZero.uint_of_string digits
      | _ => None
      end
  | _ => None
  end.

Definition PY_SSIZE_T_MAX : N := 9223372036854775807.
Definition INT_MAX : N := 2147483647.

Section Interpreter.

Variable py : Builtins.

(** [str(j)], which is also [format(j, "")]. *)
Definition py_str (j : json) : string :=
  match j with
  | JNull => "None"
  | JBool b => if b then "True" else "False"
  | JInt z => str_of_int z
  | JFloat f => float_repr py f
  | JStr s => s
  | JArr _ | JObj _ => container_repr py j
  end.

(** A number formatted with [".pf"]: an integer is converted to a float
    first; the precision is read as a [Py_ssize_t] and must fit an [int]. *)
Definition format_number_fixed (to_float : result pyfloat) (p : N) : result string :=
  if (PY_SSIZE_T_MAX <? p)%N then Raise ValueError else
  f ← to_float;
  if (INT_MAX <? p)%N then Raise ValueError else
  Ok (format_float_fixed f (N.to_nat p)).

(** [format(v, spec)]. *)
Definition py_format (v : json) (spec : string) : result string :=
  match precision_of_spec spec with
  | None => format_other py v spec
  | Some p =>
      match v with
      | JFloat f => format_number_fixed (Ok f) p
      | JInt z => format_number_fixed (of_int z) p
      | JBool b => format_number_fixed (of_int (if b then 1 else 0)) p
      | JStr _ => Raise ValueError
      | JNull | JArr _ | JObj _ => Raise TypeError
      end
  end.

(** *** [format_byte_size] *)

Fixpoint format_byte_size_from (units : list string) (bytes : pyfloat) : string :=
  match units with
  | [] => format_float_fixed bytes 2 +:+ " PB"
  | unit :: units' =>
      if lt_int bytes 1024 then format_float_fixed bytes 2 +:+ " " +:+ unit
      else format_byte_size_from units' (div_int bytes 1024)
  end.

Definition format_byte_size (bytes : pyfloat) : string :=
  format_byte_size_from ["B"; "KB"; "MB"; "GB"; "TB"] bytes.

(** *** [format_opendtu_value]

    [format_opendtu_value_with] is the body of the function with the three
    literal defaults of the [get] calls as arguments;
    [format_opendtu_value] is the function of the source. *)

Definition format_opendtu_value_with (dv du dd : json) (field : json) : result string :=
  if negb (truthy field) then Ok "N/A" else
  value ← dict_get field "v" dv;
  unit ← dict_get field "u" du;
  decimals ← dict_get field "d" dd;
  number ← py_format value ("." +:+ py_str decimals +:+ "f");
  Ok (number +:+ " " +:+ py_str unit).

Definition format_opendtu_value (field : json) : result string :=
  format_opendtu_value_with (JInt 0) (JStr "") (JInt 0) field.

End Interpreter.

(** ** Dates and [strftime] *)

Record datetime := {
  year : Z; month : Z; day : Z;
  hour : Z; minute : Z; second : Z; microsecond : Z;
}.

(** One conversion of a format string; [tzname] is what [%Z] prints (the
    empty string for a naive datetime). *)
Definition strftime_directive (c : ascii) (dt : datetime) (tzname : string) : string :=
  match c with
  | "Y"%char => zpad 4 (year dt)
  | "m"%char => zpad 2 (month dt)
  | "d"%char => zpad 2 (day dt)
  | "H"%char => zpad 2 (hour dt)
  | "M"%char => zpad 2 (minute dt)
  | "S"%char => zpad 2 (second dt)
  | "Z"%char => tzname
  | "%"%char => "%"
  | _ => String "%"%char (String c EmptyString)
  end.

Fixpoint strftime (fmt : string) (dt : datetime) (tzname : string) : string :=
  match fmt with
  | EmptyString => EmptyString
  | String "%"%char (String c rest) =>
      strftime_directive c dt tzname +:+ strftime rest dt tzname
  | String c rest => String c (strftime rest dt tzname)
  end.

(** ** The module constants *)

Record Config := {
  CAMERA_HOSTNAME : string;
  CAMERA_PORT : Z;
  OPENDTU_HOSTNAME : string;
  OPENDTU_PORT : Z;
  SAVE_DIR : string;
  TIME_FORMAT : string;
  TIME_ZONE : string;
  TIMEOUT : Z;
}.

Definition CAMERA_BASE_URL (cfg : Config) : string :=
  "http://" +:+ CAMERA_HOSTNAME cfg +:+ ":" +:+ str_of_int (CAMERA_PORT cfg).
Definition CAMERA_SNAPSHOT_URL (cfg : Config) : string := CAMERA_BASE_URL cfg +:+ "/snapshot".
Definition CAMERA_STATUS_URL (cfg : Config) : string := CAMERA_BASE_URL cfg +:+ "/status".
Definition OPENDTU_STATUS_URL (cfg : Config) : string :=
  "http://" +:+ OPENDTU_HOSTNAME cfg +:+ ":" +:+ str_of_int (OPENDTU_PORT cfg) +:+
  "/api/livedata/status".

(** The values the source assigns. *)
Definition source_config : Config := {|
  CAMERA_HOSTNAME := "raspi-01";
  CAMERA_PORT := 8080;
  OPENDTU_HOSTNAME := "192.168.0.128";
  OPENDTU_PORT := 80;
  SAVE_DIR := "images";
  TIME_FORMAT := "%Y-%m-%d %H:%M:%S %Z";
  TIME_ZONE := "Europe/Vienna";
  TIMEOUT := 2;
|}.

(** The constants with another value of [TIME_ZONE]. *)
Definition with_TIME_ZONE (tz : string) (cfg : Config) : Config := {|
  CAMERA_HOSTNAME := CAMERA_HOSTNAME cfg;
  CAMERA_PORT := CAMERA_PORT cfg;
  OPENDTU_HOSTNAME := OPENDTU_HOSTNAME cfg;
  OPENDTU_PORT := OPENDTU_PORT cfg;
  SAVE_DIR := SAVE_DIR cfg;
  TIME_FORMAT := TIME_FORMAT cfg;
  TIME_ZONE := tz;
  TIMEOUT := TIMEOUT cfg;
|}.

(** The constants with another value of [TIMEOUT]. *)
Definition with_TIMEOUT (seconds : Z) (cfg : Config) : Config := {|
  CAMERA_HOSTNAME := CAMERA_HOSTNAME cfg;
  CAMERA_PORT := CAMERA_PORT cfg;
  OPENDTU_HOSTNAME := OPENDTU_HOSTNAME cfg;
  OPENDTU_PORT := OPENDTU_PORT cfg;
  SAVE_DIR := SAVE_DIR cfg;
  TIME_FORMAT := TIME_FORMAT cfg;
  TIME_ZONE := TIME_ZONE cfg;
  TIMEOUT := seconds;
|}.

(** ** The state of a run *)

Definition bytes := list Byte.byte.

(** One [draw.text] call. *)
Record text_draw := {
  xy : Z * Z;
  text : string;
  font_size : Z;
  fill : string;
  stroke_width : Z;
  stroke_fill : string;
}.

(** A PIL image object: the bytes it was opened from and the texts drawn
    on it since, oldest first. *)
Record image := {
  opened_from : bytes;
  overlay : list text_draw;
}.

(** The primitive operations, as the trace records them; [Raised] stands
    for an exception raised inside the process, on data it already holds:
    by the program's own code (a [raise] statement, a method or a format
    applied to a value of the wrong shape) or by a library computation
    (a payload that does not parse, image data that cannot be prepared
    for drawing, a font that cannot be built, a time that cannot be
    converted). *)
Inductive op :=
| HttpGet (url : string)
| Now
| ImageOpen
| DrawText (im : nat) (t : text_draw)
| ImageSave (im : nat) (path : string)
| GetSize (path : string)
| Remove (path : string)
| Print (line : string)
| Sleep (seconds : Z)
| Raised.

Record event := {
  ev_op : op;
  ev_error : option exn;
}.

Record World := {
  files : gmap string bytes;
  images : list image;
  trace : list event;
}.

(** The libraries' functions the program calls on the data it fetched.
    [image_identify] is what [Image.open] does: it reads the header and
    leaves the pixel data undecoded.  [draw_error] is the exception, if
    any, of [ImageDraw.Draw] on an image ([OSError] for data that is
    truncated: the data of a lazily opened image is decoded there), and
    [font_error] the exception, if any, of [ImageFont.load_default] at a
    size (a build without FreeType has no default font of a given
    size). *)
Record Library := {
  json_loads : bytes -> option json;
  image_identify : bytes -> bool;
  draw_error : image -> option exn;
  font_error : Z -> option exn;
  jpeg_encode : image -> bytes;
}.

(** The outside of the process.  The index is the number of operations
    performed so far: the reply to a request made then, the wall clock
    read then, and the failure (if any) of a drawing or file operation
    attempted then.  [torn] is what a save that fails then leaves under
    its path: nothing new ([None]: the failure came before the file was
    opened, or a file created by the save was removed again), or the
    bytes that had reached the file, none or some ([Image.save] opens the
    path for writing, which empties a file that exists, before it
    encodes).  [astimezone] is [datetime.astimezone()] on a naive local
    time, as fields of the local time: it moves a time that the local
    zone skips, and it can raise at the ends of the calendar;
    [local_tzname] is the zone name [%Z] then prints.  The clock returns
    local times that exist, which [astimezone] leaves as they are. *)
Record Env := {
  http_response : nat -> string -> result bytes;
  clock : nat -> datetime;
  astimezone : datetime -> result datetime;
  local_tzname : datetime -> string;
  fault : nat -> option exn;
  torn : nat -> option bytes;
  clock_is_local : forall t, astimezone (clock t) = Ok (clock t);
}.

(** ** The monad of the program: state and exceptions *)

Definition M (A : Type) : Type := World -> result A * World.

#[global] Instance M_ret : MRet M := fun A a w => (Ok a, w).
#[global] Instance M_bind : MBind M := fun A B k m w =>
  match m w with
  | (Ok a, w') => k a w'
  | (Raise e, w') => (Raise e, w')
  end.

Definition record (o : op) (err : option exn) (w : World) : World := {|
  files := files w;
  images := images w;
  trace := trace w ++ [{| ev_op := o; ev_error := err |}];
|}.

Definition raise {A} (e : exn) : M A := fun w => (Raise e, record Raised (Some e) w).

(** A computation without effect, inside the monad. *)
Definition lift {A} (r : result A) : M A := fun w =>
  match r with
  | Ok a => (Ok a, w)
  | Raise e => (Raise e, record Raised (Some e) w)
  end.

Definition set_files (f : gmap string bytes) (w : World) : World :=
  {| files := f; images := images w; trace := trace w |}.

Definition set_images (l : list image) (w : World) : World :=
  {| files := files w; images := l; trace := trace w |}.

Definition add_text (t : text_draw) (im : image) : image :=
  {| opened_from := opened_from im; overlay := overlay im ++ [t] |}.

(** The files after a save to [path] has failed. *)
Definition after_failed_save (left : option bytes) (path : string)
    (f : gmap string bytes) : gmap string bytes :=
  match left with
  | Some partial => <[path := partial]> f
  | None => f
  end.

Section Program.

Variable py : Builtins.
Variable lib : Library.
Variable env : Env.

(** *** Primitive operations *)

(** [requests.get(url)] and its [content]. *)
Definition requests_get (url : string) : M bytes := fun w =>
  match http_response env (length (trace w)) url with
  | Ok body => (Ok body, record (HttpGet url) None w)
  | Raise e => (Raise e, record (HttpGet url) (Some e) w)
  end.

(** [response.json()]. *)
Definition response_json (body : bytes) : M json :=
  match json_loads lib body with
  | Some j => mret j
  | None => raise JSONDecodeError
  end.

(** [datetime.datetime.now()]. *)
Definition datetime_now : M datetime := fun w =>
  (Ok (clock env (length (trace w))), record Now None w).

(** [Image.open(BytesIO(content))]: a new image object. *)
Definition image_open (body : bytes) : M nat := fun w =>
  if image_identify lib body then
    (Ok (length (images w)),
     record ImageOpen None
       (set_images (images w ++ [{| opened_from := body; overlay := [] |}]) w))
  else (Raise UnidentifiedImageError, record ImageOpen (Some UnidentifiedImageError) w).

(** [ImageDraw.Draw(image)]: the draw object of the image, which draws
    on the image itself. *)
Definition ImageDraw_Draw (im : nat) : M nat := fun w =>
  match images w !! im with
  | Some img =>
      match draw_error lib img with
      | None => (Ok im, w)
      | Some e => (Raise e, record Raised (Some e) w)
      end
  | None => (Raise OSError, record Raised (Some OSError) w)
  end.

(** [ImageFont.load_default(size)]. *)
Definition ImageFont_load_default (size : Z) : M Z := fun w =>
  match font_error lib size with
  | None => (Ok size, w)
  | Some e => (Raise e, record Raised (Some e) w)
  end.

(** [draw.text(xy, text, font=font, fill="white", stroke_width=4,
    stroke_fill="black")] with a default font of the size [font], on the
    image the draw object was made for. *)
Definition draw_text (im : nat) (font : Z) (pos : Z * Z) (s : string) : M unit := fun w =>
  let t := {| xy := pos; text := s; font_size := font; fill := "white";
              stroke_width := 4; stroke_fill := "black" |} in
  match fault env (length (trace w)) with
  | Some e => (Raise e, record (DrawText im t) (Some e) w)
  | None =>
      (Ok (), record (DrawText im t) None
                (set_images (alter (add_text t) im (images w)) w))
  end.

(** [image.save(path)].  A save that fails leaves [path] to the
    environment: [Image.save] prepares the image, opens [path] for writing
    (emptying a file that exists) and only then encodes, so what the path
    holds after a failure depends on how far the save came. *)
Definition image_save (im : nat) (path : string) : M unit := fun w =>
  match fault env (length (trace w)), images w !! im with
  | Some e, _ =>
      (Raise e, record (ImageSave im path) (Some e)
                  (set_files (after_failed_save (torn env (length (trace w))) path
                                (files w)) w))
  | None, None => (Raise OSError, record (ImageSave im path) (Some OSError) w)
  | None, Some img =>
      (Ok (), record (ImageSave im path) None
                (set_files (<[path := jpeg_encode lib img]> (files w)) w))
  end.

(** [os.path.getsize(path)]. *)
Definition getsize (path : string) : M Z := fun w =>
  match fault env (length (trace w)), files w !! path with
  | Some e, _ => (Raise e, record (GetSize path) (Some e) w)
  | None, None =>
      (Raise FileNotFoundError, record (GetSize path) (Some FileNotFoundError) w)
  | None, Some content => (Ok (Z.of_nat (length content)), record (GetSize path) None w)
  end.

(** [os.remove(path)]. *)
Definition remove (path : string) : M unit := fun w =>
  match fault env (length (trace w)), files w !! path with
  | Some e, _ => (Raise e, record (Remove path) (Some e) w)
  | None, None =>
      (Raise FileNotFoundError, record (Remove path) (Some FileNotFoundError) w)
  | None, Some _ => (Ok (), record (Remove path) None (set_files (delete path (files w)) w))
  end.

(** [print(line)]. *)
Definition print (line : string) : M unit := fun w =>
  (Ok (), record (Print line) None w).

(** [time.sleep(seconds)]. *)
Definition sleep (seconds : Z) : M unit := fun w =>
  if seconds <? 0 then (Raise ValueError, record (Sleep seconds) (Some ValueError) w)
  else (Ok (), record (Sleep seconds) None w).

(** *** The functions of [main.py] *)

Definition get_opendtu_data (cfg : Config) : M json :=
  body ← requests_get (OPENDTU_STATUS_URL cfg);
  response_json body.

Definition get_camera_status (cfg : Config) : M json :=
  body ← requests_get (CAMERA_STATUS_URL cfg);
  response_json body.

Definition get_image (cfg : Config) : M (nat * datetime) :=
  body ← requests_get (CAMERA_SNAPSHOT_URL cfg);
  now ← datetime_now;
  im ← image_open body;
  mret (im, now).

Definition embed_text (cfg : Config) (image : nat) (now : datetime) : M nat :=
  draw ← ImageDraw_Draw image;
  font ← ImageFont_load_default 30;
  local ← lift (astimezone env now);
  let timestamp := strftime (TIME_FORMAT cfg) local (local_tzname env now) in
  opendtu_data ← get_opendtu_data cfg;
  total ← lift (dict_get opendtu_data "total" (JObj ∅));
  power ← lift (dict_get total "Power" (JObj ∅));
  power_value ← lift (format_opendtu_value py power);
  let power_string := "Power: " +:+ power_value in
  total' ← lift (dict_get opendtu_data "total" (JObj ∅));
  yield_day ← lift (dict_get total' "YieldDay" (JObj ∅));
  yield_day_value ← lift (format_opendtu_value py yield_day);
  let yield_day_string := "Yield Today: " +:+ yield_day_value in
  draw_text draw font (10, 10) timestamp;;
  draw_text draw font (10, 40) power_string;;
  draw_text draw font (10, 70) yield_day_string;;
  mret image.

Definition save_image_filename (cfg : Config) (now : datetime) : string :=
  let timestamp := strftime "%Y%m%d_%H%M%S" now "" in
  SAVE_DIR cfg +:+ "/image_" +:+ timestamp +:+ ".jpg".

Definition save_image (cfg : Config) (image : nat) (now : datetime) : M unit :=
  let filename := save_image_filename cfg now in
  image_save image filename;;
  print ("Image saved to " +:+ filename).

Definition estimate_size_per_hour (cfg : Config) : M pyfloat :=
  '(image, _) ← get_image cfg;
  image_save image "test.jpg";;
  size ← getsize "test.jpg";
  remove "test.jpg";;
  lift (int_true_divide (size * 3600) (TIMEOUT cfg)).

Definition estimate_frames_per_hour (cfg : Config) : result pyfloat :=
  int_true_divide 3600 (TIMEOUT cfg).

(** The checks at the head of [main], on the parsed status: the width and
    the height when they pass. *)
Definition check_status (status : json) : result (json * json) :=
  outputs ← dict_get status "outputs" (JObj ∅);
  enabled ← dict_get outputs "snapshot" (JBool false);
  if negb (truthy enabled) then Raise (RuntimeError "Snapshot output is not enabled") else
  snapshot ← dict_item outputs "snapshot";
  height ← dict_get snapshot "height" (JInt 0);
  width ← dict_get snapshot "width" (JInt 0);
  if eq_int_zero height || eq_int_zero width
  then Raise (RuntimeError "Invalid snapshot resolution")
  else Ok (width, height).

(** One turn of the [while True] loop. *)
Definition loop_body (cfg : Config) : M unit :=
  '(image, now) ← get_image cfg;
  image ← embed_text cfg image now;
  save_image cfg image now;;
  sleep (TIMEOUT cfg).

(** The first [n] turns of the loop; [Ok] means the loop is still
    running after them. *)
Fixpoint capture_loop (cfg : Config) (n : nat) : M unit :=
  match n with
  | O => mret ()
  | S n' => loop_body cfg;; capture_loop cfg n'
  end.

(** [main], followed for [n] turns of its loop. *)
Definition main (cfg : Config) (n : nat) : M unit :=
  status ← get_camera_status cfg;
  '(width, height) ← lift (check_status status);
  print ("Snapshot resolution: " +:+ py_str py width +:+ "x" +:+ py_str py height);;
  size_per_hour ← estimate_size_per_hour cfg;
  frames_per_hour ← lift (estimate_frames_per_hour cfg);
  print ("Estimated size per hour: " +:+ format_byte_size size_per_hour +:+
         " (" +:+ float_repr py frames_per_hour +:+ " frames)");;
  capture_loop cfg n.

(** What the operating system sees: an uncaught exception ends the
    interpreter with status 1; a loop that is still running has not
    exited. *)
Definition exit_status (r : result unit) : option Z :=
  match r with
  | Raise _ => Some 1
  | Ok _ => None
  end.

End Program.

(** ** The vocabulary of the properties

    The notions in which the properties below are stated: shapes of
    payloads, what the environment does, what a trace looks like, and the
    arithmetic of capture times. *)

(** *** Floats

    The Standard Library's model of IEEE 754 arithmetic, as a reference
    for the rounding of [PyFloat]. *)

(** The value of a finite float of the reference model. *)
Definition SF_value (f : SpecFloat.spec_float) : option Q :=
  match f with
  | SpecFloat.S754_zero _ => Some 0%Q
  | SpecFloat.S754_finite s m e =>
      Some (Qred (if s then Qopp (scale2 (Zpos m) e) else scale2 (Zpos m) e))
  | _ => None
  end.

(** A positive integer as an operand of the reference model. *)
Definition SF_of_Z (a : Z) : SpecFloat.spec_float :=
  match a with
  | Zpos p => SpecFloat.S754_finite false p 0
  | _ => SpecFloat.S754_zero false
  end.

(** [round_mag a b] is the value of the binary64 division of the
    reference model. *)
Definition agrees_with_SFdiv (ab : Z * Z) : bool :=
  match SF_value (SpecFloat.SFdiv 53 1024 (SF_of_Z (fst ab)) (SF_of_Z (snd ab))) with
  | Some q => Qeq_bool q (round_mag (fst ab) (snd ab))
  | None => false
  end.

Definition grid (l1 l2 : list Z) : list (Z * Z) :=
  a ← l1; b ← l2; [(a, b)].

Definition upto (n : nat) : list Z := Z.of_nat <$> seq 1 n.

(** *** Readings *)

(** A reading with the defaults of the three [get] calls of
    [format_opendtu_value] written into it. *)
Definition with_defaults (m : gmap string json) : gmap string json :=
  <["v" := default (JInt 0) (m !! "v")]>
    (<["u" := default (JStr "") (m !! "u")]>
       (<["d" := default (JInt 0) (m !! "d")]> m)).

(** *** Status responses *)

(** The [snapshot] entry of a status response, if it has one. *)
Definition snapshot_entry (st : gmap string json) : option json :=
  match st !! "outputs" with
  | Some (JObj o) => o !! "snapshot"
  | _ => None
  end.

(** [outputs] is absent or a JSON object. *)
Definition outputs_shaped (st : gmap string json) : bool :=
  match st !! "outputs" with
  | None | Some (JObj _) => true
  | _ => false
  end.

(** The snapshot output is disabled: no entry, or a falsy one. *)
Definition snapshot_disabled (st : gmap string json) : bool :=
  match snapshot_entry st with
  | None => true
  | Some v => negb (truthy v)
  end.

(** A dimension is zero: the field is [0] or absent. *)
Definition zero_dimension (field : option json) : bool :=
  match field with
  | None | Some (JInt 0) => true
  | _ => false
  end.

(** The two errors of the gate. *)
Definition CapabilityInvalid (e : exn) : Prop :=
  e = RuntimeError "Snapshot output is not enabled" \/
  e = RuntimeError "Invalid snapshot resolution".

(** The world in which [main] ends when the gate raises [e]: the status
    request and the exception, nothing else. *)
Definition stopped_at_gate (cfg : Config) (e : exn) (w : World) : World :=
  record Raised (Some e) (record (HttpGet (CAMERA_STATUS_URL cfg)) None w).

(** *** The environment *)

(** No drawing or file operation fails at the [n] steps from [t] on. *)
Definition quiet (env : Env) (t n : nat) : Prop :=
  forall k, (t <= k < t + n)%nat -> fault env k = None.

(** The sample frame of the estimator: the image opened from [body],
    nothing drawn. *)
Definition sample_frame (body : bytes) : image :=
  {| opened_from := body; overlay := [] |}.

(** The two reading lines [embed_text] computes from the live data. *)
Definition annotation_texts (py : Builtins) (opendtu_data : json)
    : result (string * string) :=
  total ← dict_get opendtu_data "total" (JObj ∅);
  power ← dict_get total "Power" (JObj ∅);
  power_value ← format_opendtu_value py power;
  yield_day ← dict_get total "YieldDay" (JObj ∅);
  yield_day_value ← format_opendtu_value py yield_day;
  Ok ("Power: " +:+ power_value, "Yield Today: " +:+ yield_day_value).

(** An environment in which every turn of the loop can complete: the
    interval is not negative, no drawing or file operation fails, the
    camera always delivers a frame that is identified and can be
    prepared for drawing, the default font exists at size 30, and the
    OpenDTU always delivers live data from which both reading lines can
    be formatted. *)
Definition healthy (py : Builtins) (lib : Library) (env : Env) (cfg : Config) : Prop :=
  0 <= TIMEOUT cfg /\
  (forall t, fault env t = None) /\
  (forall t, exists body,
      http_response env t (CAMERA_SNAPSHOT_URL cfg) = Ok body /\
      image_identify lib body = true /\
      draw_error lib (sample_frame body) = None) /\
  font_error lib 30 = None /\
  (forall t, exists body data texts,
      http_response env t (OPENDTU_STATUS_URL cfg) = Ok body /\
      json_loads lib body = Some data /\
      annotation_texts py data = Ok texts).

(** *** Traces *)

Definition succeeded (o : op) : event := {| ev_op := o; ev_error := None |}.
Definition failed (o : op) (e : exn) : event := {| ev_op := o; ev_error := Some e |}.

Definition all_ok (evs : list event) : Prop :=
  Forall (fun ev => ev_error ev = None) evs.

(** What a result says about the operations performed to reach it: none
    failed when it is a value; exactly one failed, the last one, with
    the exception of the result, when it is an exception. *)
Definition outcome_of {A} (r : result A) (evs : list event) : Prop :=
  match r with
  | Ok _ => all_ok evs
  | Raise e => exists pre o, evs = (pre ++ [failed o e])%list /\ all_ok pre
  end.

(** A computation that performs nothing after a failure and returns the
    exception of the failure. *)
Definition fail_stop {A} (m : M A) : Prop :=
  forall w r w', m w = (r, w') ->
    exists evs, trace w' = (trace w ++ evs)%list /\ outcome_of r evs.

(** The text drawn by [embed_text] at a position. *)
Definition label (pos : Z * Z) (s : string) : text_draw :=
  {| xy := pos; text := s; font_size := 30; fill := "white";
     stroke_width := 4; stroke_fill := "black" |}.

(** The operations of one turn of the loop, in order: the frame is
    fetched (request, clock, decoding), annotated (request to the OpenDTU,
    three texts), persisted (file, console line), and the process sleeps. *)
Definition iteration_events (cfg : Config) (im : nat) (now : datetime)
    (timestamp power_string yield_day_string : string) : list event :=
  [ succeeded (HttpGet (CAMERA_SNAPSHOT_URL cfg));
    succeeded Now;
    succeeded ImageOpen;
    succeeded (HttpGet (OPENDTU_STATUS_URL cfg));
    succeeded (DrawText im (label (10, 10) timestamp));
    succeeded (DrawText im (label (10, 40) power_string));
    succeeded (DrawText im (label (10, 70) yield_day_string));
    succeeded (ImageSave im (save_image_filename cfg now));
    succeeded (Print ("Image saved to " +:+ save_image_filename cfg now));
    succeeded (Sleep (TIMEOUT cfg)) ].

Definition is_iteration (cfg : Config) (evs : list event) : Prop :=
  exists im now timestamp power_string yield_day_string,
    evs = iteration_events cfg im now timestamp power_string yield_day_string.

(** *** Paths *)

Fixpoint has_slash (s : string) : bool :=
  match s with
  | EmptyString => false
  | String c rest => Ascii.eqb c "/" || has_slash rest
  end.

(** *** The calendar *)

Definition is_leap (y : Z) : bool :=
  (y mod 4 =? 0) && (negb (y mod 100 =? 0) || (y mod 400 =? 0)).

Definition leap_day (y : Z) : Z := if is_leap y then 1 else 0.

Definition days_in_month (y m : Z) : Z :=
  match m with
  | 1 | 3 | 5 | 7 | 8 | 10 | 12 => 31
  | 4 | 6 | 9 | 11 => 30
  | 2 => if is_leap y then 29 else 28
  | _ => 0
  end.

Definition days_before_month (y m : Z) : Z :=
  match m with
  | 1 => 0
  | 2 => 31
  | 3 => 59
  | 4 => 90
  | 5 => 120
  | 6 => 151
  | 7 => 181
  | 8 => 212
  | 9 => 243
  | 10 => 273
  | 11 => 304
  | _ => 334
  end + (if (2 <? m) && is_leap y then 1 else 0).

Definition days_before_year (y : Z) : Z :=
  (y - 1) * 365 + (y - 1) / 4 - (y - 1) / 100 + (y - 1) / 400.

Definition ordinal (dt : datetime) : Z :=
  days_before_year (year dt) + days_before_month (year dt) (month dt) + day dt.

Definition seconds_of (dt : datetime) : Z :=
  ((ordinal dt * 24 + hour dt) * 60 + minute dt) * 60 + second dt.

Definition microseconds_of (dt : datetime) : Z :=
  seconds_of dt * 1000000 + microsecond dt.

(** A datetime the clock can return: the fields in range, the year
    written with four digits. *)
Definition valid_datetime (dt : datetime) : Prop :=
  1000 <= year dt <= 9999 /\
  1 <= month dt <= 12 /\
  1 <= day dt <= days_in_month (year dt) (month dt) /\
  0 <= hour dt < 24 /\
  0 <= minute dt < 60 /\
  0 <= second dt < 60 /\
  0 <= microsecond dt < 1000000.

(** Two datetimes within the same second. *)
Definition same_second (t1 t2 : datetime) : Prop :=
  year t1 = year t2 /\ month t1 = month t2 /\ day t1 = day t2 /\
  hour t1 = hour t2 /\ minute t1 = minute t2 /\ second t1 = second t2.

(** The fourteen digits of a file name, read as a number. *)
Definition stamp (dt : datetime) : Z :=
  year dt * 10000000000 + month dt * 100000000 + day dt * 1000000 +
  hour dt * 10000 + minute dt * 100 + second dt.

(** The exception with which a value [v] is refused by [format] with the
    specification [".pf"], when it is refused for what it is. *)
Definition rejected_value (v : json) (p : Z) : option exn :=
  match v with
  | JStr _ => Some ValueError
  | JNull | JArr _ | JObj _ => Some TypeError
  | JFloat _ => if 2147483647 <? p then Some ValueError else None
  | JInt _ | JBool _ => None
  end.

(** *** Frames *)

(** An image with the texts [ts] drawn on it, in order. *)
Definition add_texts (ts : list text_draw) (im : image) : image :=
  {| opened_from := opened_from im; overlay := (overlay im ++ ts)%list |}.

(** The three texts of [embed_text]. *)
Definition annotation (timestamp power_string yield_day_string : string)
    : list text_draw :=
  [ label (10, 10) timestamp;
    label (10, 40) power_string;
    label (10, 70) yield_day_string ].

(** *** Turns of the loop *)

(** One completed turn of the loop, from the world [w] to the world [w']:
    the camera sent a frame that was opened as a new image; the clock was
    read; the OpenDTU sent live data from which the two reading lines
    were computed; the capture time and the two lines were drawn on that
    image, which was then saved under the name of the capture time, the
    line printed, and the process slept for [TIMEOUT].  These ten
    operations were performed in this order, on this image, and nothing
    else; the file holds the encoding of the frame of this turn with the
    three texts on it. *)
Definition completed_turn (py : Builtins) (lib : Library) (env : Env) (cfg : Config)
    (w w' : World) : Prop :=
  exists body reply data ps ys,
    let im := length (images w) in
    let now := clock env (S (length (trace w))) in
    let timestamp := strftime (TIME_FORMAT cfg) now (local_tzname env now) in
    let frame := add_texts (annotation timestamp ps ys) (sample_frame body) in
    http_response env (length (trace w)) (CAMERA_SNAPSHOT_URL cfg) = Ok body /\
    image_identify lib body = true /\
    http_response env (3 + length (trace w)) (OPENDTU_STATUS_URL cfg) = Ok reply /\
    json_loads lib reply = Some data /\
    annotation_texts py data = Ok (ps, ys) /\
    trace w' = (trace w ++ iteration_events cfg im now timestamp ps ys)%list /\
    images w' = (images w ++ [frame])%list /\
    files w' = <[save_image_filename cfg now := jpeg_encode lib frame]> (files w).

(** [n] completed turns in a row. *)
Fixpoint completed_turns (py : Builtins) (lib : Library) (env : Env) (cfg : Config)
    (n : nat) (w w' : World) : Prop :=
  match n with
  | O => w' = w
  | S n' =>
      exists w1,
        completed_turn py lib env cfg w w1 /\
        completed_turns py lib env cfg n' w1 w'
  end.

(** *** Files *)

(** Whatever [m] does and returns, the files after it are related by [R]
    to the files before it. *)
Definition file_effect (R : gmap string bytes -> gmap string bytes -> Prop)
    {A} (m : M A) : Prop :=
  forall w r w', m w = (r, w') -> R (files w) (files w').

(** A path [save_image] may write to. *)
Definition is_frame_file (cfg : Config) (path : string) : Prop :=
  exists now, path = save_image_filename cfg now.

(** Every path holds what it held, or satisfies [P] and holds a file. *)
Definition only_adds (P : string -> Prop) (f f' : gmap string bytes) : Prop :=
  forall path, f' !! path = f !! path \/ (P path /\ is_Some (f' !! path)).

(** Every path that does not satisfy [P] holds what it held. *)
Definition touches_only (P : string -> Prop) (f f' : gmap string bytes) : Prop :=
  forall path, ~ P path -> f' !! path = f !! path.

(** *** Sizes *)

(** The unit [format_byte_size] names after [k] divisions by 1024. *)
Definition byte_unit (k : nat) : string :=
  nth k ["B"; "KB"; "MB"; "GB"; "TB"] "PB".

(** ** Sample data

    Payloads, a stand-in for the interpreter and the libraries, and two
    environments, used to run the program on concrete inputs. *)

Module Sample.

Definition reading (v : json) (u : string) (d : Z) : json :=
  JObj (<["v" := v]> (<["u" := JStr u]> (<["d" := JInt d]> ∅))).

(** [{"v": 123.4, "u": "W", "d": 2}]; [123.4] is the float nearest to
    the decimal literal. *)
Definition power : json := reading (JFloat (of_Q (1234 # 10))) "W" 2.

(** [{"v": 5678.0, "u": "Wh", "d": 0}]. *)
Definition yield_day : json := reading (JFloat (of_Q 5678)) "Wh" 0.

(** [{"v": 1.5}]: a reading without unit and precision. *)
Definition bare : json := JObj (<["v" := JFloat (of_Q (15 # 10))]> ∅).

Definition livedata : json :=
  JObj (<["total" := JObj (<["Power" := power]> (<["YieldDay" := yield_day]> ∅))]> ∅).

Definition snapshot_status (height width : json) : gmap string json :=
  <["outputs" := JObj (<["snapshot" :=
       JObj (<["height" := height]> (<["width" := width]> ∅))]> ∅)]> ∅.

(** [{"outputs": {"snapshot": {"height": 480, "width": 640}}}]. *)
Definition status : gmap string json := snapshot_status (JInt 480) (JInt 640).

Definition py : Builtins := {|
  float_repr := fun f => format_float_fixed f 1;
  container_repr := fun _ => "{}";
  format_other := fun _ _ => Raise ValueError;
|}.

Definition status_body : bytes := [Byte.x01].
Definition livedata_body : bytes := [Byte.x02].
Definition jpeg_body : bytes := [Byte.xff; Byte.xd8].

Definition bytes_eqb (a b : bytes) : bool :=
  bool_decide (Byte.to_nat <$> a = Byte.to_nat <$> b).

Definition lib : Library := {|
  json_loads := fun body =>
    if bytes_eqb body status_body then Some (JObj status)
    else if bytes_eqb body livedata_body then Some livedata
    else None;
  image_identify := fun body => bytes_eqb body jpeg_body;
  draw_error := fun _ => None;
  font_error := fun _ => None;
  jpeg_encode := fun img => replicate (Z.to_nat 50000 + length (overlay img)) Byte.x00;
|}.

Definition noon (s : Z) : datetime := {|
  year := 2024; month := 6; day := 1;
  hour := 12; minute := 0; second := s; microsecond := 0;
|}.

(** Every request is answered, nothing fails. *)
Definition env : Env := {|
  http_response := fun _ url =>
    if String.eqb url (CAMERA_STATUS_URL source_config) then Ok status_body
    else if String.eqb url (CAMERA_SNAPSHOT_URL source_config) then Ok jpeg_body
    else if String.eqb url (OPENDTU_STATUS_URL source_config) then Ok livedata_body
    else Raise ConnectionError;
  clock := fun t => noon (Z.of_nat t mod 60);
  astimezone := fun now => Ok now;
  local_tzname := fun _ => "CEST";
  fault := fun _ => None;
  torn := fun _ => None;
  clock_is_local := fun _ => eq_refl;
|}.

(** As [env], but the OpenDTU does not answer. *)
Definition env_opendtu_down : Env := {|
  http_response := fun t url =>
    if String.eqb url (OPENDTU_STATUS_URL source_config) then Raise ConnectionError
    else http_response env t url;
  clock := clock env;
  astimezone := astimezone env;
  local_tzname := local_tzname env;
  fault := fault env;
  torn := torn env;
  clock_is_local := clock_is_local env;
|}.

(** As [env], but the drawing or file operation attempted at step [t]
    fails with [e]; a save that fails has opened its file and written
    nothing. *)
Definition env_fault_at (t : nat) (e : exn) : Env := {|
  http_response := http_response env;
  clock := clock env;
  astimezone := astimezone env;
  local_tzname := local_tzname env;
  fault := fun k => if Nat.eqb k t then Some e else None;
  torn := fun _ => Some [];
  clock_is_local := clock_is_local env;
|}.

Definition world : World := {| files := ∅; images := []; trace := [] |}.

(** A world in which a file [test.jpg] and a stored frame exist. *)
Definition world_with_files : World := {|
  files := <["test.jpg" := [Byte.x07]]>
             (<["images/image_20240601_115958.jpg" := [Byte.x08]]> ∅);
  images := [];
  trace := [];
|}.

(** A world in which the frame of 12:00:01 is already stored. *)
Definition world_with_frame : World := {|
  files := <["images/image_20240601_120001.jpg" := [Byte.x09]]> ∅;
  images := [];
  trace := [];
|}.

End Sample.

(** ** The interpreter on known values *)

(** [f"{x:.pf}"] rounds the binary value of the float, half to even:
    [2.675] is below the decimal it was written as, [0.5] and [2.5] are
    ties, a negative value that rounds to zero keeps its sign. *)
Lemma format_float_fixed_examples :
  format_float_fixed (of_Q (2675 # 1000)) 2 = "2.67" /\
  format_float_fixed (of_Q (5 # 10)) 0 = "0" /\
  format_float_fixed (of_Q (15 # 10)) 0 = "2" /\
  format_float_fixed (of_Q (25 # 10)) 0 = "2" /\
  format_float_fixed (of_Q (-1 # 1000)) 2 = "-0.00" /\
  format_float_fixed (of_Q (1234 # 10)) 20 = "123.40000000000000568434" /\
  format_float_fixed (FFinite 90000000) 2 = "90000000.00".
Proof. repeat (split; [vm_compute; reflexivity|]). vm_compute. reflexivity. Qed.

(** [a / b] on integers: exact halves, a signed zero, the two errors. *)
Lemma int_true_divide_examples :
  int_true_divide 7 2 = Ok (FFinite (7 # 2)) /\
  int_true_divide 0 (-2) = Ok FNegZero /\
  int_true_divide 1 0 = Raise ZeroDivisionError /\
  int_true_divide (10 ^ 400) 1 = Raise OverflowError /\
  int_true_divide (2 ^ 53 + 1) 1 = Ok (FFinite (inject_Z (2 ^ 53))).
Proof. repeat (split; [vm_compute; reflexivity|]). vm_compute. reflexivity. Qed.

(** The console line of the estimate for 90,000,000 bytes per hour. *)
Lemma format_byte_size_example : format_byte_size (FFinite 90000000) = "85.83 MB".
Proof. vm_compute. reflexivity. Qed.

(** ** Readings: [format_opendtu_value] *)

Section Readings.

Variable py : Builtins.

Lemma dict_get_present (m : gmap string json) key default v :
  m !! key = Some v -> dict_get (JObj m) key default = Ok v.
Proof. intros H. unfold dict_get. by rewrite H. Qed.

Lemma dict_get_absent (m : gmap string json) key default :
  m !! key = None -> dict_get (JObj m) key default = Ok default.
Proof. intros H. unfold dict_get. by rewrite H. Qed.

Lemma truthy_obj (m : gmap string json) : truthy (JObj m) = true <-> m ≠ ∅.
Proof.
  simpl. rewrite negb_true_iff, bool_decide_eq_false. tauto.
Qed.

(** A falsy reading is rendered as ["N/A"], whatever the defaults. *)
Lemma format_opendtu_value_falsy dv du dd field :
  truthy field = false -> format_opendtu_value_with py dv du dd field = Ok "N/A".
Proof. intros H. unfold format_opendtu_value_with. by rewrite H. Qed.

(** C5: the reading [{v: 123.4, u: "W", d: 2}] is rendered as
    ["123.40 W"] (the value with two decimals, a space, the unit), and
    an absent reading ([None]) or an empty one ([{}], which [embed_text]
    passes for a missing field) as ["N/A"]. *)
Theorem C5_format_reading :
  format_opendtu_value py Sample.power = Ok "123.40 W" /\
  format_opendtu_value py JNull = Ok "N/A" /\
  format_opendtu_value py (JObj ∅) = Ok "N/A".
Proof. split; [|split]; vm_compute; reflexivity. Qed.

(** C6, as the code has it: a reading that carries [v], [u] and [d] is
    rendered from these alone, whatever the local defaults are; a field
    missing from a non-empty reading is replaced by the local default of
    its [get] (value [0], unit [""], precision [0]), so the reading is
    rendered as if the payload had carried these; and the empty reading
    is rendered as ["N/A"], whatever the defaults. *)
Theorem C6_payload_or_defaults (m : gmap string json) :
  m ≠ ∅ ->
  (forall v u d dv du dd,
      m !! "v" = Some v -> m !! "u" = Some u -> m !! "d" = Some d ->
      format_opendtu_value_with py dv du dd (JObj m) = format_opendtu_value py (JObj m)) /\
  format_opendtu_value py (JObj m) = format_opendtu_value py (JObj (with_defaults m)) /\
  (forall dv du dd, format_opendtu_value_with py dv du dd (JObj ∅) = Ok "N/A").
Proof.
  intros Hne. apply truthy_obj in Hne as Ht. split; [|split; [|done]].
  - intros v u d dv du dd Hv Hu Hd.
    unfold format_opendtu_value, format_opendtu_value_with.
    rewrite Ht. cbn [negb].
    by rewrite !(dict_get_present m _ _ _ Hv), !(dict_get_present m _ _ _ Hu),
      !(dict_get_present m _ _ _ Hd).
  - assert (Ht' : truthy (JObj (with_defaults m)) = true).
    { apply truthy_obj. unfold with_defaults. apply insert_non_empty. }
    unfold format_opendtu_value, format_opendtu_value_with.
    rewrite Ht, Ht'. cbn [negb]. unfold dict_get, with_defaults.
    repeat (rewrite lookup_insert_eq || rewrite lookup_insert_ne by done).
    by destruct (m !! "v"), (m !! "u"), (m !! "d").
Qed.

End Readings.

(** The same at the sample reading that carries all three fields. *)
Lemma C6_payload_or_defaults_witness :
  (forall dv du dd,
      format_opendtu_value_with Sample.py dv du dd Sample.power = Ok "123.40 W") /\
  format_opendtu_value Sample.py Sample.bare = Ok "2 ".
Proof.
  assert (Hne : <["v" := JFloat (of_Q (1234 # 10))]>
                  (<["u" := JStr "W"]> (<["d" := JInt 2]> (∅ : gmap string json))) ≠ ∅)
    by apply insert_non_empty.
  split.
  - intros dv du dd. unfold Sample.power, Sample.reading.
    rewrite (proj1 (C6_payload_or_defaults Sample.py _ Hne)
               (JFloat (of_Q (1234 # 10))) (JStr "W") (JInt 2) dv du dd
               eq_refl eq_refl eq_refl).
    vm_compute. reflexivity.
  - vm_compute. reflexivity.
Defined.

(** C6 as stated fails: the reading [{"v": 1.5}] is not absent, yet its
    rendering ["2 "] takes the precision [0] and the unit [""] from the
    local defaults, and changes with them. *)
Lemma C6_no_local_defaults_counterexample :
  truthy Sample.bare = true /\
  format_opendtu_value Sample.py Sample.bare = Ok "2 " /\
  ~ (forall dv du dd field,
        truthy field = true ->
        format_opendtu_value_with Sample.py dv du dd field
        = format_opendtu_value Sample.py field).
Proof.
  split; [reflexivity|]. split; [vm_compute; reflexivity|].
  intros H. specialize (H (JInt 0) (JStr "kW") (JInt 2) Sample.bare eq_refl).
  vm_compute in H. discriminate H.
Qed.

(** ** Running the monad *)

Lemma run_bind {A B} (m : M A) (k : A -> M B) (w : World) :
  (m ≫= k) w =
  match m w with
  | (Ok a, w') => k a w'
  | (Raise e, w') => (Raise e, w')
  end.
Proof. reflexivity. Qed.

Lemma run_bind_ok {A B} (m : M A) (k : A -> M B) w a w' :
  m w = (Ok a, w') -> (m ≫= k) w = k a w'.
Proof. intros H. by rewrite run_bind, H. Qed.

Lemma run_bind_raise {A B} (m : M A) (k : A -> M B) w e w' :
  m w = (Raise e, w') -> (m ≫= k) w = (Raise e, w').
Proof. intros H. by rewrite run_bind, H. Qed.

Lemma fst_lift {A} (r : result A) w : fst (lift r w) = r.
Proof. by destruct r. Qed.

Lemma lift_ok {A} (a : A) w : lift (Ok a) w = (Ok a, w).
Proof. reflexivity. Qed.

Lemma run_lift_bind {A B} (r : result A) (k : A -> M B) w :
  (lift r ≫= k) w =
  match r with
  | Ok a => k a w
  | Raise e => (Raise e, record Raised (Some e) w)
  end.
Proof. by destruct r. Qed.

(** ** The validation gate of [main] *)

Section Validation.

Variable py : Builtins.
Variable lib : Library.
Variable env : Env.

Lemma check_status_enabled (st o s : gmap string json) :
  st !! "outputs" = Some (JObj o) -> o !! "snapshot" = Some (JObj s) -> s ≠ ∅ ->
  check_status (JObj st) =
  (if eq_int_zero (default (JInt 0) (s !! "height"))
      || eq_int_zero (default (JInt 0) (s !! "width"))
   then Raise (RuntimeError "Invalid snapshot resolution")
   else Ok (default (JInt 0) (s !! "width"), default (JInt 0) (s !! "height"))).
Proof.
  intros Ho Hs Hne. apply truthy_obj in Hne.
  unfold check_status.
  rewrite (dict_get_present st _ _ _ Ho). cbn [mbind result_bind].
  rewrite (dict_get_present o _ _ _ Hs). cbn [mbind result_bind].
  rewrite Hne. cbn [negb]. unfold dict_item. rewrite Hs. cbn [mbind result_bind].
  unfold dict_get. by destruct (s !! "height"), (s !! "width").
Qed.

Lemma snapshot_entry_inv (st : gmap string json) v :
  snapshot_entry st = Some v ->
  exists o, st !! "outputs" = Some (JObj o) /\ o !! "snapshot" = Some v.
Proof.
  unfold snapshot_entry. intros H.
  destruct (st !! "outputs") as [[]|]; try discriminate. eauto.
Qed.

Lemma main_stops_at_gate cfg n w body st e :
  http_response env (length (trace w)) (CAMERA_STATUS_URL cfg) = Ok body ->
  json_loads lib body = Some st ->
  check_status st = Raise e ->
  main py lib env cfg n w = (Raise e, stopped_at_gate cfg e w).
Proof.
  intros Hr Hj Hc. unfold main.
  assert (Hs : get_camera_status lib env cfg w
               = (Ok st, record (HttpGet (CAMERA_STATUS_URL cfg)) None w)).
  { unfold get_camera_status. rewrite run_bind. unfold requests_get. rewrite Hr.
    unfold response_json. by rewrite Hj. }
  rewrite (run_bind_ok _ _ _ _ _ Hs), run_lift_bind. by rewrite Hc.
Qed.

(** A snapshot entry that is a bare flag is enabled but has no [get]:
    the gate ends with [AttributeError]. *)
Lemma check_status_flag_only :
  check_status (JObj (<["outputs" := JObj (<["snapshot" := JBool true]> ∅)]> ∅))
  = Raise AttributeError.
Proof. reflexivity. Qed.

(** C2: for a status response whose [outputs] is absent or an object,
    the gate passes when the snapshot entry is a non-empty object with
    positive [height] and [width]; it raises [RuntimeError] when the
    snapshot output is disabled (no entry or a falsy one) and when the
    entry is enabled with [height] or [width] zero or absent; and on
    either error [main] ends with that exception, status 1, right after
    the status request. *)
Theorem C2_validation_gate (st : gmap string json) :
  outputs_shaped st = true ->
  (forall s h wd,
      snapshot_entry st = Some (JObj s) ->
      s !! "height" = Some (JInt h) -> s !! "width" = Some (JInt wd) ->
      0 < h -> 0 < wd ->
      check_status (JObj st) = Ok (JInt wd, JInt h)) /\
  (snapshot_disabled st = true ->
   check_status (JObj st) = Raise (RuntimeError "Snapshot output is not enabled")) /\
  (forall s,
      snapshot_entry st = Some (JObj s) -> s ≠ ∅ ->
      zero_dimension (s !! "height") || zero_dimension (s !! "width") = true ->
      check_status (JObj st) = Raise (RuntimeError "Invalid snapshot resolution")) /\
  (forall e cfg n w body,
      check_status (JObj st) = Raise e -> CapabilityInvalid e ->
      http_response env (length (trace w)) (CAMERA_STATUS_URL cfg) = Ok body ->
      json_loads lib body = Some (JObj st) ->
      main py lib env cfg n w = (Raise e, stopped_at_gate cfg e w) /\
      exit_status (fst (main py lib env cfg n w)) = Some 1).
Proof.
  intros Hshape. split; [|split; [|split]].
  - intros s h wd He Hh Hw Hhpos Hwpos.
    destruct (snapshot_entry_inv _ _ He) as (o & Ho & Hs).
    assert (Hne : s ≠ ∅) by (intros ->; by rewrite lookup_empty in Hh).
    rewrite (check_status_enabled _ _ _ Ho Hs Hne), Hh, Hw. simpl.
    destruct (Z.eqb_spec h 0), (Z.eqb_spec wd 0); try lia. reflexivity.
  - unfold snapshot_disabled, snapshot_entry, outputs_shaped in *.
    unfold check_status, dict_get.
    destruct (st !! "outputs") as [[| | | | | |o]|]; try discriminate.
    + cbn [mbind result_bind]. destruct (o !! "snapshot") as [v|]; [|done].
      intros Hv. by rewrite Hv.
    + cbn [mbind result_bind]. by rewrite lookup_empty.
  - intros s He Hne Hz.
    destruct (snapshot_entry_inv _ _ He) as (o & Ho & Hs).
    rewrite (check_status_enabled _ _ _ Ho Hs Hne).
    unfold zero_dimension in Hz.
    destruct (s !! "height") as [[| |[]| | | |]|], (s !! "width") as [[| |[]| | | |]|];
      try discriminate Hz; try reflexivity;
      cbn [default eq_int_zero Z.eqb orb]; by rewrite ?orb_true_r.
  - intros e cfg n w body He _ Hr Hj.
    rewrite (main_stops_at_gate cfg n w body (JObj st) e Hr Hj He). by split.
Qed.

End Validation.

(** The gate at three sample responses: 640x480 enabled, an empty
    [outputs], and a snapshot without [height]. *)
Lemma C2_validation_gate_witness :
  check_status (JObj Sample.status) = Ok (JInt 640, JInt 480) /\
  check_status (JObj (<["outputs" := JObj ∅]> ∅))
  = Raise (RuntimeError "Snapshot output is not enabled") /\
  check_status (JObj (<["outputs" := JObj (<["snapshot" :=
      JObj (<["width" := JInt 640]> ∅)]> ∅)]> ∅))
  = Raise (RuntimeError "Invalid snapshot resolution").
Proof.
  split; [|split].
  - refine (proj1 (C2_validation_gate Sample.py Sample.lib Sample.env Sample.status eq_refl)
              (<["height" := JInt 480]> (<["width" := JInt 640]> ∅)) 480 640
              eq_refl eq_refl eq_refl _ _); lia.
  - exact (proj1 (proj2 (C2_validation_gate Sample.py Sample.lib Sample.env
                           (<["outputs" := JObj ∅]> ∅) eq_refl)) eq_refl).
  - refine (proj1 (proj2 (proj2 (C2_validation_gate Sample.py Sample.lib Sample.env
              (<["outputs" := JObj (<["snapshot" :=
                  JObj (<["width" := JInt 640]> ∅)]> ∅)]> ∅) eq_refl)))
              (<["width" := JInt 640]> ∅) eq_refl _ eq_refl).
    apply insert_non_empty.
Defined.

(** ** True division: exact quotients *)

Lemma round_half_even_exact q d : 0 < d -> round_half_even (q * d) d = q.
Proof.
  intros Hd. unfold round_half_even.
  rewrite Z.mod_mul, Z.div_mul by lia.
  replace (2 * 0) with 0 by lia.
  by destruct (Z.compare_spec 0 d); try lia.
Qed.

Lemma Qred_scaled k c : 0 < c -> Qred (k * c # Z.to_pos c) = inject_Z k.
Proof.
  intros Hc. transitivity (Qred (inject_Z k)).
  - apply Qred_complete. unfold Qeq, inject_Z. simpl. rewrite Z2Pos.id by lia. lia.
  - apply Qred_identity. simpl. apply Z.gcd_1_r.
Qed.

Lemma round_mag_exact k b :
  0 < k < 2 ^ 53 -> 0 < b -> round_mag (k * b) b = inject_Z k.
Proof.
  intros [Hk0 Hk] Hb. unfold round_mag.
  destruct (Z.eqb_spec (k * b) 0) as [Hz|_]; [nia|].
  assert (Hfl : floor_log2 (k * b) b = Z.log2 k).
  { unfold floor_log2. destruct (Z.leb_spec b (k * b)); [|nia].
    by rewrite Z.div_mul by lia. }
  rewrite Hfl.
  assert (HL : 0 <= Z.log2 k < 53).
  { split; [apply Z.log2_nonneg|]. by apply Z.log2_lt_pow2. }
  rewrite Z.max_l by lia.
  set (p := 52 - Z.log2 k).
  replace (Z.log2 k - 52) with (- p) by lia.
  assert (Hp : 0 <= p) by lia.
  assert (Hpow : 0 < 2 ^ p) by (apply Z.pow_pos_nonneg; lia).
  destruct (Z.leb_spec 0 (- p)).
  - assert (p = 0) as -> by lia.
    change (- 0) with 0. change (2 ^ 0) with 1.
    replace (b * 1) with b by lia. rewrite round_half_even_exact by done.
    unfold scale2. cbn [Z.leb Z.compare]. change (2 ^ 0) with 1.
    replace (k * 1) with k by lia.
    apply Qred_identity. simpl. apply Z.gcd_1_r.
  - rewrite Z.opp_involutive.
    replace (k * b * 2 ^ p) with (k * 2 ^ p * b) by lia.
    rewrite round_half_even_exact by done.
    unfold scale2. destruct (Z.leb_spec 0 (- p)); [lia|].
    rewrite Z.opp_involutive. by apply Qred_scaled.
Qed.

(** On a grid of operands (small ones, sizes times 3600 over intervals,
    operands beyond 53 bits, quotients in the subnormal range) the
    rounding is that of the Standard Library's IEEE 754 division. *)
Lemma round_mag_agrees_with_SFdiv :
  forallb agrees_with_SFdiv (grid (upto 60) (upto 60)) = true /\
  forallb agrees_with_SFdiv
    (grid ((fun s => s * 3600) <$> upto 100) [2; 3; 7; 11; 60; 3600; 86400]) = true /\
  forallb agrees_with_SFdiv
    (grid ((fun x => 2 ^ 80 + 12345 * x) <$> upto 20)
          ((fun x => 2 ^ 60 + 7 * x) <$> upto 20)) = true /\
  forallb agrees_with_SFdiv
    (grid (upto 4) ((fun x => 2 ^ 1070 + 7 * x) <$> upto 4)) = true.
Proof. split; [|split; [|split]]; vm_compute; reflexivity. Qed.

(** A quotient that is an integer below [2^53] is returned exactly. *)
Lemma int_true_divide_exact k b :
  0 <= k < 2 ^ 53 -> 0 < b -> int_true_divide (k * b) b = Ok (FFinite (inject_Z k)).
Proof.
  intros [Hk0 Hk] Hb. unfold int_true_divide.
  destruct (Z.eqb_spec b 0); [lia|].
  destruct (Z.ltb_spec (k * b) 0); [nia|].
  destruct (Z.ltb_spec b 0); [lia|]. cbn [xorb].
  rewrite !Z.abs_eq by nia.
  destruct (Z.eq_dec k 0) as [->|Hne].
  - reflexivity.
  - unfold of_ratio. rewrite round_mag_exact by lia.
    assert (Hbig : 2 ^ 53 < 2 ^ 1024) by (apply Z.pow_lt_mono_r; lia).
    assert (Hov : Qle_bool (inject_Z (2 ^ 1024)) (inject_Z k) = false).
    { apply not_true_is_false. rewrite Qle_bool_iff, <- Zle_Qle. lia. }
    rewrite Hov. unfold is_zero. cbn [inject_Z Qnum].
    by destruct (Z.eqb_spec k 0).
Qed.

(** ** The capacity estimator *)

Section Estimation.

Variable py : Builtins.
Variable lib : Library.
Variable env : Env.

Lemma length_trace_record o err w :
  length (trace (record o err w)) = S (length (trace w)).
Proof. unfold record. cbn [trace]. rewrite length_app. simpl. lia. Qed.

Lemma trace_set_images l w : trace (set_images l w) = trace w.
Proof. reflexivity. Qed.

Lemma trace_set_files f w : trace (set_files f w) = trace w.
Proof. reflexivity. Qed.

Ltac trace_length :=
  repeat first [ rewrite length_trace_record
               | rewrite trace_set_images
               | rewrite trace_set_files ].

(** *** The primitive operations when they succeed *)

Lemma requests_get_ok url w body :
  http_response env (length (trace w)) url = Ok body ->
  requests_get env url w = (Ok body, record (HttpGet url) None w).
Proof. intros H. unfold requests_get. by rewrite H. Qed.

Lemma requests_get_raise url w e :
  http_response env (length (trace w)) url = Raise e ->
  requests_get env url w = (Raise e, record (HttpGet url) (Some e) w).
Proof. intros H. unfold requests_get. by rewrite H. Qed.

Lemma image_open_ok body w :
  image_identify lib body = true ->
  image_open lib body w =
  (Ok (length (images w)),
   record ImageOpen None
     (set_images (images w ++ [{| opened_from := body; overlay := [] |}]) w)).
Proof. intros H. unfold image_open. by rewrite H. Qed.

Lemma draw_text_ok im pos s w :
  fault env (length (trace w)) = None ->
  draw_text env im 30 pos s w =
  (Ok (),
   let t := {| xy := pos; text := s; font_size := 30; fill := "white";
               stroke_width := 4; stroke_fill := "black" |} in
   record (DrawText im t) None (set_images (alter (add_text t) im (images w)) w)).
Proof. intros H. unfold draw_text. by rewrite H. Qed.

Lemma image_save_ok im path w img :
  fault env (length (trace w)) = None -> images w !! im = Some img ->
  image_save lib env im path w =
  (Ok (), record (ImageSave im path) None
            (set_files (<[path := jpeg_encode lib img]> (files w)) w)).
Proof. intros H1 H2. unfold image_save. by rewrite H1, H2. Qed.

Lemma getsize_ok path w content :
  fault env (length (trace w)) = None -> files w !! path = Some content ->
  getsize env path w = (Ok (Z.of_nat (length content)), record (GetSize path) None w).
Proof. intros H1 H2. unfold getsize. by rewrite H1, H2. Qed.

Lemma remove_ok path w content :
  fault env (length (trace w)) = None -> files w !! path = Some content ->
  remove env path w =
  (Ok (), record (Remove path) None (set_files (delete path (files w)) w)).
Proof. intros H1 H2. unfold remove. by rewrite H1, H2. Qed.

(** A snapshot that arrives and decodes gives a fresh image without
    overlay, three operations later. *)
Lemma get_image_ok cfg w body :
  http_response env (length (trace w)) (CAMERA_SNAPSHOT_URL cfg) = Ok body ->
  image_identify lib body = true ->
  get_image lib env cfg w =
  (Ok (length (images w), clock env (S (length (trace w)))),
   record ImageOpen None
     (set_images (images w ++ [{| opened_from := body; overlay := [] |}])
        (record Now None (record (HttpGet (CAMERA_SNAPSHOT_URL cfg)) None w)))).
Proof.
  intros Hr Hi. unfold get_image.
  rewrite (run_bind_ok _ _ _ _ _ (requests_get_ok _ _ _ Hr)).
  rewrite run_bind. unfold datetime_now at 1.
  rewrite (run_bind_ok _ _ _ _ _ (image_open_ok _ _ Hi)).
  by rewrite length_trace_record.
Qed.

(** What the estimator does when no operation fails: six operations,
    the file [test.jpg] written and removed, then the division. *)
Lemma estimate_size_per_hour_run cfg w body :
  http_response env (length (trace w)) (CAMERA_SNAPSHOT_URL cfg) = Ok body ->
  image_identify lib body = true ->
  quiet env (length (trace w)) 6 ->
  exists w',
    estimate_size_per_hour lib env cfg w
    = lift (int_true_divide
              (Z.of_nat (length (jpeg_encode lib (sample_frame body))) * 3600)
              (TIMEOUT cfg)) w' /\
    files w' = delete "test.jpg" (files w) /\
    images w' = (images w ++ [sample_frame body])%list /\
    trace w' = (trace w ++
      [ {| ev_op := HttpGet (CAMERA_SNAPSHOT_URL cfg); ev_error := None |};
        {| ev_op := Now; ev_error := None |};
        {| ev_op := ImageOpen; ev_error := None |};
        {| ev_op := ImageSave (length (images w)) "test.jpg"; ev_error := None |};
        {| ev_op := GetSize "test.jpg"; ev_error := None |};
        {| ev_op := Remove "test.jpg"; ev_error := None |} ])%list.
Proof.
  intros Hr Hi Hq. unfold estimate_size_per_hour.
  rewrite (run_bind_ok _ _ _ _ _ (get_image_ok cfg w body Hr Hi)).
  set (w1 := record ImageOpen None _).
  assert (Hf1 : fault env (length (trace w1)) = None).
  { subst w1. trace_length. apply Hq. lia. }
  assert (Him : images w1 !! length (images w) = Some (sample_frame body)).
  { subst w1. cbn [images set_images record]. by rewrite lookup_app_r, Nat.sub_diag. }
  rewrite (run_bind_ok _ _ _ _ _ (image_save_ok _ "test.jpg" _ _ Hf1 Him)).
  set (w2 := record (ImageSave _ _) None _).
  assert (Hfile : files w2 !! "test.jpg" = Some (jpeg_encode lib (sample_frame body))).
  { subst w2. cbn [files set_files record]. apply lookup_insert_eq. }
  assert (Hf2 : fault env (length (trace w2)) = None).
  { subst w2 w1. trace_length. apply Hq. lia. }
  rewrite (run_bind_ok _ _ _ _ _ (getsize_ok _ _ _ Hf2 Hfile)).
  set (w3 := record (GetSize _) None _).
  assert (Hf3 : fault env (length (trace w3)) = None).
  { subst w3 w2 w1. trace_length. apply Hq. lia. }
  rewrite (run_bind_ok _ _ _ _ _ (remove_ok _ _ _ Hf3 Hfile)).
  eexists. split; [reflexivity|]. split; [|split].
  - subst w3 w2 w1. cbn [files set_files set_images record]. apply delete_insert_eq.
  - reflexivity.
  - subst w3 w2 w1. cbn [trace set_files set_images record]. by rewrite <- !app_assoc.
Qed.

(** C1: the estimator returns [S * 3600 / I] and [3600 / I], where [S] is
    the size of the sample's encoding and [I > 0] the configured interval;
    the division is Python's true division of integers, and a quotient
    that is an integer below [2^53] is returned as that integer. *)
Theorem C1_capacity_estimate cfg w body :
  0 < TIMEOUT cfg ->
  http_response env (length (trace w)) (CAMERA_SNAPSHOT_URL cfg) = Ok body ->
  image_identify lib body = true ->
  quiet env (length (trace w)) 6 ->
  let size := Z.of_nat (length (jpeg_encode lib (sample_frame body))) in
  let interval := TIMEOUT cfg in
  fst (estimate_size_per_hour lib env cfg w) = int_true_divide (size * 3600) interval /\
  estimate_frames_per_hour cfg = int_true_divide 3600 interval /\
  (forall k, size * 3600 = k * interval -> k < 2 ^ 53 ->
             fst (estimate_size_per_hour lib env cfg w) = Ok (FFinite (inject_Z k))) /\
  (forall k, 3600 = k * interval ->
             estimate_frames_per_hour cfg = Ok (FFinite (inject_Z k))).
Proof.
  intros HI Hr Hi Hq size interval.
  destruct (estimate_size_per_hour_run cfg w body Hr Hi Hq) as (w' & Hrun & _).
  rewrite Hrun, fst_lift. fold size interval. split; [done|]. split; [done|]. split.
  - intros k Hk Hlt. rewrite Hk. apply int_true_divide_exact; [|done].
    split; [|done]. subst size. nia.
  - intros k Hk. unfold estimate_frames_per_hour. fold interval. rewrite Hk.
    apply int_true_divide_exact; [|done].
    assert (0 <= k) by nia.
    assert (k <= 3600) by nia.
    assert (2 ^ 12 < 2 ^ 53) by (apply Z.pow_lt_mono_r; lia).
    change (2 ^ 12) with 4096 in *. lia.
Qed.

End Estimation.

(** The estimator on the sample camera, whose frame encodes to 50000
    bytes, at the interval of the source (2 seconds): 90,000,000 bytes
    and 1800 frames per hour. *)
Lemma C1_capacity_estimate_witness :
  fst (estimate_size_per_hour Sample.lib Sample.env source_config Sample.world)
  = Ok (FFinite 90000000) /\
  estimate_frames_per_hour source_config = Ok (FFinite 1800).
Proof.
  assert (Hq : quiet Sample.env (length (trace Sample.world)) 6)
    by (intros k _; reflexivity).
  assert (HI : 0 < TIMEOUT source_config) by (simpl; lia).
  destruct (C1_capacity_estimate Sample.lib Sample.env source_config Sample.world
              Sample.jpeg_body HI eq_refl eq_refl Hq) as (_ & _ & Hbytes & Hframes).
  split.
  - apply (Hbytes 90000000).
    + unfold Sample.lib, jpeg_encode. rewrite length_replicate.
      change (length (overlay (sample_frame Sample.jpeg_body))) with 0%nat.
      change (TIMEOUT source_config) with 2. lia.
    + reflexivity.
  - apply (Hframes 1800). reflexivity.
Defined.

(** ** The estimator's temporary file *)

Lemma has_slash_in_dir dir name : has_slash (dir +:+ "/" +:+ name) = true.
Proof. induction dir as [|c dir IH]; simpl; [done|]. rewrite IH. apply orb_true_r. Qed.

(** No path inside a directory is the path [test.jpg]. *)
Lemma in_dir_not_test_jpg dir name : dir +:+ "/" +:+ name ≠ "test.jpg".
Proof.
  intros H. pose proof (has_slash_in_dir dir name) as Hs. rewrite H in Hs.
  discriminate Hs.
Qed.

Section TemporaryFile.

Variable lib : Library.
Variable env : Env.

(** C9: when the estimator returns, it has saved the sample to the path
    [test.jpg] (a name relative to the working directory, whatever
    [SAVE_DIR] is), measured and removed it: afterwards no file
    [test.jpg] exists, also when one existed before, every other path
    holds what it held, and so does every path inside [SAVE_DIR]. *)
Theorem C9_estimator_temp_file cfg w body v :
  http_response env (length (trace w)) (CAMERA_SNAPSHOT_URL cfg) = Ok body ->
  image_identify lib body = true ->
  quiet env (length (trace w)) 6 ->
  int_true_divide
    (Z.of_nat (length (jpeg_encode lib (sample_frame body))) * 3600) (TIMEOUT cfg)
  = Ok v ->
  exists w',
    estimate_size_per_hour lib env cfg w = (Ok v, w') /\
    trace w' = (trace w ++
      [ {| ev_op := HttpGet (CAMERA_SNAPSHOT_URL cfg); ev_error := None |};
        {| ev_op := Now; ev_error := None |};
        {| ev_op := ImageOpen; ev_error := None |};
        {| ev_op := ImageSave (length (images w)) "test.jpg"; ev_error := None |};
        {| ev_op := GetSize "test.jpg"; ev_error := None |};
        {| ev_op := Remove "test.jpg"; ev_error := None |} ])%list /\
    files w' !! "test.jpg" = None /\
    (forall path, path ≠ "test.jpg" -> files w' !! path = files w !! path) /\
    (forall name, files w' !! (SAVE_DIR cfg +:+ "/" +:+ name)
                  = files w !! (SAVE_DIR cfg +:+ "/" +:+ name)).
Proof.
  intros Hr Hi Hq Hdiv.
  destruct (estimate_size_per_hour_run lib env cfg w body Hr Hi Hq)
    as (w1 & Hrun & Hfiles & _ & Htrace).
  exists w1. rewrite Hrun, Hdiv, lift_ok. split; [done|]. split; [done|].
  rewrite Hfiles. split; [|split].
  - apply lookup_delete_eq.
  - intros path Hne. by apply lookup_delete_ne.
  - intros name. apply lookup_delete_ne. intros H. symmetry in H.
    by apply in_dir_not_test_jpg in H.
Qed.

End TemporaryFile.

(** The estimator in a world where [test.jpg] and a stored frame exist:
    the former is gone afterwards, the latter untouched. *)
Lemma C9_estimator_temp_file_witness :
  exists w',
    estimate_size_per_hour Sample.lib Sample.env source_config Sample.world_with_files
    = (Ok (FFinite 90000000), w') /\
    files Sample.world_with_files !! "test.jpg" = Some [Byte.x07] /\
    files w' !! "test.jpg" = None /\
    files w' !! "images/image_20240601_115958.jpg" = Some [Byte.x08].
Proof.
  assert (Hq : quiet Sample.env (length (trace Sample.world_with_files)) 6)
    by (intros k _; reflexivity).
  assert (Hdiv : int_true_divide
            (Z.of_nat (length (jpeg_encode Sample.lib (sample_frame Sample.jpeg_body)))
             * 3600) (TIMEOUT source_config) = Ok (FFinite 90000000)).
  { unfold Sample.lib, jpeg_encode. rewrite length_replicate.
    change (length (overlay (sample_frame Sample.jpeg_body))) with 0%nat.
    rewrite Nat.add_0_r, Z2Nat.id by lia. vm_compute. reflexivity. }
  destruct (C9_estimator_temp_file Sample.lib Sample.env source_config
              Sample.world_with_files Sample.jpeg_body _ eq_refl eq_refl Hq Hdiv)
    as (w' & Hrun & _ & Hgone & _ & Hdir).
  exists w'. split; [exact Hrun|]. split; [reflexivity|]. split; [exact Hgone|].
  exact (Hdir "image_20240601_115958.jpg").
Defined.

(** ** The time zone constant *)

Section TimeZone.

Variable py : Builtins.
Variable lib : Library.
Variable env : Env.

Lemma capture_loop_TIME_ZONE tz cfg n :
  capture_loop py lib env (with_TIME_ZONE tz cfg) n = capture_loop py lib env cfg n.
Proof. induction n as [|n IH]; [done|]. cbn [capture_loop]. by rewrite IH. Qed.

(** C10: [TIME_ZONE] is never read. Replacing its value changes neither
    the text drawn for the timestamp (which names the zone of the system,
    [local_tzname]) nor the file name (naive local time), nor anything
    else a run of [main] does or returns. *)
Theorem C10_TIME_ZONE_unused tz cfg :
  (forall image now, embed_text py lib env (with_TIME_ZONE tz cfg) image now
                     = embed_text py lib env cfg image now) /\
  (forall now, save_image_filename (with_TIME_ZONE tz cfg) now
               = save_image_filename cfg now) /\
  (forall n w, main py lib env (with_TIME_ZONE tz cfg) n w = main py lib env cfg n w).
Proof.
  split; [done|]. split; [done|].
  intros n w. unfold main. by rewrite capture_loop_TIME_ZONE.
Qed.

End TimeZone.

(** ** Failures end the run *)

Lemma bind_inv_ok {A B} (m : M A) (k : A -> M B) w b w' :
  (m ≫= k) w = (Ok b, w') ->
  exists a w1, m w = (Ok a, w1) /\ k a w1 = (Ok b, w').
Proof.
  rewrite run_bind. destruct (m w) as [[a|e] w1]; [eauto|discriminate].
Qed.

Lemma lift_inv_ok {A} (r : result A) w a w' :
  lift r w = (Ok a, w') -> r = Ok a /\ w' = w.
Proof. destruct r; simpl; intros H; by simplify_eq. Qed.

Create HintDb fail_stop.

Lemma outcome_ok_one {A} (a : A) o : outcome_of (Ok a) [succeeded o].
Proof. simpl. by repeat constructor. Qed.

Lemma outcome_raise_one {A} o e : outcome_of (@Raise A e) [failed o e].
Proof. exists [], o. split; [done|constructor]. Qed.

Lemma fail_stop_one {A} (m : M A) :
  (forall w r w', m w = (r, w') ->
     exists o w0, w' = match r with
                       | Ok _ => record o None w0
                       | Raise e => record o (Some e) w0
                       end /\ trace w0 = trace w) ->
  fail_stop m.
Proof.
  intros H w r w' Hm. destruct (H w r w' Hm) as (o & w0 & Hw & Ht).
  destruct r; subst w'; eexists [_]; cbn [trace record]; rewrite Ht;
    (split; [reflexivity|]);
    first [apply outcome_ok_one | apply outcome_raise_one].
Qed.

Lemma fail_stop_ret {A} (a : A) : fail_stop (mret a : M A).
Proof.
  intros w r w' H. unfold mret, M_ret in H. simplify_eq. exists [].
  split; [by rewrite app_nil_r|constructor].
Qed.

Lemma fail_stop_raise {A} e : fail_stop (@raise A e).
Proof.
  apply fail_stop_one. intros w r w' H. unfold raise in H. simplify_eq.
  eexists _, _. split; reflexivity.
Qed.

Lemma fail_stop_lift {A} (r : result A) : fail_stop (lift r).
Proof.
  intros w r' w' H. destruct r; simpl in H; simplify_eq.
  - exists []. split; [by rewrite app_nil_r|constructor].
  - eexists [_]. split; [reflexivity|apply outcome_raise_one].
Qed.

Lemma fail_stop_bind {A B} (m : M A) (k : A -> M B) :
  fail_stop m -> (forall a, fail_stop (k a)) -> fail_stop (m ≫= k).
Proof.
  intros Hm Hk w r w' H. rewrite run_bind in H.
  destruct (m w) as [[a|e] w1] eqn:Em.
  - destruct (Hm _ _ _ Em) as (evs1 & Ht1 & Ho1).
    destruct (Hk a _ _ _ H) as (evs2 & Ht2 & Ho2).
    exists (evs1 ++ evs2)%list. split; [by rewrite Ht2, Ht1, app_assoc|].
    simpl in Ho1. destruct r as [b|e].
    + simpl in *. by apply Forall_app.
    + destruct Ho2 as (pre & o & -> & Hpre). exists (evs1 ++ pre)%list, o.
      split; [by rewrite app_assoc|by apply Forall_app].
  - simplify_eq. exact (Hm _ _ _ Em).
Qed.

#[local] Hint Resolve fail_stop_ret fail_stop_raise fail_stop_lift : fail_stop.
#[local] Hint Extern 2 (fail_stop (_ ≫= _)) =>
  apply fail_stop_bind; [|intros] : fail_stop.
#[local] Hint Extern 3 (fail_stop (let '(_, _) := ?p in _)) =>
  destruct p : fail_stop.

Section FailStop.

Variable py : Builtins.
Variable lib : Library.
Variable env : Env.

Ltac primitive f :=
  apply fail_stop_one; intros w r w' H; unfold f in H;
  repeat case_match; simplify_eq; eexists _, _; split; reflexivity.

Lemma fail_stop_requests_get url : fail_stop (requests_get env url).
Proof. primitive @requests_get. Qed.

Lemma fail_stop_response_json body : fail_stop (response_json lib body).
Proof. unfold response_json. case_match; auto with fail_stop. Qed.

Lemma fail_stop_datetime_now : fail_stop (datetime_now env).
Proof. primitive @datetime_now. Qed.

Lemma fail_stop_image_open body : fail_stop (image_open lib body).
Proof. primitive @image_open. Qed.

Lemma fail_stop_ImageDraw_Draw im : fail_stop (ImageDraw_Draw lib im).
Proof.
  intros w r w' H. unfold ImageDraw_Draw in H. repeat case_match; simplify_eq.
  all: first [ exists []; split; [by rewrite app_nil_r|constructor]
             | eexists [_]; split; [reflexivity|apply outcome_raise_one] ].
Qed.

Lemma fail_stop_ImageFont_load_default size :
  fail_stop (ImageFont_load_default lib size).
Proof.
  intros w r w' H. unfold ImageFont_load_default in H. case_match; simplify_eq.
  all: first [ exists []; split; [by rewrite app_nil_r|constructor]
             | eexists [_]; split; [reflexivity|apply outcome_raise_one] ].
Qed.

Lemma fail_stop_draw_text im font pos s : fail_stop (draw_text env im font pos s).
Proof. primitive @draw_text. Qed.

Lemma fail_stop_image_save im path : fail_stop (image_save lib env im path).
Proof. primitive @image_save. Qed.

Lemma fail_stop_getsize path : fail_stop (getsize env path).
Proof. primitive @getsize. Qed.

Lemma fail_stop_remove path : fail_stop (remove env path).
Proof. primitive @remove. Qed.

Lemma fail_stop_print line : fail_stop (print line).
Proof. primitive @print. Qed.

Lemma fail_stop_sleep seconds : fail_stop (sleep seconds).
Proof. primitive @sleep. Qed.

Hint Resolve fail_stop_ImageDraw_Draw fail_stop_ImageFont_load_default : fail_stop.
Hint Resolve fail_stop_requests_get fail_stop_response_json fail_stop_datetime_now
  fail_stop_image_open fail_stop_draw_text fail_stop_image_save fail_stop_getsize
  fail_stop_remove fail_stop_print fail_stop_sleep : fail_stop.

Lemma fail_stop_get_opendtu_data cfg : fail_stop (get_opendtu_data lib env cfg).
Proof. unfold get_opendtu_data. auto with fail_stop. Qed.

Lemma fail_stop_get_camera_status cfg : fail_stop (get_camera_status lib env cfg).
Proof. unfold get_camera_status. auto with fail_stop. Qed.

Lemma fail_stop_get_image cfg : fail_stop (get_image lib env cfg).
Proof. unfold get_image. auto 10 with fail_stop. Qed.

Hint Resolve fail_stop_get_opendtu_data fail_stop_get_camera_status
  fail_stop_get_image : fail_stop.

Lemma fail_stop_embed_text cfg image now : fail_stop (embed_text py lib env cfg image now).
Proof. unfold embed_text. auto 20 with fail_stop. Qed.

Lemma fail_stop_save_image cfg image now : fail_stop (save_image lib env cfg image now).
Proof. unfold save_image. auto with fail_stop. Qed.

Lemma fail_stop_estimate_size_per_hour cfg : fail_stop (estimate_size_per_hour lib env cfg).
Proof. unfold estimate_size_per_hour. auto 10 with fail_stop. Qed.

Hint Resolve fail_stop_embed_text fail_stop_save_image
  fail_stop_estimate_size_per_hour : fail_stop.

Lemma fail_stop_loop_body cfg : fail_stop (loop_body py lib env cfg).
Proof. unfold loop_body. auto 10 with fail_stop. Qed.

Hint Resolve fail_stop_loop_body : fail_stop.

Lemma fail_stop_capture_loop cfg n : fail_stop (capture_loop py lib env cfg n).
Proof. induction n; cbn [capture_loop]; auto with fail_stop. Qed.

Hint Resolve fail_stop_capture_loop : fail_stop.

Lemma fail_stop_main cfg n : fail_stop (main py lib env cfg n).
Proof. unfold main. auto 20 with fail_stop. Qed.

End FailStop.

(** ** The capture loop *)

Section Loop.

Variable py : Builtins.
Variable lib : Library.
Variable env : Env.

Ltac step H :=
  let a := fresh "a" in
  let w := fresh "w" in
  let Hs := fresh "Hs" in
  apply bind_inv_ok in H as (a & w & Hs & H).

Ltac step_lift H :=
  let a := fresh "a" in
  let w := fresh "w" in
  let Hs := fresh "Hs" in
  apply bind_inv_ok in H as (a & w & Hs & H);
  apply lift_inv_ok in Hs as [Hs ->].

(** *** What a completed call has done *)

Lemma requests_get_inv url w body w' :
  requests_get env url w = (Ok body, w') -> w' = record (HttpGet url) None w.
Proof. unfold requests_get. intros H. case_match; by simplify_eq. Qed.

Lemma response_json_inv body w j w' :
  response_json lib body w = (Ok j, w') -> w' = w.
Proof.
  unfold response_json. intros H. case_match; [|discriminate].
  unfold mret, M_ret in H. by simplify_eq.
Qed.

Lemma image_open_inv body w im w' :
  image_open lib body w = (Ok im, w') ->
  im = length (images w) /\
  w' = record ImageOpen None
         (set_images (images w ++ [{| opened_from := body; overlay := [] |}]) w).
Proof. unfold image_open. intros H. case_match; by simplify_eq. Qed.

Lemma draw_text_inv im pos s w w' :
  draw_text env im 30 pos s w = (Ok (), w') ->
  w' = record (DrawText im (label pos s)) None
         (set_images (alter (add_text (label pos s)) im (images w)) w).
Proof. unfold draw_text. intros H. case_match; by simplify_eq. Qed.

Lemma image_save_inv im path w w' :
  image_save lib env im path w = (Ok (), w') ->
  exists img, images w !! im = Some img /\
    w' = record (ImageSave im path) None
           (set_files (<[path := jpeg_encode lib img]> (files w)) w).
Proof. unfold image_save. intros H. repeat case_match; simplify_eq. eauto. Qed.

Lemma sleep_inv seconds w w' :
  sleep seconds w = (Ok (), w') -> w' = record (Sleep seconds) None w.
Proof. unfold sleep. intros H. case_match; by simplify_eq. Qed.

Lemma get_image_inv cfg w im now w' :
  get_image lib env cfg w = (Ok (im, now), w') ->
  im = length (images w) /\
  files w' = files w /\
  trace w' = (trace w ++ [ succeeded (HttpGet (CAMERA_SNAPSHOT_URL cfg));
                           succeeded Now; succeeded ImageOpen ])%list.
Proof.
  unfold get_image. intros H. step H. step H. step H.
  apply requests_get_inv in Hs as ->.
  unfold datetime_now in Hs0. simplify_eq.
  apply image_open_inv in Hs1 as [-> ->].
  unfold mret, M_ret in H. simplify_eq.
  split; [done|]. split; [done|].
  cbn [trace set_images record]. by rewrite <- !app_assoc.
Qed.

Lemma get_opendtu_data_inv cfg w data w' :
  get_opendtu_data lib env cfg w = (Ok data, w') ->
  w' = record (HttpGet (OPENDTU_STATUS_URL cfg)) None w.
Proof.
  unfold get_opendtu_data. intros H. step H.
  apply requests_get_inv in Hs as ->. by apply response_json_inv in H.
Qed.

Lemma ImageDraw_Draw_inv im w draw w' :
  ImageDraw_Draw lib im w = (Ok draw, w') ->
  draw = im /\ w' = w /\
  exists img, images w !! im = Some img /\ draw_error lib img = None.
Proof.
  unfold ImageDraw_Draw. intros H. repeat case_match; simplify_eq. eauto.
Qed.

Lemma ImageFont_load_default_inv size w font w' :
  ImageFont_load_default lib size w = (Ok font, w') ->
  font = size /\ w' = w /\ font_error lib size = None.
Proof.
  unfold ImageFont_load_default. intros H. case_match; by simplify_eq.
Qed.

Lemma embed_text_inv cfg im now w im' w' :
  embed_text py lib env cfg im now w = (Ok im', w') ->
  exists local power_string yield_day_string,
    astimezone env now = Ok local /\
    im' = im /\
    files w' = files w /\
    trace w' = (trace w ++
      [ succeeded (HttpGet (OPENDTU_STATUS_URL cfg));
        succeeded (DrawText im (label (10, 10)
           (strftime (TIME_FORMAT cfg) local (local_tzname env now))));
        succeeded (DrawText im (label (10, 40) power_string));
        succeeded (DrawText im (label (10, 70) yield_day_string)) ])%list.
Proof.
  unfold embed_text. intros H.
  apply bind_inv_ok in H as (draw & wd & Hdraw & H).
  apply ImageDraw_Draw_inv in Hdraw as (-> & -> & _).
  apply bind_inv_ok in H as (font & wf & Hfont & H).
  apply ImageFont_load_default_inv in Hfont as (-> & -> & _).
  apply bind_inv_ok in H as (local & wl & Hlocal & H).
  apply lift_inv_ok in Hlocal as [Hlocal ->].
  step H.
  apply get_opendtu_data_inv in Hs as ->.
  do 6 step_lift H.
  step H. step H. step H.
  destruct a6, a7, a8.
  apply draw_text_inv in Hs5 as ->. apply draw_text_inv in Hs6 as ->.
  apply draw_text_inv in Hs7 as ->.
  unfold mret, M_ret in H. simplify_eq.
  eexists local, _, _. split; [done|]. split; [done|]. split; [done|].
  cbn [trace set_images record]. by rewrite <- !app_assoc.
Qed.

Lemma save_image_inv cfg im now w w' :
  save_image lib env cfg im now w = (Ok (), w') ->
  exists img, images w !! im = Some img /\
    files w' = <[save_image_filename cfg now := jpeg_encode lib img]> (files w) /\
    trace w' = (trace w ++
      [ succeeded (ImageSave im (save_image_filename cfg now));
        succeeded (Print ("Image saved to " +:+ save_image_filename cfg now)) ])%list.
Proof.
  unfold save_image. intros H. step H. destruct a.
  apply image_save_inv in Hs as (img & Him & ->).
  unfold print in H. simplify_eq. exists img. split; [done|]. split; [done|].
  cbn [trace set_files record]. by rewrite <- !app_assoc.
Qed.

(** A completed turn of the loop consists of the ten operations of
    [iteration_events], in that order, and of nothing else. *)
Lemma loop_body_inv cfg w w' :
  loop_body py lib env cfg w = (Ok (), w') ->
  exists evs, is_iteration cfg evs /\ trace w' = (trace w ++ evs)%list.
Proof.
  unfold loop_body. intros H. step H. destruct a as [im now].
  step H. step H. destruct a0.
  apply get_image_inv in Hs as (-> & _ & Ht0).
  apply embed_text_inv in Hs0 as (local & ps & ys & _ & -> & _ & Ht1).
  apply save_image_inv in Hs1 as (img & _ & _ & Ht2).
  apply sleep_inv in H as ->.
  eexists. split; [by eexists _, now, _, ps, ys|].
  cbn [trace record]. rewrite Ht2, Ht1, Ht0. by rewrite <- !app_assoc.
Qed.

Lemma capture_loop_inv cfg n : forall w w',
  capture_loop py lib env cfg n w = (Ok (), w') ->
  exists turns, length turns = n /\ Forall (is_iteration cfg) turns /\
                trace w' = (trace w ++ concat turns)%list.
Proof.
  induction n as [|n IH]; intros w w' H.
  - unfold capture_loop, mret, M_ret in H. simplify_eq. exists [].
    split; [done|]. split; [constructor|]. by rewrite app_nil_r.
  - cbn [capture_loop] in H. step H. destruct a.
    apply loop_body_inv in Hs as (evs & Hit & Ht).
    apply IH in H as (turns & Hlen & Hall & Ht').
    exists (evs :: turns). split; [simpl; by rewrite Hlen|].
    split; [by constructor|]. rewrite Ht', Ht. simpl. by rewrite app_assoc.
Qed.

(** *** A turn completes in a healthy environment *)

Lemma result_bind_inv_ok {A B} (r : result A) (k : A -> result B) b :
  r ≫= k = Ok b -> exists a, r = Ok a /\ k a = Ok b.
Proof. destruct r as [a|e]; [eauto|discriminate]. Qed.

Lemma get_image_healthy cfg w :
  healthy py lib env cfg ->
  exists body w',
    get_image lib env cfg w
    = (Ok (length (images w), clock env (S (length (trace w)))), w') /\
    images w' !! length (images w) = Some (sample_frame body) /\
    draw_error lib (sample_frame body) = None.
Proof.
  intros (_ & _ & Hcam & _).
  destruct (Hcam (length (trace w))) as (body & Hr & Hi & Hd).
  eexists body, _. split; [exact (get_image_ok lib env cfg w body Hr Hi)|].
  split; [|done].
  cbn [images set_images record]. by rewrite lookup_app_r, Nat.sub_diag.
Qed.

Lemma draw_text_healthy cfg im pos s w img :
  healthy py lib env cfg -> images w !! im = Some img ->
  exists w', draw_text env im 30 pos s w = (Ok (), w') /\
             images w' !! im = Some (add_text (label pos s) img).
Proof.
  intros (_ & Hf & _) Him.
  exists (record (DrawText im (label pos s)) None
            (set_images (alter (add_text (label pos s)) im (images w)) w)).
  split; [unfold draw_text; by rewrite Hf|].
  cbn [images set_images record]. by rewrite list_lookup_alter_eq, Him.
Qed.

Lemma embed_text_healthy cfg im now local w img :
  healthy py lib env cfg -> images w !! im = Some img ->
  draw_error lib img = None -> astimezone env now = Ok local ->
  exists w' img',
    embed_text py lib env cfg im now w = (Ok im, w') /\ images w' !! im = Some img'.
Proof.
  intros Hh Him Hdraw Hlocal. pose proof Hh as (_ & _ & _ & Hfont & Hdtu).
  destruct (Hdtu (length (trace w))) as (body & data & texts & Hr & Hj & Htexts).
  unfold annotation_texts in Htexts.
  apply result_bind_inv_ok in Htexts as (total & Htotal & Htexts).
  apply result_bind_inv_ok in Htexts as (power & Hpower & Htexts).
  apply result_bind_inv_ok in Htexts as (pv & Hpv & Htexts).
  apply result_bind_inv_ok in Htexts as (yield_day & Hyield & Htexts).
  apply result_bind_inv_ok in Htexts as (yv & Hyv & _).
  unfold embed_text.
  rewrite run_bind. unfold ImageDraw_Draw at 1. rewrite Him, Hdraw.
  rewrite run_bind. unfold ImageFont_load_default at 1. rewrite Hfont.
  rewrite run_lift_bind, Hlocal.
  assert (Hdata : get_opendtu_data lib env cfg w
                  = (Ok data, record (HttpGet (OPENDTU_STATUS_URL cfg)) None w)).
  { unfold get_opendtu_data.
    rewrite (run_bind_ok _ _ _ _ _ (requests_get_ok env _ _ _ Hr)).
    unfold response_json. by rewrite Hj. }
  rewrite (run_bind_ok _ _ _ _ _ Hdata).
  rewrite run_lift_bind, Htotal, run_lift_bind, Hpower, run_lift_bind, Hpv.
  rewrite run_lift_bind, run_lift_bind, Hyield, run_lift_bind, Hyv.
  set (w1 := record _ None w).
  assert (Him1 : images w1 !! im = Some img) by done.
  destruct (draw_text_healthy cfg im (10, 10)
              (strftime (TIME_FORMAT cfg) local (local_tzname env now)) w1 img Hh Him1)
    as (w2 & Hd1 & Him2).
  destruct (draw_text_healthy cfg im (10, 40) ("Power: " +:+ pv) w2 _ Hh Him2)
    as (w3 & Hd2 & Him3).
  destruct (draw_text_healthy cfg im (10, 70) ("Yield Today: " +:+ yv) w3 _ Hh Him3)
    as (w4 & Hd3 & Him4).
  rewrite (run_bind_ok _ _ _ _ _ Hd1), (run_bind_ok _ _ _ _ _ Hd2),
    (run_bind_ok _ _ _ _ _ Hd3).
  by eexists _, _.
Qed.

Lemma save_image_healthy cfg im now w img :
  healthy py lib env cfg -> images w !! im = Some img ->
  exists w', save_image lib env cfg im now w = (Ok (), w').
Proof.
  intros (_ & Hf & _) Him. unfold save_image.
  rewrite (run_bind_ok _ _ _ _ _ (image_save_ok lib env _ _ _ _ (Hf _) Him)).
  by eexists.
Qed.

Lemma loop_body_healthy cfg w :
  healthy py lib env cfg -> exists w', loop_body py lib env cfg w = (Ok (), w').
Proof.
  intros Hh. unfold loop_body.
  destruct (get_image_healthy cfg w Hh) as (body & w1 & Hg & Him & Hdraw).
  rewrite (run_bind_ok _ _ _ _ _ Hg).
  destruct (embed_text_healthy cfg _ _ _ w1 _ Hh Him Hdraw
              (clock_is_local env (S (length (trace w)))))
    as (w2 & img' & He & Him').
  rewrite (run_bind_ok _ _ _ _ _ He).
  destruct (save_image_healthy cfg _ (clock env (S (length (trace w)))) w2 img' Hh Him')
    as (w3 & Hs).
  rewrite (run_bind_ok _ _ _ _ _ Hs).
  unfold sleep. destruct Hh as (HT & _).
  destruct (Z.ltb_spec (TIMEOUT cfg) 0); [lia|]. by eexists.
Qed.

Lemma capture_loop_healthy cfg n :
  healthy py lib env cfg -> forall w, exists w', capture_loop py lib env cfg n w = (Ok (), w').
Proof.
  intros Hh. induction n as [|n IH]; intros w.
  - by eexists.
  - cbn [capture_loop].
    destruct (loop_body_healthy cfg w Hh) as (w1 & H1).
    rewrite (run_bind_ok _ _ _ _ _ H1). apply IH.
Qed.

(** The loop has no exit of its own: after [n] completed turns the next
    one starts. *)
Lemma capture_loop_next cfg n : forall w w',
  capture_loop py lib env cfg n w = (Ok (), w') ->
  capture_loop py lib env cfg (S n) w = loop_body py lib env cfg w'.
Proof.
  induction n as [|n IH]; intros w w' H.
  - unfold capture_loop at 1, mret, M_ret in H. simplify_eq.
    cbn [capture_loop]. rewrite run_bind.
    by destruct (loop_body py lib env cfg w') as [[[]|e] w1].
  - cbn [capture_loop] in H. step H. destruct a.
    change (capture_loop py lib env cfg (S (S n)))
      with (loop_body py lib env cfg;; capture_loop py lib env cfg (S n)).
    rewrite (run_bind_ok _ _ _ _ _ Hs). by apply IH.
Qed.

(** *** A failing telemetry fetch *)

Lemma get_opendtu_data_frame cfg w r w' :
  get_opendtu_data lib env cfg w = (r, w') ->
  files w' = files w /\ images w' = images w /\
  exists evs, trace w' = (trace w ++ evs)%list /\
    Forall (fun ev => ev_op ev = HttpGet (OPENDTU_STATUS_URL cfg) \/ ev_op ev = Raised) evs.
Proof.
  unfold get_opendtu_data. rewrite run_bind. unfold requests_get, response_json.
  intros H. repeat case_match; unfold mret, M_ret, raise in *; simplify_eq.
  all: split; [done|]; split; [done|].
  all: cbn [trace record]; rewrite <- ?app_assoc; eexists; split; [reflexivity|].
  all: repeat (apply List.Forall_cons; [(by left) || (by right)|]).
  all: apply List.Forall_nil.
Qed.

(** The capture time is the clock read after the reply arrived. *)
Lemma get_image_now cfg w im now w' :
  get_image lib env cfg w = (Ok (im, now), w') ->
  now = clock env (S (length (trace w))).
Proof.
  unfold get_image. intros H. step H. step H. step H.
  apply requests_get_inv in Hs as ->.
  unfold datetime_now in Hs0. simplify_eq.
  unfold mret, M_ret in H. simplify_eq.
  cbn [trace record]. rewrite length_app. cbn [length]. f_equal. lia.
Qed.

(** C3: when the telemetry fetch of a turn fails ([embed_text] has
    obtained the draw object and the font and asks the OpenDTU),
    [embed_text] ends with that failure before any [draw.text]: the
    images are as they were, the turn and with it the loop end with the
    same exception, nothing but the request was attempted, and the files
    are those that existed when the turn began. *)
Theorem C3_annotation_all_or_nothing cfg w0 image now w e w1 :
  get_image lib env cfg w0 = (Ok (image, now), w) ->
  ImageDraw_Draw lib image w = (Ok image, w) ->
  ImageFont_load_default lib 30 w = (Ok 30, w) ->
  get_opendtu_data lib env cfg w = (Raise e, w1) ->
  embed_text py lib env cfg image now w = (Raise e, w1) /\
  images w1 = images w /\
  (exists evs, trace w1 = (trace w ++ evs)%list /\
     Forall (fun ev => ev_op ev = HttpGet (OPENDTU_STATUS_URL cfg) \/ ev_op ev = Raised)
       evs) /\
  (forall n, capture_loop py lib env cfg (S n) w0 = (Raise e, w1)) /\
  files w1 = files w0.
Proof.
  intros Hg Hdraw Hfont Hd.
  destruct (get_opendtu_data_frame _ _ _ _ Hd) as (Hf & Hi & Hev).
  assert (He : embed_text py lib env cfg image now w = (Raise e, w1)).
  { unfold embed_text.
    rewrite (run_bind_ok _ _ _ _ _ Hdraw), (run_bind_ok _ _ _ _ _ Hfont).
    rewrite (get_image_now _ _ _ _ _ Hg), run_lift_bind, clock_is_local.
    by rewrite (run_bind_raise _ _ _ _ _ Hd). }
  split; [done|]. split; [done|]. split; [done|]. split.
  - intros n. cbn [capture_loop]. unfold loop_body.
    rewrite run_bind, run_bind, Hg. by rewrite (run_bind_raise _ _ _ _ _ He).
  - apply get_image_inv in Hg as (_ & Hf0 & _). by rewrite Hf, Hf0.
Qed.

(** C8: whatever happens during a run of [main], the operations it has
    performed are all successful when the loop is still running; when
    the run has ended, exactly one operation failed, it is the last one
    of the run, its exception is the one [main] ends with, and the exit
    status is 1.  So no operation is attempted after a failure: none is
    caught, none retried. *)
Theorem C8_errors_are_fatal cfg n w :
  let r := fst (main py lib env cfg n w) in
  let w' := snd (main py lib env cfg n w) in
  exists evs,
    trace w' = (trace w ++ evs)%list /\
    match r with
    | Ok _ => all_ok evs /\ exit_status r = None
    | Raise e =>
        (exists pre o, evs = (pre ++ [failed o e])%list /\ all_ok pre) /\
        exit_status r = Some 1
    end /\
    (forall pre ev post e,
        evs = (pre ++ ev :: post)%list -> ev_error ev = Some e ->
        post = [] /\ r = Raise e).
Proof.
  intros r w'. subst r w'.
  destruct (main py lib env cfg n w) as [r w'] eqn:Hrun. cbn [fst snd].
  destruct (fail_stop_main py lib env cfg n w r w' Hrun) as (evs & Ht & Ho).
  exists evs. split; [done|]. split.
  - destruct r; [by split|]. by split.
  - intros pre ev post e Hevs Herr. destruct r as [[]|e'].
    + simpl in Ho. rewrite Hevs in Ho.
      apply Forall_app in Ho as [_ Ho]. apply Forall_cons in Ho as [Ho _].
      congruence.
    + destruct Ho as (pre' & o & Hevs' & Hpre).
      destruct post as [|y post _] using rev_ind.
      * rewrite Hevs in Hevs'. apply app_inj_tail in Hevs' as [_ ->].
        simpl in Herr. by simplify_eq.
      * rewrite Hevs in Hevs'.
        change (pre ++ ev :: post ++ [y])%list
          with (pre ++ (ev :: post) ++ [y])%list in Hevs'.
        rewrite app_assoc in Hevs'. apply app_inj_tail in Hevs' as [<- _].
        apply Forall_app in Hpre as [_ Hpre]. apply Forall_cons in Hpre as [Hpre _].
        congruence.
Qed.

End Loop.

(** The turn in which the OpenDTU does not answer, in a world with
    files: the loop ends with the failure of the request, the frame is
    as it was opened, and the files are those that were there. *)
Lemma C3_annotation_all_or_nothing_witness :
  let run := capture_loop Sample.py Sample.lib Sample.env_opendtu_down source_config 3
               Sample.world_with_files in
  fst run = Raise ConnectionError /\
  images (snd run) = [sample_frame Sample.jpeg_body] /\
  files (snd run) = files Sample.world_with_files.
Proof.
  set (w0 := Sample.world_with_files).
  set (w := snd (get_image Sample.lib Sample.env_opendtu_down source_config w0)).
  set (w1 := snd (get_opendtu_data Sample.lib Sample.env_opendtu_down source_config w)).
  assert (Hg : get_image Sample.lib Sample.env_opendtu_down source_config w0
               = (Ok (0%nat, Sample.noon 1), w)) by (vm_compute; reflexivity).
  assert (Hd : get_opendtu_data Sample.lib Sample.env_opendtu_down source_config w
               = (Raise ConnectionError, w1)) by (vm_compute; reflexivity).
  assert (Hdraw : ImageDraw_Draw Sample.lib 0 w = (Ok 0%nat, w))
    by (vm_compute; reflexivity).
  assert (Hfont : ImageFont_load_default Sample.lib 30 w = (Ok 30, w))
    by (vm_compute; reflexivity).
  destruct (C3_annotation_all_or_nothing Sample.py Sample.lib Sample.env_opendtu_down
              source_config w0 0%nat (Sample.noon 1) w ConnectionError w1
              Hg Hdraw Hfont Hd)
    as (_ & Himages & _ & Hloop & Hfiles).
  cbv zeta. rewrite (Hloop 2%nat). cbn [fst snd].
  split; [reflexivity|]. split; [|exact Hfiles].
  rewrite Himages. reflexivity.
Defined.


(** ** File names of stored frames *)

(** *** The calendar orders datetimes as their fields do *)

Lemma month_cases m :
  1 <= m <= 12 ->
  m = 1 \/ m = 2 \/ m = 3 \/ m = 4 \/ m = 5 \/ m = 6 \/
  m = 7 \/ m = 8 \/ m = 9 \/ m = 10 \/ m = 11 \/ m = 12.
Proof. lia. Qed.

Lemma days_in_month_le y m : days_in_month y m <= 31.
Proof.
  unfold days_in_month. repeat case_match; lia.
Qed.

Lemma leap_day_range y : 0 <= leap_day y <= 1.
Proof. unfold leap_day. destruct (is_leap y); lia. Qed.

(** A day of the year lies within the year. *)
Lemma day_of_year_range y m d :
  1 <= m <= 12 -> 1 <= d <= days_in_month y m ->
  1 <= days_before_month y m + d <= 365 + leap_day y.
Proof.
  intros Hm Hd. unfold days_before_month, leap_day.
  destruct (month_cases m Hm) as [->|[->|[->|[->|[->|[->|[->|[->|[->|[->|[->| ->]]]]]]]]]]];
    cbn in Hd |- *; destruct (is_leap y); lia.
Qed.

(** Within a year, a later month or day is a later day of the year. *)
Lemma day_of_year_mono y m1 d1 m2 d2 :
  1 <= m1 <= 12 -> 1 <= m2 <= 12 ->
  1 <= d1 <= days_in_month y m1 -> 1 <= d2 <= days_in_month y m2 ->
  m1 < m2 \/ (m1 = m2 /\ d1 < d2) ->
  days_before_month y m1 + d1 < days_before_month y m2 + d2.
Proof.
  intros Hm1 Hm2 Hd1 Hd2 Hlt. unfold days_before_month.
  destruct (month_cases m1 Hm1) as [->|[->|[->|[->|[->|[->|[->|[->|[->|[->|[->| ->]]]]]]]]]]];
    destruct (month_cases m2 Hm2) as [->|[->|[->|[->|[->|[->|[->|[->|[->|[->|[->| ->]]]]]]]]]]];
    try lia; cbn in Hd1, Hd2 |- *; destruct (is_leap y); lia.
Qed.

Lemma days_before_year_succ y :
  days_before_year (y + 1) = days_before_year y + 365 + leap_day y.
Proof.
  unfold days_before_year, leap_day, is_leap.
  replace (y + 1 - 1) with y by lia.
  destruct (Z.eqb_spec (y mod 4) 0), (Z.eqb_spec (y mod 100) 0),
    (Z.eqb_spec (y mod 400) 0); cbn [negb andb orb];
    Z.to_euclidean_division_equations; lia.
Qed.

Lemma days_before_year_mono y1 y2 :
  y1 <= y2 -> days_before_year y1 <= days_before_year y2.
Proof.
  intros H. unfold days_before_year.
  Z.to_euclidean_division_equations. lia.
Qed.

Lemma ordinal_mono t1 t2 :
  valid_datetime t1 -> valid_datetime t2 ->
  year t1 < year t2 \/
  (year t1 = year t2 /\
   (month t1 < month t2 \/ (month t1 = month t2 /\ day t1 < day t2))) ->
  ordinal t1 < ordinal t2.
Proof.
  intros (Hy1 & Hm1 & Hd1 & _) (Hy2 & Hm2 & Hd2 & _) [Hy|[Hy Hmd]]; unfold ordinal.
  - pose proof (day_of_year_range _ _ _ Hm1 Hd1).
    pose proof (day_of_year_range _ _ _ Hm2 Hd2).
    pose proof (days_before_year_succ (year t1)).
    pose proof (days_before_year_mono (year t1 + 1) (year t2)). lia.
  - rewrite Hy in *.
    pose proof (day_of_year_mono _ _ _ _ _ Hm1 Hm2 Hd1 Hd2 Hmd). lia.
Qed.

(** The stamp orders datetimes as the seconds since the epoch do. *)
Lemma seconds_of_mono t1 t2 :
  valid_datetime t1 -> valid_datetime t2 ->
  stamp t1 < stamp t2 -> seconds_of t1 < seconds_of t2.
Proof.
  intros Hv1 Hv2 Hlt.
  pose proof (ordinal_mono t1 t2 Hv1 Hv2) as Ho.
  destruct Hv1 as (Hy1 & Hm1 & Hd1 & HH1 & HM1 & HS1 & _).
  destruct Hv2 as (Hy2 & Hm2 & Hd2 & HH2 & HM2 & HS2 & _).
  pose proof (days_in_month_le (year t1) (month t1)).
  pose proof (days_in_month_le (year t2) (month t2)).
  unfold stamp in Hlt. unfold seconds_of.
  destruct (Z.eq_dec (year t1) (year t2)) as [Ey|Ny];
    [destruct (Z.eq_dec (month t1) (month t2)) as [Em|Nm];
     [destruct (Z.eq_dec (day t1) (day t2)) as [Ed|Nd]|]|].
  - assert (ordinal t1 = ordinal t2) as -> by (unfold ordinal; congruence). lia.
  - assert (ordinal t1 < ordinal t2) by (apply Ho; lia). lia.
  - assert (ordinal t1 < ordinal t2) by (apply Ho; lia). lia.
  - assert (ordinal t1 < ordinal t2) by (apply Ho; lia). lia.
Qed.

Lemma stamp_eq_same_second t1 t2 :
  valid_datetime t1 -> valid_datetime t2 ->
  stamp t1 = stamp t2 -> same_second t1 t2.
Proof.
  intros (Hy1 & Hm1 & Hd1 & HH1 & HM1 & HS1 & _) (Hy2 & Hm2 & Hd2 & HH2 & HM2 & HS2 & _).
  pose proof (days_in_month_le (year t1) (month t1)).
  pose proof (days_in_month_le (year t2) (month t2)).
  unfold stamp, same_second. lia.
Qed.

Lemma same_second_seconds_of t1 t2 : same_second t1 t2 -> seconds_of t1 = seconds_of t2.
Proof.
  intros (Hy & Hm & Hd & HH & HM & HS). unfold seconds_of, ordinal. congruence.
Qed.

(** A second or more later in time is later by the stamp; not earlier in
    time is not earlier by the stamp. *)
Lemma stamp_mono t1 t2 :
  valid_datetime t1 -> valid_datetime t2 ->
  (microseconds_of t1 + 1000000 <= microseconds_of t2 -> stamp t1 < stamp t2) /\
  (microseconds_of t1 <= microseconds_of t2 -> stamp t1 <= stamp t2).
Proof.
  intros Hv1 Hv2.
  pose proof (seconds_of_mono t2 t1 Hv2 Hv1) as Hgt.
  pose proof (stamp_eq_same_second t1 t2 Hv1 Hv2) as Heq.
  assert (Hus1 : 0 <= microsecond t1 < 1000000) by apply Hv1.
  assert (Hus2 : 0 <= microsecond t2 < 1000000) by apply Hv2.
  unfold microseconds_of. split; intros H.
  - destruct (Z.lt_trichotomy (stamp t1) (stamp t2)) as [Hlt|[Hs|Hlt]]; [done| |].
    + apply Heq, same_second_seconds_of in Hs. lia.
    + apply Hgt in Hlt. lia.
  - destruct (Z.le_gt_cases (stamp t1) (stamp t2)) as [Hle|Hlt]; [done|].
    apply Hgt in Hlt. lia.
Qed.

(** *** Comparing file names *)

Lemma ascii_compare_refl c : Ascii.compare c c = Eq.
Proof. unfold Ascii.compare. apply N.compare_refl. Qed.

Lemma append_cons c s r : String c s +:+ r = String c (s +:+ r).
Proof. reflexivity. Qed.

Lemma compare_cons c1 s1 c2 s2 :
  String.compare (String c1 s1) (String c2 s2)
  = match Ascii.compare c1 c2 with
    | Eq => String.compare s1 s2
    | ne => ne
    end.
Proof. reflexivity. Qed.

Lemma compare_app_prefix p a b :
  String.compare (p +:+ a) (p +:+ b) = String.compare a b.
Proof.
  induction p as [|c p IH]; [done|].
  by rewrite !append_cons, compare_cons, ascii_compare_refl.
Qed.

Lemma digit_cases x :
  0 <= x <= 9 ->
  x = 0 \/ x = 1 \/ x = 2 \/ x = 3 \/ x = 4 \/ x = 5 \/ x = 6 \/ x = 7 \/ x = 8 \/ x = 9.
Proof. lia. Qed.

Lemma digit_char_compare x y :
  0 <= x <= 9 -> 0 <= y <= 9 ->
  Ascii.compare (digit_char x) (digit_char y) = (x ?= y).
Proof.
  intros Hx Hy.
  destruct (digit_cases x Hx) as [->|[->|[->|[->|[->|[->|[->|[->|[->| ->]]]]]]]]];
    destruct (digit_cases y Hy) as [->|[->|[->|[->|[->|[->|[->|[->|[->| ->]]]]]]]]];
    reflexivity.
Qed.

(** Zero-padded numbers of the same width compare as the numbers. *)
Lemma zpad_compare w : forall a b r1 r2,
  String.compare (zpad w a +:+ r1) (zpad w b +:+ r2)
  = match a mod 10 ^ Z.of_nat w ?= b mod 10 ^ Z.of_nat w with
    | Eq => String.compare r1 r2
    | c => c
    end.
Proof.
  induction w as [|w IH]; intros a b r1 r2.
  - cbn [zpad]. change (10 ^ Z.of_nat 0) with 1. by rewrite !Z.mod_1_r.
  - cbn [zpad]. rewrite !append_cons, compare_cons.
    assert (HP : 0 < 10 ^ Z.of_nat w) by (apply Z.pow_pos_nonneg; lia).
    set (P := 10 ^ Z.of_nat w) in *.
    assert (Hx : 0 <= a / P mod 10 < 10) by (apply Z.mod_pos_bound; lia).
    assert (Hy : 0 <= b / P mod 10 < 10) by (apply Z.mod_pos_bound; lia).
    assert (Ha : 0 <= a mod P < P) by (apply Z.mod_pos_bound; lia).
    assert (Hb : 0 <= b mod P < P) by (apply Z.mod_pos_bound; lia).
    rewrite digit_char_compare, IH by lia. fold P.
    rewrite Nat2Z.inj_succ, Z.pow_succ_r by lia. fold P.
    rewrite (Z.mul_comm 10 P), !(Z.rem_mul_r _ P 10) by lia.
    destruct (Z.compare_spec (a / P mod 10) (b / P mod 10)),
      (Z.compare_spec (a mod P) (b mod P)),
      (Z.compare_spec (a mod P + P * (a / P mod 10)) (b mod P + P * (b / P mod 10)));
      try reflexivity; nia.
Qed.

Lemma zpad_compare_small w a b r1 r2 :
  0 <= a < 10 ^ Z.of_nat w -> 0 <= b < 10 ^ Z.of_nat w ->
  String.compare (zpad w a +:+ r1) (zpad w b +:+ r2)
  = match a ?= b with
    | Eq => String.compare r1 r2
    | c => c
    end.
Proof. intros Ha Hb. by rewrite zpad_compare, !Z.mod_small. Qed.

(** The file name: the directory, [image_], the date and the time of
    day of the capture in fourteen digits, the extension. *)
Lemma save_image_filename_form cfg t :
  save_image_filename cfg t
  = SAVE_DIR cfg +:+ "/image_" +:+
    zpad 4 (year t) +:+ zpad 2 (month t) +:+ zpad 2 (day t) +:+ "_" +:+
    zpad 2 (hour t) +:+ zpad 2 (minute t) +:+ zpad 2 (second t) +:+ ".jpg".
Proof. reflexivity. Qed.

(** File names compare as the stamps of the captures. *)
Lemma save_image_filename_compare cfg t1 t2 :
  valid_datetime t1 -> valid_datetime t2 ->
  String.compare (save_image_filename cfg t1) (save_image_filename cfg t2)
  = (stamp t1 ?= stamp t2).
Proof.
  intros (Hy1 & Hm1 & Hd1 & HH1 & HM1 & HS1 & _) (Hy2 & Hm2 & Hd2 & HH2 & HM2 & HS2 & _).
  pose proof (days_in_month_le (year t1) (month t1)).
  pose proof (days_in_month_le (year t2) (month t2)).
  rewrite !save_image_filename_form, !compare_app_prefix.
  rewrite zpad_compare_small by (change (10 ^ Z.of_nat 4) with 10000; lia).
  rewrite !zpad_compare_small by (change (10 ^ Z.of_nat 2) with 100; lia).
  change (String.compare ("_" +:+ ?a) ("_" +:+ ?b)) with (String.compare a b).
  unfold stamp.
  destruct (Z.compare_spec (year t1) (year t2));
    [|symmetry; first [apply Z.compare_lt_iff | apply Z.compare_gt_iff]; lia ..].
  destruct (Z.compare_spec (month t1) (month t2));
    [|symmetry; first [apply Z.compare_lt_iff | apply Z.compare_gt_iff]; lia ..].
  destruct (Z.compare_spec (day t1) (day t2));
    [|symmetry; first [apply Z.compare_lt_iff | apply Z.compare_gt_iff]; lia ..].
  rewrite !zpad_compare_small by (change (10 ^ Z.of_nat 2) with 100; lia).
  destruct (Z.compare_spec (hour t1) (hour t2));
    [|symmetry; first [apply Z.compare_lt_iff | apply Z.compare_gt_iff]; lia ..].
  destruct (Z.compare_spec (minute t1) (minute t2));
    [|symmetry; first [apply Z.compare_lt_iff | apply Z.compare_gt_iff]; lia ..].
  destruct (Z.compare_spec (second t1) (second t2));
    [|symmetry; first [apply Z.compare_lt_iff | apply Z.compare_gt_iff]; lia ..].
  change (String.compare ".jpg" ".jpg") with Eq.
  symmetry. apply Z.compare_eq_iff. lia.
Qed.

Lemma string_compare_refl s : String.compare s s = Eq.
Proof.
  induction s as [|c s IH]; [done|]. by rewrite compare_cons, ascii_compare_refl.
Qed.

Section FileNames.

Variable lib : Library.
Variable env : Env.

Lemma save_image_filename_same_second cfg t1 t2 :
  same_second t1 t2 -> save_image_filename cfg t1 = save_image_filename cfg t2.
Proof.
  intros (Hy & Hm & Hd & HH & HM & HS). rewrite !save_image_filename_form. congruence.
Qed.

(** Two completed saves under one name leave what the later one wrote. *)
Lemma save_image_overwrites cfg im1 im2 t1 t2 w w1 w2 :
  save_image_filename cfg t1 = save_image_filename cfg t2 ->
  save_image lib env cfg im1 t1 w = (Ok (), w1) ->
  save_image lib env cfg im2 t2 w1 = (Ok (), w2) ->
  exists img, images w1 !! im2 = Some img /\
    files w2 = <[save_image_filename cfg t2 := jpeg_encode lib img]> (files w).
Proof.
  intros Hname H1 H2.
  apply save_image_inv in H1 as (img1 & _ & Hf1 & _).
  apply save_image_inv in H2 as (img2 & Him2 & Hf2 & _).
  exists img2. split; [done|]. rewrite Hf2, Hf1, Hname. apply insert_insert_eq.
Qed.

(** C4: the name of a stored frame is [SAVE_DIR/image_YYYYMMDD_HHMMSS.jpg]
    of the capture time.  Two captures within the same second get the
    same name, and of two completed saves the file holds the later one;
    a capture a second or more after another gets a different name, the
    greater one in the order of strings; and names never decrease with
    the capture time. *)
Theorem C4_filenames cfg t1 t2 :
  valid_datetime t1 -> valid_datetime t2 ->
  save_image_filename cfg t1
  = SAVE_DIR cfg +:+ "/image_" +:+
    zpad 4 (year t1) +:+ zpad 2 (month t1) +:+ zpad 2 (day t1) +:+ "_" +:+
    zpad 2 (hour t1) +:+ zpad 2 (minute t1) +:+ zpad 2 (second t1) +:+ ".jpg" /\
  (same_second t1 t2 ->
   save_image_filename cfg t1 = save_image_filename cfg t2 /\
   forall im1 im2 w w1 w2,
     save_image lib env cfg im1 t1 w = (Ok (), w1) ->
     save_image lib env cfg im2 t2 w1 = (Ok (), w2) ->
     exists img, images w1 !! im2 = Some img /\
       files w2 = <[save_image_filename cfg t2 := jpeg_encode lib img]> (files w)) /\
  (microseconds_of t1 + 1000000 <= microseconds_of t2 ->
   save_image_filename cfg t1 ≠ save_image_filename cfg t2 /\
   String.ltb (save_image_filename cfg t1) (save_image_filename cfg t2) = true) /\
  (microseconds_of t1 <= microseconds_of t2 ->
   String.leb (save_image_filename cfg t1) (save_image_filename cfg t2) = true).
Proof.
  intros Hv1 Hv2.
  pose proof (save_image_filename_compare cfg t1 t2 Hv1 Hv2) as Hcmp.
  destruct (stamp_mono t1 t2 Hv1 Hv2) as [Hlt Hle].
  split; [apply save_image_filename_form|]. split; [|split].
  - intros Hs. pose proof (save_image_filename_same_second cfg t1 t2 Hs) as Hname.
    split; [done|]. intros im1 im2 w w1 w2. by apply save_image_overwrites.
  - intros H. apply Hlt, Z.compare_lt_iff in H.
    assert (Hc : String.compare (save_image_filename cfg t1) (save_image_filename cfg t2)
                 = Lt) by congruence.
    split.
    + intros Heq. rewrite Heq, string_compare_refl in Hc. discriminate Hc.
    + unfold String.ltb. by rewrite Hc.
  - intros H. apply Hle, Z.compare_le_iff in H.
    unfold String.leb. rewrite Hcmp.
    by destruct (stamp t1 ?= stamp t2).
Qed.

End FileNames.

(** Two captures one second apart, and two within one second. *)
Lemma C4_filenames_witness :
  save_image_filename source_config (Sample.noon 1) = "images/image_20240601_120001.jpg" /\
  String.ltb "images/image_20240601_120001.jpg" "images/image_20240601_120002.jpg" = true /\
  save_image_filename source_config
    {| year := 2024; month := 6; day := 1;
       hour := 12; minute := 0; second := 1; microsecond := 999999 |}
  = "images/image_20240601_120001.jpg".
Proof.
  assert (Hv : forall s us, 0 <= s < 60 -> 0 <= us < 1000000 ->
                 valid_datetime {| year := 2024; month := 6; day := 1; hour := 12;
                                   minute := 0; second := s; microsecond := us |}).
  { intros s us Hs Hus. unfold valid_datetime. cbn. lia. }
  assert (Hv1 : valid_datetime (Sample.noon 1)) by (apply Hv; lia).
  assert (Hv2 : valid_datetime (Sample.noon 2)) by (apply Hv; lia).
  destruct (C4_filenames Sample.lib Sample.env source_config
              (Sample.noon 1) (Sample.noon 2) Hv1 Hv2) as (Hform & _ & Hlater & _).
  destruct (C4_filenames Sample.lib Sample.env source_config (Sample.noon 1) _
              Hv1 (Hv 1 999999 ltac:(lia) ltac:(lia))) as (_ & Hsame & _).
  split; [reflexivity|]. split.
  - apply Hlater. vm_compute. discriminate.
  - symmetry. apply Hsame. repeat split.
Defined.

(** * Further properties of the code *)

(** ** The gate, completely *)

(** X1: the gate passes exactly on a status whose [outputs] is an object
    with a non-empty object under [snapshot], neither dimension of which
    equals zero; it returns the two dimensions, [0] standing for an absent
    one.  The comparison with zero is all that is asked of a dimension: a
    negative height and a width that is a string pass. *)
Theorem gate_passes_iff status width height :
  check_status status = Ok (width, height) <->
  exists st o s : gmap string json,
    status = JObj st /\
    st !! "outputs" = Some (JObj o) /\
    o !! "snapshot" = Some (JObj s) /\
    s ≠ ∅ /\
    width = default (JInt 0) (s !! "width") /\
    height = default (JInt 0) (s !! "height") /\
    eq_int_zero height = false /\
    eq_int_zero width = false.
Proof.
  split.
  - unfold check_status.
    destruct status as [| | | | | |st]; try discriminate.
    cbn [dict_get mbind result_bind].
    destruct (st !! "outputs") as [outputs|] eqn:Ho.
    + destruct outputs as [| | | | | |o]; try discriminate.
      cbn [dict_get mbind result_bind].
      destruct (o !! "snapshot") as [snapshot|] eqn:Hs; [|discriminate].
      destruct (truthy snapshot) eqn:Ht; [|discriminate].
      cbn [negb dict_item]. rewrite Hs. cbn [mbind result_bind].
      destruct snapshot as [| | | | | |s]; try discriminate.
      cbn [dict_get mbind result_bind].
      destruct (eq_int_zero _ || eq_int_zero _) eqn:Hz; [discriminate|].
      apply orb_false_iff in Hz as [Hh Hw]. intros H. simplify_eq.
      exists st, o, s. apply truthy_obj in Ht.
      repeat split; try done; by destruct (s !! _).
    + cbn [dict_get mbind result_bind]. rewrite lookup_empty. discriminate.
  - intros (st & o & s & -> & Ho & Hs & Hne & -> & -> & Hh & Hw).
    rewrite (check_status_enabled _ _ _ Ho Hs Hne), Hh, Hw. reflexivity.
Qed.

(** A negative height and a width that is a string pass the gate. *)
Lemma gate_passes_odd_dimensions :
  check_status (JObj (Sample.snapshot_status (JInt (-480)) (JStr "wide")))
  = Ok (JStr "wide", JInt (-480)).
Proof. reflexivity. Qed.

(** X2: the gate ends with one of its two [RuntimeError]s or, on a status,
    an [outputs] or an enabled [snapshot] that is not an object, with
    [AttributeError]; the subscript [outputs["snapshot"]] never fails. *)
Theorem gate_exceptions status e :
  check_status status = Raise e ->
  CapabilityInvalid e \/
  (e = AttributeError /\
   (forall st : gmap string json,
       status = JObj st ->
       (exists v, st !! "outputs" = Some v /\ forall o, v ≠ JObj o) \/
       (exists v, snapshot_entry st = Some v /\ truthy v = true /\ forall s, v ≠ JObj s))).
Proof.
  unfold check_status, CapabilityInvalid.
  destruct status as [| | | | | |st]; cbn [dict_get mbind result_bind];
    try (intros H; right; split; [by simplify_eq|intros ? [=]]).
  unfold snapshot_entry.
  destruct (st !! "outputs") as [outputs|] eqn:Ho.
  - destruct outputs as [| | | | | |o]; cbn [dict_get mbind result_bind];
      try (intros H; right; split; [by simplify_eq|]; intros ? [= <-]; left;
           eexists; split; [exact Ho|]; by intros ? [=]).
    destruct (o !! "snapshot") as [snapshot|] eqn:Hs;
      [|cbn [truthy negb]; intros [= <-]; left; left; reflexivity].
    destruct (truthy snapshot) eqn:Ht;
      [|cbn [negb]; intros [= <-]; left; left; reflexivity].
    cbn [negb dict_item]. rewrite Hs. cbn [mbind result_bind].
    destruct snapshot as [| | | | | |s]; cbn [dict_get mbind result_bind];
      try (intros H; right; split; [by simplify_eq|]; intros ? [= <-]; right;
           rewrite Ho; eexists; split; [exact Hs|]; split; [exact Ht|];
           by intros ? [=]).
    destruct (eq_int_zero _ || eq_int_zero _); [|discriminate].
    intros [= <-]; left; right; reflexivity.
  - cbn [dict_get mbind result_bind]. rewrite lookup_empty.
    cbn [truthy negb]. intros [= <-]; left; left; reflexivity.
Qed.

(** The exceptions of the gate at a snapshot entry that is a bare flag. *)
Lemma gate_exceptions_witness :
  CapabilityInvalid AttributeError \/
  (AttributeError = AttributeError /\
   (forall st : gmap string json,
       JObj (<["outputs" := JObj (<["snapshot" := JBool true]> ∅)]> ∅) = JObj st ->
       (exists v, st !! "outputs" = Some v /\ forall o, v ≠ JObj o) \/
       (exists v, snapshot_entry st = Some v /\ truthy v = true /\ forall s, v ≠ JObj s))).
Proof.
  exact (gate_exceptions
           (JObj (<["outputs" := JObj (<["snapshot" := JBool true]> ∅)]> ∅))
           AttributeError eq_refl).
Defined.

(** ** Readings of any value *)

Lemma split_last_snoc s c : split_last (s +:+ String c "") = Some (s, c).
Proof.
  induction s as [|a s IH]; [reflexivity|].
  rewrite append_cons. cbn [split_last]. by rewrite IH.
Qed.

Lemma uint_of_string_str_of_int p :
  0 <= p -> N.of_uint <$> NilZero.uint_of_string (str_of_int p) = Some (Z.to_N p).
Proof.
  intros Hp. destruct p as [|q|q]; [reflexivity| |lia].
  unfold str_of_int. cbn [Z.to_int NilZero.string_of_int].
  rewrite NilZero.usu by apply DecimalPos.Unsigned.to_uint_nonnil.
  cbn [fmap option_fmap option_map]. unfold N.of_uint.
  by rewrite DecimalPos.Unsigned.of_to.
Qed.

(** The format specification built from an integer precision is read
    back as that precision. *)
Lemma precision_of_spec_int p :
  0 <= p -> precision_of_spec ("." +:+ str_of_int p +:+ "f") = Some (Z.to_N p).
Proof.
  intros Hp. change ("." +:+ str_of_int p +:+ "f")
    with (String "."%char (str_of_int p +:+ String "f"%char "")).
  cbn [precision_of_spec]. rewrite split_last_snoc.
  by apply uint_of_string_str_of_int.
Qed.

Section ReadingsOfAnyValue.

Variable py : Builtins.

Lemma format_opendtu_value_obj (m : gmap string json) p :
  m ≠ ∅ -> default (JInt 0) (m !! "d") = JInt p -> 0 <= p ->
  format_opendtu_value py (JObj m) =
  (number ← py_format py (default (JInt 0) (m !! "v")) ("." +:+ str_of_int p +:+ "f");
   Ok (number +:+ " " +:+ py_str py (default (JStr "") (m !! "u")))).
Proof.
  intros Hne Hd Hp. apply truthy_obj in Hne.
  unfold format_opendtu_value, format_opendtu_value_with.
  rewrite Hne. cbn [negb dict_get mbind result_bind].
  change (match m !! "d" with Some v => v | None => JInt 0 end)
    with (default (JInt 0) (m !! "d")).
  rewrite Hd. reflexivity.
Qed.

(** X3: a non-empty reading whose value is a float, whose unit is a
    string and whose precision is an integer from [0] to [2^31 - 1] (each
    present, or absent with its default) is rendered as the value in fixed
    notation with that many decimals, a space and the unit; an integer
    value is converted to a float first and rendered alike. *)
Theorem format_opendtu_value_numeric (m : gmap string json) f u p :
  m ≠ ∅ ->
  (default (JInt 0) (m !! "v") = JFloat f \/
   exists z, default (JInt 0) (m !! "v") = JInt z /\ of_int z = Ok f) ->
  default (JStr "") (m !! "u") = JStr u ->
  default (JInt 0) (m !! "d") = JInt p ->
  0 <= p <= 2147483647 ->
  format_opendtu_value py (JObj m) = Ok (format_float_fixed f (Z.to_nat p) +:+ " " +:+ u).
Proof.
  intros Hne Hv Hu Hd Hp.
  rewrite (format_opendtu_value_obj m p Hne Hd) by lia.
  unfold py_format. rewrite precision_of_spec_int by lia.
  assert (Hn : format_number_fixed (Ok f) (Z.to_N p)
               = Ok (format_float_fixed f (Z.to_nat p))).
  { unfold format_number_fixed, PY_SSIZE_T_MAX, INT_MAX.
    destruct (N.ltb_spec 9223372036854775807 (Z.to_N p)); [lia|].
    cbn [mbind result_bind].
    destruct (N.ltb_spec 2147483647 (Z.to_N p)); [lia|].
    by rewrite Z_N_nat. }
  destruct Hv as [->|(z & -> & ->)]; rewrite Hn, Hu; reflexivity.
Qed.

(** X4: a truthy field that is not an object (a number, a string, a
    list, [True]) has no [get]: [AttributeError]. *)
Theorem format_opendtu_value_not_an_object field :
  truthy field = true -> (forall m : gmap string json, field ≠ JObj m) ->
  format_opendtu_value py field = Raise AttributeError.
Proof.
  intros Ht Hm. unfold format_opendtu_value, format_opendtu_value_with.
  rewrite Ht. destruct field; try reflexivity. by destruct (Hm m).
Qed.

(** X5: in a non-empty reading with an integer precision [p >= 0], a
    value that is a string raises [ValueError], one that is [None], a list
    or an object raises [TypeError], and a float raises [ValueError] when
    [p > 2^31 - 1]; the unit plays no part. *)
Theorem format_opendtu_value_rejected (m : gmap string json) p e :
  m ≠ ∅ -> default (JInt 0) (m !! "d") = JInt p -> 0 <= p ->
  rejected_value (default (JInt 0) (m !! "v")) p = Some e ->
  format_opendtu_value py (JObj m) = Raise e.
Proof.
  intros Hne Hd Hp Hr.
  rewrite (format_opendtu_value_obj m p Hne Hd) by lia.
  unfold py_format. rewrite precision_of_spec_int by lia.
  destruct (default (JInt 0) (m !! "v")); cbn [rejected_value] in Hr;
    try discriminate Hr; try (by simplify_eq).
  destruct (Z.ltb_spec 2147483647 p); [|discriminate Hr]. simplify_eq.
  unfold format_number_fixed, PY_SSIZE_T_MAX, INT_MAX.
  destruct (_ <? _)%N; [reflexivity|]. cbn [mbind result_bind].
  destruct (N.ltb_spec 2147483647 (Z.to_N p)); [reflexivity|lia].
Qed.

End ReadingsOfAnyValue.

(** A reading without a [d]: a float of 1.5 with no decimals. *)
Lemma format_opendtu_value_numeric_witness :
  format_opendtu_value Sample.py Sample.bare =
  Ok (format_float_fixed (FFinite (3 # 2)) (Z.to_nat 0) +:+ " " +:+ "").
Proof.
  apply (format_opendtu_value_numeric Sample.py _ (FFinite (3 # 2)) "" 0).
  - vm_compute. discriminate.
  - left. vm_compute. reflexivity.
  - vm_compute. reflexivity.
  - vm_compute. reflexivity.
  - lia.
Defined.

Lemma format_opendtu_value_not_an_object_witness :
  format_opendtu_value Sample.py (JInt 5) = Raise AttributeError.
Proof.
  apply (format_opendtu_value_not_an_object Sample.py (JInt 5)).
  - reflexivity.
  - intros m. discriminate.
Defined.

Lemma format_opendtu_value_rejected_witness :
  format_opendtu_value Sample.py (JObj (<["v" := JStr "n/a"]> ∅)) = Raise ValueError.
Proof.
  apply (format_opendtu_value_rejected Sample.py (<["v" := JStr "n/a"]> ∅) 0).
  - vm_compute. discriminate.
  - vm_compute. reflexivity.
  - lia.
  - vm_compute. reflexivity.
Defined.

(** ** What a call does to the frames and the files *)

Lemma bind_inv_raise {A B} (m : M A) (k : A -> M B) w e w' :
  (m ≫= k) w = (Raise e, w') ->
  m w = (Raise e, w') \/ exists a w1, m w = (Ok a, w1) /\ k a w1 = (Raise e, w').
Proof.
  rewrite run_bind. destruct (m w) as [[a|e0] w1]; intros H.
  - right. by exists a, w1.
  - left. by simplify_eq.
Qed.

Lemma lift_inv_raise {A} (r : result A) w e w' :
  lift r w = (Raise e, w') -> r = Raise e /\ w' = record Raised (Some e) w.
Proof. destruct r; intros H; [discriminate H|]. unfold lift in H. by simplify_eq. Qed.

Lemma add_text_add_texts t ts im : add_text t (add_texts ts im) = add_texts (ts ++ [t]) im.
Proof. unfold add_text, add_texts. cbn. by rewrite <- app_assoc. Qed.

Section Turn.

Variable py : Builtins.
Variable lib : Library.
Variable env : Env.

Ltac step H :=
  let a := fresh "a" in
  let w := fresh "w" in
  let Hs := fresh "Hs" in
  apply bind_inv_ok in H as (a & w & Hs & H).

Ltac step_lift H :=
  let a := fresh "a" in
  let w := fresh "w" in
  let Hs := fresh "Hs" in
  apply bind_inv_ok in H as (a & w & Hs & H);
  apply lift_inv_ok in Hs as [Hs ->].

Lemma requests_get_reply url w r w' :
  requests_get env url w = (r, w') ->
  http_response env (length (trace w)) url = r /\
  files w' = files w /\ images w' = images w /\
  length (trace w') = S (length (trace w)).
Proof.
  unfold requests_get. intros H. case_match; simplify_eq.
  all: rewrite length_trace_record; by repeat split.
Qed.

(** A frame that was fetched: the reply of the camera at the time of the
    request, the clock read after the reply arrived, a new image. *)
Lemma get_image_fetched cfg w im now w' :
  get_image lib env cfg w = (Ok (im, now), w') ->
  exists body,
    http_response env (length (trace w)) (CAMERA_SNAPSHOT_URL cfg) = Ok body /\
    image_identify lib body = true /\
    im = length (images w) /\
    now = clock env (S (length (trace w))) /\
    files w' = files w /\
    images w' = (images w ++ [sample_frame body])%list /\
    length (trace w') = (3 + length (trace w))%nat.
Proof.
  unfold get_image. intros H. step H. step H. step H.
  apply requests_get_reply in Hs as (Hr & Hf & Hi & Hl).
  unfold datetime_now in Hs0. simplify_eq.
  unfold image_open in Hs1. destruct (image_identify lib a) eqn:Hid; [|discriminate Hs1].
  unfold mret, M_ret in H. simplify_eq.
  exists a. rewrite Hl. repeat split; try done.
  - cbn [images record]. by rewrite Hi.
  - cbn [images set_images record]. by rewrite Hi.
  - rewrite length_trace_record, trace_set_images, length_trace_record. lia.
Qed.

(** X6: [get_image] never touches a file.  When it returns, the frame
    is the reply of the camera, which decodes, the timestamp is the clock
    read after the reply arrived and before decoding, and the image is a
    new one with nothing drawn on it.  When it raises, the images are as
    they were, and either the request raised or the reply did not
    decode. *)
Theorem get_image_effect cfg w r w' :
  get_image lib env cfg w = (r, w') ->
  files w' = files w /\
  match r with
  | Ok (im, now) =>
      exists body,
        http_response env (length (trace w)) (CAMERA_SNAPSHOT_URL cfg) = Ok body /\
        image_identify lib body = true /\
        im = length (images w) /\
        now = clock env (S (length (trace w))) /\
        images w' = (images w ++ [sample_frame body])%list
  | Raise e =>
      images w' = images w /\
      (http_response env (length (trace w)) (CAMERA_SNAPSHOT_URL cfg) = Raise e \/
       exists body,
         http_response env (length (trace w)) (CAMERA_SNAPSHOT_URL cfg) = Ok body /\
         image_identify lib body = false /\ e = UnidentifiedImageError)
  end.
Proof.
  intros H. destruct r as [[im now]|e].
  - apply get_image_fetched in H as (body & Hr & Hid & -> & -> & Hf & Hi & _).
    split; [done|]. by exists body.
  - unfold get_image in H. apply bind_inv_raise in H as [H|(body & w1 & Hs & H)].
    + apply requests_get_reply in H as (Hr & Hf & Hi & _).
      split; [done|]. split; [done|]. by left.
    + apply requests_get_reply in Hs as (Hr & Hf & Hi & _).
      apply bind_inv_raise in H as [H|(now & w2 & Hs2 & H)];
        [unfold datetime_now in H; discriminate H|].
      unfold datetime_now in Hs2. simplify_eq.
      apply bind_inv_raise in H as [H|(im & w3 & Hs3 & H)];
        [|unfold mret, M_ret in H; discriminate H].
      unfold image_open in H.
      destruct (image_identify lib body) eqn:Hid; [discriminate H|]. simplify_eq.
      cbn [files images record]. split; [done|]. split; [done|].
      right. by exists body.
Qed.

(** *** [embed_text] *)

Lemma get_opendtu_data_fetched cfg w data w' :
  get_opendtu_data lib env cfg w = (Ok data, w') ->
  exists body,
    http_response env (length (trace w)) (OPENDTU_STATUS_URL cfg) = Ok body /\
    json_loads lib body = Some data /\
    w' = record (HttpGet (OPENDTU_STATUS_URL cfg)) None w.
Proof.
  unfold get_opendtu_data. intros H.
  apply bind_inv_ok in H as (body & w1 & Hs & H).
  pose proof (requests_get_inv env _ _ _ _ Hs) as ->.
  apply requests_get_reply in Hs as (Hr & _).
  unfold response_json in H. destruct (json_loads lib body) eqn:Hj; [|discriminate H].
  unfold mret, M_ret in H. simplify_eq. by exists body.
Qed.

Lemma annotation_alter t1 t2 t3 im (l : list image) :
  alter (add_text t3) im (alter (add_text t2) im (alter (add_text t1) im l))
  = alter (add_texts [t1; t2; t3]) im l.
Proof.
  rewrite !list_alter_alter_eq. apply list_alter_ext; [|done].
  intros x _. unfold compose, add_text, add_texts. cbn [opened_from overlay].
  by rewrite <- !app_assoc.
Qed.

Lemma ImageDraw_Draw_frame im w r w' :
  ImageDraw_Draw lib im w = (r, w') -> files w' = files w /\ images w' = images w.
Proof. unfold ImageDraw_Draw. intros H. repeat case_match; by simplify_eq. Qed.

Lemma ImageFont_load_default_frame size w r w' :
  ImageFont_load_default lib size w = (r, w') ->
  files w' = files w /\ images w' = images w.
Proof. unfold ImageFont_load_default. intros H. case_match; by simplify_eq. Qed.

(** A completed [embed_text] has drawn the three texts on its image. *)
Lemma embed_text_drawn cfg im now w im' w' :
  embed_text py lib env cfg im now w = (Ok im', w') ->
  exists img local body data ps ys,
    images w !! im = Some img /\
    draw_error lib img = None /\
    font_error lib 30 = None /\
    astimezone env now = Ok local /\
    http_response env (length (trace w)) (OPENDTU_STATUS_URL cfg) = Ok body /\
    json_loads lib body = Some data /\
    annotation_texts py data = Ok (ps, ys) /\
    im' = im /\
    files w' = files w /\
    images w' = alter (add_texts (annotation
                  (strftime (TIME_FORMAT cfg) local (local_tzname env now)) ps ys))
                  im (images w) /\
    trace w' = (trace w ++
      [ succeeded (HttpGet (OPENDTU_STATUS_URL cfg));
        succeeded (DrawText im (label (10, 10)
           (strftime (TIME_FORMAT cfg) local (local_tzname env now))));
        succeeded (DrawText im (label (10, 40) ps));
        succeeded (DrawText im (label (10, 70) ys)) ])%list.
Proof.
  unfold embed_text. intros H.
  apply bind_inv_ok in H as (draw & wd & Hdraw & H).
  apply ImageDraw_Draw_inv in Hdraw as (-> & -> & img & Him & Hde).
  apply bind_inv_ok in H as (font & wf & Hfont & H).
  apply ImageFont_load_default_inv in Hfont as (-> & -> & Hfe).
  apply bind_inv_ok in H as (local & wl & Hlocal & H).
  apply lift_inv_ok in Hlocal as [Hlocal ->].
  step H.
  apply get_opendtu_data_fetched in Hs as (body & Hr & Hj & ->).
  do 6 step_lift H.
  step H. step H. step H.
  destruct a6, a7, a8.
  apply draw_text_inv in Hs5 as ->. apply draw_text_inv in Hs6 as ->.
  apply draw_text_inv in Hs7 as ->.
  unfold mret, M_ret in H. simplify_eq.
  exists img, local, body, a, ("Power: " +:+ a2), ("Yield Today: " +:+ a5).
  do 6 (split; [done|]). split.
  { rewrite Hs in Hs2. injection Hs2 as <-.
    unfold annotation_texts. rewrite Hs. cbn [mbind result_bind].
    rewrite Hs0. cbn [mbind result_bind]. rewrite Hs1. cbn [mbind result_bind].
    rewrite Hs3. cbn [mbind result_bind]. rewrite Hs4. reflexivity. }
  split; [done|]. split; [done|]. split.
  - cbn [images set_images record]. apply annotation_alter.
  - cbn [trace set_images record]. by rewrite <- !app_assoc.
Qed.

Lemma draw_text_result im font pos t w r w' :
  draw_text env im font pos t w = (r, w') ->
  files w' = files w /\
  length (trace w') = S (length (trace w)) /\
  match r with
  | Ok _ => fault env (length (trace w)) = None
  | Raise e => fault env (length (trace w)) = Some e /\ images w' = images w
  end.
Proof.
  unfold draw_text. intros H. destruct (fault env _); simplify_eq.
  all: rewrite length_trace_record, ?trace_set_images; by repeat split.
Qed.

(** An [embed_text] that raised has written no file and, unless a
    drawing operation itself failed, has drawn nothing. *)
Lemma embed_text_failed cfg im now w e w' :
  embed_text py lib env cfg im now w = (Raise e, w') ->
  files w' = files w /\
  (quiet env (S (length (trace w))) 3 -> images w' = images w).
Proof.
  unfold embed_text. intros H.
  apply bind_inv_raise in H as [H|(draw & wd & Hs & H)].
  { by apply ImageDraw_Draw_frame in H as [Hf Hi]. }
  apply ImageDraw_Draw_inv in Hs as (-> & -> & _).
  apply bind_inv_raise in H as [H|(font & wf & Hs & H)].
  { by apply ImageFont_load_default_frame in H as [Hf Hi]. }
  apply ImageFont_load_default_inv in Hs as (-> & -> & _).
  apply bind_inv_raise in H as [H|(local & wl & Hs & H)].
  { apply lift_inv_raise in H as [_ ->]. by split. }
  apply lift_inv_ok in Hs as [_ ->].
  apply bind_inv_raise in H as [H|(data & w1 & Hs & H)].
  { by apply get_opendtu_data_frame in H as (Hf & Hi & _). }
  apply get_opendtu_data_inv in Hs as ->.
  do 6 (apply bind_inv_raise in H as [H|(? & ? & Hs & H)];
        [apply lift_inv_raise in H as [_ ->]; by split
        |apply lift_inv_ok in Hs as [_ ->]]).
  set (w1 := record (HttpGet _) None w) in H.
  assert (Hl : length (trace w1) = S (length (trace w)))
    by apply length_trace_record.
  assert (Hf0 : files w1 = files w) by reflexivity.
  apply bind_inv_raise in H as [H|([] & w2 & Hs1 & H)].
  { apply draw_text_result in H as (Hf & _ & _ & Hi). by split. }
  apply draw_text_result in Hs1 as (Hf1 & Hl1 & _).
  apply bind_inv_raise in H as [H|([] & w3 & Hs2 & H)].
  { apply draw_text_result in H as (Hf & _ & Hflt & _).
    split; [by rewrite Hf, Hf1|]. intros Hq.
    rewrite Hl1, Hl, Hq in Hflt by lia. discriminate Hflt. }
  apply draw_text_result in Hs2 as (Hf2 & Hl2 & _).
  apply bind_inv_raise in H as [H|([] & w4 & Hs3 & H)];
    [|unfold mret, M_ret in H; discriminate H].
  apply draw_text_result in H as (Hf & _ & Hflt & _).
  split; [by rewrite Hf, Hf2, Hf1|]. intros Hq.
  rewrite Hl2, Hl1, Hl, Hq in Hflt by lia. discriminate Hflt.
Qed.

(** X7: [embed_text] writes no file.  When it returns, the draw object
    and the font were obtained, the capture time was converted to the
    local zone, and the OpenDTU sent live data; it returns the image it
    was given, on which it has drawn three texts, in this order: the
    converted time at (10, 10), the power line at (10, 40) and the yield
    line at (10, 70), the two lines being those computed from that live
    data; no other image has changed.  When it raises and no drawing
    operation failed, nothing was drawn: no frame is left partially
    annotated by a missing font, by image data that cannot be drawn on,
    or by telemetry that is missing or of a wrong shape. *)
Theorem embed_text_effect cfg im now w r w' :
  embed_text py lib env cfg im now w = (r, w') ->
  files w' = files w /\
  match r with
  | Ok im' =>
      exists img local body data ps ys,
        images w !! im = Some img /\
        draw_error lib img = None /\
        font_error lib 30 = None /\
        astimezone env now = Ok local /\
        http_response env (length (trace w)) (OPENDTU_STATUS_URL cfg) = Ok body /\
        json_loads lib body = Some data /\
        annotation_texts py data = Ok (ps, ys) /\
        im' = im /\
        images w' = alter (add_texts (annotation
                      (strftime (TIME_FORMAT cfg) local (local_tzname env now)) ps ys))
                      im (images w)
  | Raise e => quiet env (S (length (trace w))) 3 -> images w' = images w
  end.
Proof.
  intros H. destruct r as [im'|e].
  - apply embed_text_drawn
      in H as (img & local & body & data & ps & ys
               & ? & ? & ? & ? & ? & ? & ? & ? & ? & ? & _).
    split; [done|]. by exists img, local, body, data, ps, ys.
  - by apply embed_text_failed in H.
Qed.

(** The failures before the request: when [ImageDraw.Draw] or
    [ImageFont.load_default] raises, [embed_text] ends with that
    exception and the OpenDTU is not asked. *)
Lemma embed_text_unprepared cfg im now w img e :
  images w !! im = Some img ->
  draw_error lib img = Some e \/ (draw_error lib img = None /\ font_error lib 30 = Some e) ->
  embed_text py lib env cfg im now w = (Raise e, record Raised (Some e) w).
Proof.
  intros Him [Hd|[Hd Hf]]; unfold embed_text; rewrite run_bind;
    unfold ImageDraw_Draw at 1; rewrite Him, Hd; [reflexivity|].
  rewrite run_bind. unfold ImageFont_load_default at 1. by rewrite Hf.
Qed.

(** *** [save_image] *)


End Turn.

(** ** The files a run can touch *)

Create HintDb file_effect.

Section FileEffect.

Variable py : Builtins.
Variable lib : Library.
Variable env : Env.
Variable R : gmap string bytes -> gmap string bytes -> Prop.
Hypothesis R_refl : forall f, R f f.
Hypothesis R_trans : forall f g h, R f g -> R g h -> R f h.

Lemma file_effect_ret {A} (a : A) : file_effect R (mret a : M A).
Proof. intros w r w' H. unfold mret, M_ret in H. simplify_eq. apply R_refl. Qed.

Lemma file_effect_raise {A} e : file_effect R (@raise A e).
Proof. intros w r w' H. unfold raise in H. simplify_eq. apply R_refl. Qed.

Lemma file_effect_lift {A} (r : result A) : file_effect R (lift r).
Proof. intros w r' w' H. destruct r; simpl in H; simplify_eq; apply R_refl. Qed.

Lemma file_effect_bind {A B} (m : M A) (k : A -> M B) :
  file_effect R m -> (forall a, file_effect R (k a)) -> file_effect R (m ≫= k).
Proof.
  intros Hm Hk w r w' H. rewrite run_bind in H.
  destruct (m w) as [[a|e] w1] eqn:Em.
  - exact (R_trans _ _ _ (Hm _ _ _ Em) (Hk a _ _ _ H)).
  - simplify_eq. exact (Hm _ _ _ Em).
Qed.

Hint Resolve file_effect_ret file_effect_raise file_effect_lift : file_effect.
Hint Extern 2 (file_effect _ (_ ≫= _)) =>
  apply file_effect_bind; [|intros] : file_effect.
Hint Extern 3 (file_effect _ (let '(_, _) := ?p in _)) =>
  destruct p : file_effect.

Ltac no_file f :=
  intros w r w' H; unfold f in H; repeat case_match; simplify_eq; apply R_refl.

Lemma file_effect_requests_get url : file_effect R (requests_get env url).
Proof. no_file requests_get. Qed.

Lemma file_effect_response_json body : file_effect R (response_json lib body).
Proof. unfold response_json. case_match; auto with file_effect. Qed.

Lemma file_effect_datetime_now : file_effect R (datetime_now env).
Proof. no_file datetime_now. Qed.

Lemma file_effect_image_open body : file_effect R (image_open lib body).
Proof. no_file image_open. Qed.

Lemma file_effect_ImageDraw_Draw im : file_effect R (ImageDraw_Draw lib im).
Proof. no_file ImageDraw_Draw. Qed.

Lemma file_effect_ImageFont_load_default size :
  file_effect R (ImageFont_load_default lib size).
Proof. no_file ImageFont_load_default. Qed.

Lemma file_effect_draw_text im font pos t :
  file_effect R (draw_text env im font pos t).
Proof. no_file draw_text. Qed.

Lemma file_effect_getsize path : file_effect R (getsize env path).
Proof. no_file getsize. Qed.

Lemma file_effect_print line : file_effect R (print line).
Proof. no_file print. Qed.

Lemma file_effect_sleep seconds : file_effect R (sleep seconds).
Proof. no_file sleep. Qed.

Lemma file_effect_image_save im path :
  (forall f c, R f (<[path := c]> f)) -> file_effect R (image_save lib env im path).
Proof.
  intros HR w r w' H. unfold image_save, after_failed_save in H.
  repeat case_match; simplify_eq; first [apply R_refl | apply HR].
Qed.

Lemma file_effect_remove path :
  (forall f, R f (delete path f)) -> file_effect R (remove env path).
Proof.
  intros HR w r w' H. unfold remove in H.
  repeat case_match; simplify_eq; first [apply R_refl | apply HR].
Qed.

Hint Resolve file_effect_requests_get file_effect_response_json
  file_effect_datetime_now file_effect_image_open file_effect_draw_text
  file_effect_ImageDraw_Draw file_effect_ImageFont_load_default
  file_effect_getsize file_effect_print file_effect_sleep
  file_effect_image_save file_effect_remove : file_effect.

Lemma file_effect_get_opendtu_data cfg : file_effect R (get_opendtu_data lib env cfg).
Proof. unfold get_opendtu_data. auto with file_effect. Qed.

Lemma file_effect_get_camera_status cfg : file_effect R (get_camera_status lib env cfg).
Proof. unfold get_camera_status. auto with file_effect. Qed.

Lemma file_effect_get_image cfg : file_effect R (get_image lib env cfg).
Proof. unfold get_image. auto 10 with file_effect. Qed.

Hint Resolve file_effect_get_opendtu_data file_effect_get_camera_status
  file_effect_get_image : file_effect.

Lemma file_effect_embed_text cfg image now :
  file_effect R (embed_text py lib env cfg image now).
Proof. unfold embed_text. auto 20 with file_effect. Qed.

Variable cfg : Config.
Hypothesis R_frame :
  forall now f c, R f (<[save_image_filename cfg now := c]> f).

Lemma file_effect_save_image image now :
  file_effect R (save_image lib env cfg image now).
Proof. unfold save_image. auto with file_effect. Qed.

Hint Resolve file_effect_embed_text file_effect_save_image : file_effect.

Lemma file_effect_loop_body : file_effect R (loop_body py lib env cfg).
Proof. unfold loop_body. auto 10 with file_effect. Qed.

Hint Resolve file_effect_loop_body : file_effect.

Lemma file_effect_capture_loop n : file_effect R (capture_loop py lib env cfg n).
Proof. induction n; cbn [capture_loop]; auto with file_effect. Qed.

Hypothesis R_test_write : forall f c, R f (<["test.jpg" := c]> f).
Hypothesis R_test_remove : forall f, R f (delete "test.jpg" f).

Lemma file_effect_estimate_size_per_hour :
  file_effect R (estimate_size_per_hour lib env cfg).
Proof. unfold estimate_size_per_hour. auto 10 with file_effect. Qed.

Hint Resolve file_effect_capture_loop file_effect_estimate_size_per_hour : file_effect.

Lemma file_effect_main n : file_effect R (main py lib env cfg n).
Proof. unfold main. auto 20 with file_effect. Qed.

End FileEffect.

Lemma only_adds_refl P f : only_adds P f f.
Proof. intros path. by left. Qed.

Lemma only_adds_trans P f g h : only_adds P f g -> only_adds P g h -> only_adds P f h.
Proof.
  intros H1 H2 path. destruct (H2 path) as [Hh|Hh]; [|by right].
  rewrite Hh. apply H1.
Qed.

Lemma touches_only_refl P f : touches_only P f f.
Proof. by intros path _. Qed.

Lemma touches_only_trans P f g h :
  touches_only P f g -> touches_only P g h -> touches_only P f h.
Proof. intros H1 H2 path Hp. by rewrite (H2 path Hp), (H1 path Hp). Qed.

Lemma capture_loop_only_adds py lib env cfg n :
  file_effect (only_adds (is_frame_file cfg)) (capture_loop py lib env cfg n).
Proof.
  apply (file_effect_capture_loop py lib env (only_adds (is_frame_file cfg))
           (only_adds_refl _) (only_adds_trans _) cfg).
  intros now f c path.
  destruct (decide (path = save_image_filename cfg now)) as [->|Hne].
  - right. split; [by exists now|]. by rewrite lookup_insert_eq.
  - left. by apply lookup_insert_ne.
Qed.

(** X9: the loop only adds.  Whatever a run of the loop does, however
    long it is and however it ends, every path holds afterwards what it
    held before, or is a name [save_image] gives to a frame and holds a
    file: the loop deletes nothing, and writes nothing but frames. *)
Theorem capture_loop_only_adds_frames py lib env cfg n w r w' :
  capture_loop py lib env cfg n w = (r, w') ->
  forall path,
    files w' !! path = files w !! path \/
    (is_frame_file cfg path /\ is_Some (files w' !! path)).
Proof. apply capture_loop_only_adds. Qed.

(** X10: whatever a run of [main] does, however it ends, a path other
    than [test.jpg] that is not the name of a frame holds afterwards
    what it held before. *)
Theorem main_touches_only py lib env cfg n w r w' :
  main py lib env cfg n w = (r, w') ->
  forall path,
    path ≠ "test.jpg" -> ~ is_frame_file cfg path ->
    files w' !! path = files w !! path.
Proof.
  intros H path Ht Hf.
  apply (file_effect_main py lib env
           (touches_only (fun p => p = "test.jpg" \/ is_frame_file cfg p))
           (touches_only_refl _) (touches_only_trans _) cfg) in H.
  - apply H. tauto.
  - intros now f c p Hp. apply lookup_insert_ne. intros <-. apply Hp. right. by exists now.
  - intros f c p Hp. apply lookup_insert_ne. intros <-. apply Hp. by left.
  - intros f p Hp. apply lookup_delete_ne. intros <-. apply Hp. by left.
Qed.

(** Two turns in a world that holds [test.jpg] and a stored frame. *)
Lemma capture_loop_only_adds_frames_witness :
  let run := capture_loop Sample.py Sample.lib Sample.env source_config 2
               Sample.world_with_files in
  files (snd run) !! "test.jpg" = files Sample.world_with_files !! "test.jpg" \/
  (is_frame_file source_config "test.jpg" /\ is_Some (files (snd run) !! "test.jpg")).
Proof.
  intros run.
  apply (capture_loop_only_adds_frames Sample.py Sample.lib Sample.env source_config 2
           Sample.world_with_files (fst run) (snd run)).
  apply surjective_pairing.
Defined.

(** A run of [main] followed for two turns, in the same world. *)
Lemma main_touches_only_witness :
  let run := main Sample.py Sample.lib Sample.env source_config 2
               Sample.world_with_files in
  files (snd run) !! "notes.txt" = files Sample.world_with_files !! "notes.txt".
Proof.
  intros run.
  apply (main_touches_only Sample.py Sample.lib Sample.env source_config 2
           Sample.world_with_files (fst run) (snd run)).
  - apply surjective_pairing.
  - discriminate.
  - intros [now Hnow].
    assert (Hh : forall rest, "notes.txt" ≠ "images" +:+ rest)
      by (intros rest; discriminate).
    exact (Hh _ Hnow).
Defined.

(** The sample camera, then the sample OpenDTU, then the save. *)
Lemma get_image_effect_witness :
  let run := get_image Sample.lib Sample.env source_config Sample.world_with_files in
  files (snd run) = files Sample.world_with_files /\
  fst run = Ok (0%nat, Sample.noon 1).
Proof.
  intros run.
  destruct (get_image_effect Sample.lib Sample.env source_config
              Sample.world_with_files (fst run) (snd run) (surjective_pairing _))
    as [Hf _].
  split; [exact Hf|reflexivity].
Defined.

Lemma embed_text_effect_witness :
  let w := snd (get_image Sample.lib Sample.env source_config Sample.world_with_files) in
  let run := embed_text Sample.py Sample.lib Sample.env source_config 0 (Sample.noon 1) w in
  files (snd run) = files w /\ fst run = Ok 0%nat.
Proof.
  intros w run.
  destruct (embed_text_effect Sample.py Sample.lib Sample.env source_config 0
              (Sample.noon 1) w (fst run) (snd run) (surjective_pairing _))
    as [Hf _].
  split; [exact Hf|vm_compute; reflexivity].
Defined.


(** ** A turn of the loop, end to end *)

Section TurnOutcome.

Variable py : Builtins.
Variable lib : Library.
Variable env : Env.

Lemma save_image_images cfg im now w r w' :
  save_image lib env cfg im now w = (r, w') -> images w' = images w.
Proof.
  unfold save_image. rewrite run_bind. unfold image_save, print.
  intros H. repeat case_match; by simplify_eq.
Qed.

(** A completed turn, in full. *)
Lemma loop_body_completed cfg w w' :
  loop_body py lib env cfg w = (Ok (), w') ->
  exists body reply data ps ys,
    http_response env (length (trace w)) (CAMERA_SNAPSHOT_URL cfg) = Ok body /\
    image_identify lib body = true /\
    http_response env (3 + length (trace w)) (OPENDTU_STATUS_URL cfg) = Ok reply /\
    json_loads lib reply = Some data /\
    annotation_texts py data = Ok (ps, ys) /\
    0 <= TIMEOUT cfg /\
    files w' =
      <[save_image_filename cfg (clock env (S (length (trace w)))) :=
          jpeg_encode lib
            (add_texts
               (annotation
                  (strftime (TIME_FORMAT cfg) (clock env (S (length (trace w))))
                     (local_tzname env (clock env (S (length (trace w))))))
                  ps ys)
               (sample_frame body))]> (files w) /\
    images w' =
      (images w ++
       [add_texts
          (annotation
             (strftime (TIME_FORMAT cfg) (clock env (S (length (trace w))))
                (local_tzname env (clock env (S (length (trace w))))))
             ps ys)
          (sample_frame body)])%list /\
    trace w' =
      (trace w ++
       iteration_events cfg (length (images w)) (clock env (S (length (trace w))))
         (strftime (TIME_FORMAT cfg) (clock env (S (length (trace w))))
            (local_tzname env (clock env (S (length (trace w))))))
         ps ys)%list /\
    length (trace w') = (10 + length (trace w))%nat.
Proof.
  unfold loop_body. intros H.
  apply bind_inv_ok in H as ([im now] & w1 & Hg & H).
  apply bind_inv_ok in H as (im' & w2 & He & H).
  apply bind_inv_ok in H as ([] & w3 & Hsv & H).
  pose proof (get_image_inv _ _ _ _ _ _ _ Hg) as (_ & _ & Ht1).
  apply get_image_fetched in Hg as (body & Hr & Hid & -> & -> & Hf1 & Hi1 & Hl1).
  apply embed_text_drawn
    in He as (img0 & local & reply & data & ps & ys & _ & _ & _ & Hlocal
              & Hr2 & Hj & Ha & -> & Hf2 & Hi2 & Ht2).
  rewrite clock_is_local in Hlocal. injection Hlocal as <-.
  pose proof (save_image_images _ _ _ _ _ _ Hsv) as Hi3.
  apply save_image_inv in Hsv as (img & Him & Hf3 & Ht3).
  unfold sleep in H. destruct (Z.ltb_spec (TIMEOUT cfg) 0); [discriminate H|].
  simplify_eq. rewrite Hl1 in Hr2.
  rewrite Hi1, alter_app_r_alt, Nat.sub_diag in Hi2 by lia.
  cbn [alter list_alter] in Hi2.
  rewrite Hi2, list_lookup_middle in Him by done. simplify_eq.
  assert (Htrace : trace (record (Sleep (TIMEOUT cfg)) None w3) =
      (trace w ++
       iteration_events cfg (length (images w)) (clock env (S (length (trace w))))
         (strftime (TIME_FORMAT cfg) (clock env (S (length (trace w))))
            (local_tzname env (clock env (S (length (trace w))))))
         ps ys)%list).
  { cbn [trace record]. rewrite Ht3, Ht2, Ht1. by rewrite <- !app_assoc. }
  exists body, reply, data, ps, ys.
  repeat (split; [done|]). split; [|split; [|split]].
  - cbn [files record]. by rewrite Hf3, Hf2, Hf1.
  - cbn [images record]. by rewrite Hi3.
  - exact Htrace.
  - rewrite Htrace, length_app. cbn [length iteration_events]. lia.
Qed.

(** X11: a completed turn has stored, under the name of the capture
    time, the encoding of the frame the camera sent in this turn with
    three texts drawn on it: the capture time, and the power and yield
    lines computed from the live data the OpenDTU sent in this turn.  The
    time in the file name and the time drawn are the same instant, read
    after the frame arrived and before the OpenDTU was asked.  No other
    file has changed, and the interval is not negative. *)
Theorem loop_body_stores_annotated_frame cfg w w' :
  loop_body py lib env cfg w = (Ok (), w') ->
  exists body reply data ps ys,
    let now := clock env (S (length (trace w))) in
    let timestamp := strftime (TIME_FORMAT cfg) now (local_tzname env now) in
    http_response env (length (trace w)) (CAMERA_SNAPSHOT_URL cfg) = Ok body /\
    http_response env (3 + length (trace w)) (OPENDTU_STATUS_URL cfg) = Ok reply /\
    json_loads lib reply = Some data /\
    annotation_texts py data = Ok (ps, ys) /\
    0 <= TIMEOUT cfg /\
    files w' =
      <[save_image_filename cfg now :=
          jpeg_encode lib (add_texts (annotation timestamp ps ys) (sample_frame body))]>
        (files w).
Proof.
  intros H.
  apply loop_body_completed
    in H as (body & reply & data & ps & ys & ? & ? & ? & ? & ? & ? & ? & _).
  by exists body, reply, data, ps, ys.
Qed.


End TurnOutcome.

(** The first turn on the sample camera and OpenDTU. *)
Lemma loop_body_stores_annotated_frame_witness :
  let run := loop_body Sample.py Sample.lib Sample.env source_config Sample.world in
  fst run = Ok () /\
  files (snd run) =
    <["images/image_20240601_120001.jpg" :=
        jpeg_encode Sample.lib
          (add_texts (annotation "2024-06-01 12:00:01 CEST"
                        "Power: 123.40 W" "Yield Today: 5678 Wh")
             (sample_frame Sample.jpeg_body))]> ∅.
Proof.
  intros run.
  assert (Hr : fst run = Ok ()) by (vm_compute; reflexivity).
  split; [exact Hr|].
  destruct (loop_body_stores_annotated_frame Sample.py Sample.lib Sample.env
              source_config Sample.world (snd run))
    as (body & reply & data & ps & ys & Hb & Hd & Hj & Ha & _ & Hf).
  { rewrite <- Hr. apply surjective_pairing. }
  cbv zeta in Hf. rewrite Hf.
  assert (body = Sample.jpeg_body) as ->
    by (vm_compute in Hb; injection Hb as <-; reflexivity).
  assert (reply = Sample.livedata_body) as ->
    by (vm_compute in Hd; injection Hd as <-; reflexivity).
  assert (data = Sample.livedata) as ->.
  { change (json_loads Sample.lib Sample.livedata_body) with (Some Sample.livedata) in Hj.
    congruence. }
  assert (Ha' : annotation_texts Sample.py Sample.livedata
                = Ok ("Power: 123.40 W", "Yield Today: 5678 Wh"))
    by (vm_compute; reflexivity).
  rewrite Ha' in Ha. injection Ha as <- <-. reflexivity.
Defined.


(** ** The running loop *)

Section Running.

Variable py : Builtins.
Variable lib : Library.
Variable env : Env.

Lemma loop_body_completed_turn cfg w w' :
  loop_body py lib env cfg w = (Ok (), w') -> completed_turn py lib env cfg w w'.
Proof.
  intros H.
  apply loop_body_completed
    in H as (body & reply & data & ps & ys & ? & ? & ? & ? & ? & _ & ? & ? & ? & _).
  by exists body, reply, data, ps, ys.
Qed.

Lemma capture_loop_completed_turns cfg n : forall w w',
  capture_loop py lib env cfg n w = (Ok (), w') ->
  completed_turns py lib env cfg n w w'.
Proof.
  induction n as [|n IH]; intros w w' H.
  - unfold capture_loop, mret, M_ret in H. by simplify_eq.
  - cbn [capture_loop] in H.
    apply bind_inv_ok in H as ([] & w1 & Hturn & H).
    exists w1. split; [by apply loop_body_completed_turn|by apply IH].
Qed.

(** C7: whenever [n] turns of the loop have completed, what the loop
    has done is [n] times the sequence fetch the frame, annotate it,
    persist it, sleep for [TIMEOUT], the sleep after the file is written
    and its line printed, and nothing else, and the next turn starts.
    In each turn the frame fetched is the one annotated and persisted:
    the camera's reply is opened as a new image, the capture time and
    the two reading lines of this turn are drawn on that image, and the
    file named after the capture time holds the encoding of that image
    with the three texts.  And in a healthy environment any number of
    turns completes. *)
Theorem C7_running_sequence cfg n w :
  (forall w',
      capture_loop py lib env cfg n w = (Ok (), w') ->
      completed_turns py lib env cfg n w w' /\
      exists turns,
        length turns = n /\
        Forall (is_iteration cfg) turns /\
        trace w' = (trace w ++ concat turns)%list /\
        capture_loop py lib env cfg (S n) w = loop_body py lib env cfg w') /\
  (healthy py lib env cfg ->
   exists w', capture_loop py lib env cfg n w = (Ok (), w')).
Proof.
  split.
  - intros w' Hrun. split; [by apply capture_loop_completed_turns|].
    destruct (capture_loop_inv py lib env cfg n w w' Hrun) as (turns & Hlen & Hall & Ht).
    exists turns. repeat split; try done. by apply capture_loop_next.
  - intros Hh. apply (capture_loop_healthy py lib env cfg n Hh w).
Qed.

End Running.

(** Two turns on the sample camera and OpenDTU. *)
Lemma C7_running_sequence_witness :
  exists w' turns,
    capture_loop Sample.py Sample.lib Sample.env source_config 2 Sample.world
    = (Ok (), w') /\
    completed_turns Sample.py Sample.lib Sample.env source_config 2 Sample.world w' /\
    length turns = 2%nat /\
    Forall (is_iteration source_config) turns /\
    trace w' = (trace Sample.world ++ concat turns)%list /\
    capture_loop Sample.py Sample.lib Sample.env source_config 3 Sample.world
    = loop_body Sample.py Sample.lib Sample.env source_config w'.
Proof.
  destruct (C7_running_sequence Sample.py Sample.lib Sample.env source_config 2
              Sample.world) as [Hshape Hruns].
  destruct Hruns as (w' & Hrun).
  - split; [simpl; lia|]. split; [reflexivity|]. split; [|split; [reflexivity|]].
    + intros t. exists Sample.jpeg_body. split; [reflexivity|split; reflexivity].
    + intros t. exists Sample.livedata_body, Sample.livedata.
      eexists. split; [reflexivity|]. split; [reflexivity|].
      vm_compute. reflexivity.
  - destruct (Hshape w' Hrun) as (Hturns & turns & Hlen & Hall & Ht & Hnext).
    exists w', turns. split; [exact Hrun|]. split; [exact Hturns|].
    split; [exact Hlen|]. split; [exact Hall|]. split; [exact Ht|exact Hnext].
Defined.

(** ** The start of [main] *)

Section Startup.

Variable py : Builtins.
Variable lib : Library.
Variable env : Env.

(** [main] up to the division of the estimator, when the status passes
    the gate and the sample is fetched, stored, measured and removed. *)
Lemma main_to_division cfg n w reply st width height body :
  http_response env (length (trace w)) (CAMERA_STATUS_URL cfg) = Ok reply ->
  json_loads lib reply = Some st ->
  check_status st = Ok (width, height) ->
  http_response env (2 + length (trace w)) (CAMERA_SNAPSHOT_URL cfg) = Ok body ->
  image_identify lib body = true ->
  quiet env (2 + length (trace w)) 6 ->
  exists w1,
    main py lib env cfg n w =
      (size_per_hour ← lift (int_true_divide
                        (Z.of_nat (length (jpeg_encode lib (sample_frame body))) * 3600)
                        (TIMEOUT cfg));
       frames_per_hour ← lift (estimate_frames_per_hour cfg);
       print ("Estimated size per hour: " +:+ format_byte_size size_per_hour +:+
              " (" +:+ float_repr py frames_per_hour +:+ " frames)");;
       capture_loop py lib env cfg n) w1 /\
    files w1 = delete "test.jpg" (files w) /\
    trace w1 = (trace w ++
      [ succeeded (HttpGet (CAMERA_STATUS_URL cfg));
        succeeded (Print ("Snapshot resolution: " +:+ py_str py width +:+ "x" +:+
                          py_str py height));
        succeeded (HttpGet (CAMERA_SNAPSHOT_URL cfg));
        succeeded Now;
        succeeded ImageOpen;
        succeeded (ImageSave (length (images w)) "test.jpg");
        succeeded (GetSize "test.jpg");
        succeeded (Remove "test.jpg") ])%list.
Proof.
  intros Hr Hj Hc Hb Hid Hq. unfold main.
  assert (Hs : get_camera_status lib env cfg w
               = (Ok st, record (HttpGet (CAMERA_STATUS_URL cfg)) None w)).
  { unfold get_camera_status. rewrite run_bind. unfold requests_get. rewrite Hr.
    unfold response_json. by rewrite Hj. }
  rewrite (run_bind_ok _ _ _ _ _ Hs), run_lift_bind, Hc.
  rewrite run_bind. unfold print at 1.
  set (w2 := record (Print _) None _).
  assert (Hl : length (trace w2) = (2 + length (trace w))%nat)
    by (subst w2; by rewrite !length_trace_record).
  rewrite <- Hl in Hb, Hq.
  destruct (estimate_size_per_hour_run lib env cfg w2 body Hb Hid Hq)
    as (w3 & Hrun & Hfiles & _ & Htrace).
  exists w3. split; [|split].
  - rewrite run_bind, Hrun. by rewrite <- run_bind.
  - by rewrite Hfiles.
  - rewrite Htrace. subst w2. cbn [trace images record]. by rewrite <- !app_assoc.
Qed.



End Startup.



(** ** The sample file when its handling fails *)

Section Cleanup.

Variable lib : Library.
Variable env : Env.

(** X15: the estimator does not clean up after a failure.  When the
    sample was saved and measuring it or removing it fails, the estimator
    ends with that failure and [test.jpg] stays behind, holding the
    sample, in place of whatever the path held before. *)
Theorem estimator_leaves_test_jpg cfg w body e :
  http_response env (length (trace w)) (CAMERA_SNAPSHOT_URL cfg) = Ok body ->
  image_identify lib body = true ->
  fault env (3 + length (trace w)) = None ->
  fault env (4 + length (trace w)) = Some e \/
  (fault env (4 + length (trace w)) = None /\
   fault env (5 + length (trace w)) = Some e) ->
  exists w',
    estimate_size_per_hour lib env cfg w = (Raise e, w') /\
    files w' = <["test.jpg" := jpeg_encode lib (sample_frame body)]> (files w).
Proof.
  intros Hr Hi Hf3 Hf. unfold estimate_size_per_hour.
  rewrite (run_bind_ok _ _ _ _ _ (get_image_ok lib env cfg w body Hr Hi)).
  set (w1 := record ImageOpen None _).
  assert (Hl1 : length (trace w1) = (3 + length (trace w))%nat).
  { subst w1. rewrite length_trace_record, trace_set_images, !length_trace_record. lia. }
  assert (Him : images w1 !! length (images w) = Some (sample_frame body)).
  { subst w1. cbn [images set_images record]. by rewrite lookup_app_r, Nat.sub_diag. }
  rewrite <- Hl1 in Hf3.
  rewrite (run_bind_ok _ _ _ _ _ (image_save_ok lib env _ "test.jpg" _ _ Hf3 Him)).
  set (w2 := record (ImageSave _ _) None _).
  assert (Hl2 : length (trace w2) = (4 + length (trace w))%nat).
  { subst w2. rewrite length_trace_record, trace_set_files, Hl1. lia. }
  assert (Hfile : files w2 !! "test.jpg" = Some (jpeg_encode lib (sample_frame body))).
  { subst w2. cbn [files set_files record]. apply lookup_insert_eq. }
  destruct Hf as [Hf4|[Hf4 Hf5]].
  - rewrite run_bind. unfold getsize at 1. rewrite Hl2, Hf4.
    eexists. split; reflexivity.
  - rewrite <- Hl2 in Hf4.
    rewrite (run_bind_ok _ _ _ _ _ (getsize_ok env _ _ _ Hf4 Hfile)).
    rewrite run_bind. unfold remove at 1.
    rewrite length_trace_record, Hl2. cbn [Nat.add] in Hf5 |- *. rewrite Hf5.
    eexists. split; reflexivity.
Qed.

End Cleanup.

(** The disk fails when the sample is to be removed. *)
Lemma estimator_leaves_test_jpg_witness :
  exists w',
    estimate_size_per_hour Sample.lib (Sample.env_fault_at 5 OSError) source_config
      Sample.world_with_files = (Raise OSError, w') /\
    files Sample.world_with_files !! "test.jpg" = Some [Byte.x07] /\
    files w' !! "test.jpg"
    = Some (jpeg_encode Sample.lib (sample_frame Sample.jpeg_body)).
Proof.
  destruct (estimator_leaves_test_jpg Sample.lib (Sample.env_fault_at 5 OSError)
              source_config Sample.world_with_files Sample.jpeg_body OSError
              eq_refl eq_refl eq_refl (or_intror (conj eq_refl eq_refl)))
    as (w' & Hrun & Hfiles).
  exists w'. split; [exact Hrun|]. split; [reflexivity|].
  rewrite Hfiles. apply lookup_insert_eq.
Defined.

(** ** Sizes in the units of [format_byte_size] *)

Lemma round_half_even_frac a d a' d' :
  0 < d -> 0 < d' -> a * d' = a' * d ->
  round_half_even a d = round_half_even a' d'.
Proof.
  intros Hd Hd' H. unfold round_half_even.
  assert (Hq : a / d = a' / d').
  { rewrite <- (Z.div_mul_cancel_r a d d') by lia. rewrite H.
    rewrite (Z.mul_comm d d'). apply Z.div_mul_cancel_r; lia. }
  rewrite <- Hq.
  assert (Hr : (a mod d) * d' = (a' mod d') * d).
  { rewrite !Z.mod_eq by lia. rewrite <- Hq. nia. }
  assert (Hc : (2 * (a mod d) ?= d) = (2 * (a' mod d') ?= d')).
  { destruct (Z.compare_spec (2 * (a mod d)) d),
      (Z.compare_spec (2 * (a' mod d')) d'); try reflexivity; nia. }
  by rewrite Hc.
Qed.

(** The digits depend on the value of the fraction only. *)
Lemma fixed_digits_frac a d a' d' p :
  0 < d -> 0 < d' -> a * d' = a' * d -> fixed_digits a d p = fixed_digits a' d' p.
Proof.
  intros Hd Hd' H. unfold fixed_digits.
  by rewrite (round_half_even_frac (a * 10 ^ Z.of_nat p) d (a' * 10 ^ Z.of_nat p) d')
    by (try done; nia).
Qed.

Lemma floor_log2_upper a d k J :
  0 < a -> 0 < d -> 0 <= J <= 52 -> 0 < k < 2 ^ 53 -> a * 2 ^ J = k * d ->
  floor_log2 a d <= 52 - J.
Proof.
  intros Ha Hd HJ Hk H. unfold floor_log2. destruct (Z.leb_spec d a) as [Hda|Hda].
  - assert (Hpos : 0 < a / d) by (apply Z.div_str_pos; lia).
    assert (H1 : a / d < 2 ^ (53 - J)).
    { apply Z.div_lt_upper_bound; [lia|].
      assert (2 ^ 53 = 2 ^ J * 2 ^ (53 - J))
        by (rewrite <- Z.pow_add_r by lia; f_equal; lia).
      assert (0 < 2 ^ J) by (apply Z.pow_pos_nonneg; lia).
      nia. }
    apply Z.log2_lt_pow2 in H1; lia.
  - pose proof (Z.log2_up_nonneg ((d + a - 1) / a)). lia.
Qed.

(** A quotient that is [k / 2^J] with [k] below [2^53] is a float: the
    division is exact. *)
Lemma round_mag_dyadic a d k J :
  0 < a -> 0 < d -> 0 <= J <= 52 -> 0 < k < 2 ^ 53 -> a * 2 ^ J = k * d ->
  round_mag a d = Qred (k # Z.to_pos (2 ^ J)).
Proof.
  intros Ha Hd HJ Hk H. unfold round_mag.
  destruct (Z.eqb_spec a 0); [lia|].
  pose proof (floor_log2_upper a d k J Ha Hd HJ Hk H) as Hfl.
  set (e := Z.max (floor_log2 a d - 52) (-1074)).
  assert (He : -1074 <= e <= - J) by lia.
  clearbody e.
  assert (exists p, e = - p /\ J <= p) as (p & -> & Hp) by (exists (- e); lia).
  clear He Hfl.
  assert (HJpos : 0 < 2 ^ J) by (apply Z.pow_pos_nonneg; lia).
  destruct (Z.leb_spec 0 (- p)).
  - assert (p = 0) as -> by lia. assert (J = 0) as -> by lia.
    change (- 0) with 0. change (2 ^ 0) with 1 in *.
    rewrite Z.mul_1_r in *. rewrite H, round_half_even_exact by done.
    apply Qred_complete. unfold scale2, Qeq. cbn. lia.
  - rewrite Z.opp_involutive.
    assert (Hpow : 2 ^ p = 2 ^ J * 2 ^ (p - J))
      by (rewrite <- Z.pow_add_r by lia; f_equal; lia).
    assert (Hpos : 0 < 2 ^ (p - J)) by (apply Z.pow_pos_nonneg; lia).
    replace (a * 2 ^ p) with (k * 2 ^ (p - J) * d) by (rewrite Hpow; nia).
    rewrite round_half_even_exact by done.
    unfold scale2. destruct (Z.leb_spec 0 (- p)); [lia|].
    rewrite Z.opp_involutive.
    apply Qred_complete. unfold Qeq. cbn [Qnum Qden].
    rewrite !Z2Pos.id by nia. rewrite Hpow. lia.
Qed.

Lemma Qred_scaled_inv n J :
  0 <= J ->
  Qnum (Qred (n # Z.to_pos (2 ^ J))) * 2 ^ J
  = n * Zpos (Qden (Qred (n # Z.to_pos (2 ^ J)))).
Proof.
  intros HJ. pose proof (Qred_correct (n # Z.to_pos (2 ^ J))) as H.
  unfold Qeq in H. cbn [Qnum Qden] in H.
  rewrite Z2Pos.id in H by (apply Z.pow_pos_nonneg; lia). exact H.
Qed.

Lemma of_ratio_dyadic a d k J :
  0 < a -> 0 < d -> 0 <= J <= 52 -> 0 < k < 2 ^ 53 -> a * 2 ^ J = k * d ->
  of_ratio false a d = FFinite (Qred (k # Z.to_pos (2 ^ J))).
Proof.
  intros Ha Hd HJ Hk H. unfold of_ratio.
  rewrite (round_mag_dyadic a d k J) by done.
  pose proof (Qred_scaled_inv k J ltac:(lia)) as Hm.
  set (m := Qred _) in *.
  assert (HJpos : 0 < 2 ^ J) by (apply Z.pow_pos_nonneg; lia).
  assert (Hbig : 2 ^ 53 < 2 ^ 1024) by (apply Z.pow_lt_mono_r; lia).
  assert (Hnum : 0 < Qnum m) by nia.
  unfold Qle_bool, inject_Z, is_zero. cbn [Qnum Qden].
  destruct (Z.leb_spec (2 ^ 1024 * Zpos (Qden m)) (Qnum m * 1)); [nia|].
  destruct (Z.eqb_spec (Qnum m) 0); [lia|done].
Qed.

(** The division by 1024 of a float [n / 2^J] is exact. *)
Lemma div_int_1024 q n J :
  0 < n < 2 ^ 53 -> 0 <= J <= 42 -> Qnum q * 2 ^ J = n * Zpos (Qden q) ->
  div_int (FFinite q) 1024 = FFinite (Qred (n # Z.to_pos (2 ^ (J + 10)))).
Proof.
  intros Hn HJ Hq. unfold div_int, of_Q, is_neg.
  assert (Hnum : Qnum (q / inject_Z 1024) = Qnum q * 1) by reflexivity.
  assert (Hden : Zpos (Qden (q / inject_Z 1024)) = Zpos (Qden q) * 1024) by reflexivity.
  rewrite Hnum, Hden.
  assert (HJpos : 0 < 2 ^ J) by (apply Z.pow_pos_nonneg; lia).
  assert (Hpos : 0 < Qnum q) by nia.
  destruct (Z.ltb_spec (Qnum q * 1) 0); [lia|].
  rewrite Z.abs_eq by lia.
  apply of_ratio_dyadic; try lia.
  rewrite Z.pow_add_r by lia. change (2 ^ 10) with 1024. nia.
Qed.

Lemma lt_int_1024 q n J :
  0 <= J -> Qnum q * 2 ^ J = n * Zpos (Qden q) ->
  lt_int (FFinite q) 1024 = (n <? 1024 * 2 ^ J).
Proof.
  intros HJ Hq. unfold lt_int, Qle_bool, inject_Z. cbn [Qnum Qden].
  assert (HJpos : 0 < 2 ^ J) by (apply Z.pow_pos_nonneg; lia).
  destruct (Z.leb_spec (1024 * Zpos (Qden q)) (Qnum q * 1)),
    (Z.ltb_spec n (1024 * 2 ^ J)); try reflexivity; nia.
Qed.

Lemma format_float_fixed_scaled q n J p :
  0 <= n -> 0 <= J -> Qnum q * 2 ^ J = n * Zpos (Qden q) ->
  format_float_fixed (FFinite q) p = fixed_digits n (2 ^ J) p.
Proof.
  intros Hn HJ Hq. unfold format_float_fixed, is_neg.
  assert (HJpos : 0 < 2 ^ J) by (apply Z.pow_pos_nonneg; lia).
  assert (Hpos : 0 <= Qnum q) by nia.
  destruct (Z.ltb_spec (Qnum q) 0); [lia|].
  rewrite Z.abs_eq by lia. change ("" +:+ ?x) with x.
  apply fixed_digits_frac; lia.
Qed.

Section Sizes.

Variable n : Z.
Hypothesis n_range : 0 < n < 2 ^ 53.

(** After [i] divisions, with the units [units] left, the size falls
    into the unit [k] places further on. *)
Lemma format_byte_size_from_units units : forall q i (k : nat),
  0 <= i -> i + Z.of_nat (length units) <= 5 ->
  Qnum q * 2 ^ (10 * i) = n * Zpos (Qden q) ->
  (k <= length units)%nat ->
  ((0 < k)%nat -> 2 ^ (10 * (i + Z.of_nat k)) <= n) ->
  ((k < length units)%nat -> n < 2 ^ (10 * (i + Z.of_nat k + 1))) ->
  format_byte_size_from units (FFinite q)
  = fixed_digits n (2 ^ (10 * (i + Z.of_nat k))) 2 +:+ " " +:+ nth k units "PB".
Proof.
  induction units as [|u units IH]; intros q i k Hi Hlen Hq Hk Hlow Hhigh.
  - cbn [length] in Hk. assert (k = 0%nat) as -> by lia.
    cbn [format_byte_size_from nth]. rewrite Z.add_0_r.
    by rewrite (format_float_fixed_scaled q n (10 * i)) by lia.
  - cbn [length] in *. cbn [format_byte_size_from].
    rewrite (lt_int_1024 q n (10 * i)) by lia.
    assert (Hnext : 2 ^ (10 * (i + 1)) = 1024 * 2 ^ (10 * i)).
    { replace (10 * (i + 1)) with (10 + 10 * i) by lia.
      by rewrite Z.pow_add_r by lia. }
    destruct (Z.ltb_spec n (1024 * 2 ^ (10 * i))) as [Hlt|Hge].
    + destruct k as [|k].
      * cbn [nth]. rewrite Z.add_0_r.
        by rewrite (format_float_fixed_scaled q n (10 * i)) by lia.
      * assert (2 ^ (10 * (i + 1)) <= 2 ^ (10 * (i + Z.of_nat (S k))))
          by (apply Z.pow_le_mono_r; lia).
        lia.
    + destruct k as [|k].
      * rewrite Z.add_0_r in Hhigh. lia.
      * rewrite (div_int_1024 q n (10 * i)) by lia.
        replace (10 * i + 10) with (10 * (i + 1)) by lia.
        rewrite (IH _ (i + 1) k); try lia.
        -- cbn [nth]. do 3 f_equal. lia.
        -- apply Qred_scaled_inv. lia.
        -- intros Hk0. replace (i + 1 + Z.of_nat k) with (i + Z.of_nat (S k)) by lia.
           apply Hlow. lia.
        -- intros Hk1. replace (i + 1 + Z.of_nat k + 1) with (i + Z.of_nat (S k) + 1) by lia.
           apply Hhigh. lia.
Qed.

End Sizes.

(** X16: a size that is an integer below [2^53] is printed as the
    quotient of the size by [1024^k], rounded half to even to two
    decimals, with the unit [k] places into B, KB, MB, GB, TB, PB, where
    [k] is the number with [1024^k <= n < 1024^(k+1)], at most 5: the
    divisions by 1024 are exact in binary floating point, so the digits
    are those of the exact quotient. *)
Theorem format_byte_size_integer n (k : nat) :
  0 <= n < 2 ^ 53 -> (k <= 5)%nat ->
  ((0 < k)%nat -> 1024 ^ Z.of_nat k <= n) ->
  ((k < 5)%nat -> n < 1024 ^ Z.of_nat (S k)) ->
  format_byte_size (FFinite (inject_Z n))
  = fixed_digits n (1024 ^ Z.of_nat k) 2 +:+ " " +:+ byte_unit k.
Proof.
  intros Hn Hk Hlow Hhigh.
  assert (Hpw : forall x, 0 <= x -> 2 ^ (10 * x) = 1024 ^ x)
    by (intros x Hx; by rewrite Z.pow_mul_r by lia).
  destruct (Z.eq_dec n 0) as [->|Hn0].
  - destruct k as [|k]; [vm_compute; reflexivity|].
    assert (0 < 1024 ^ Z.of_nat (S k)) by (apply Z.pow_pos_nonneg; lia).
    specialize (Hlow ltac:(lia)). lia.
  - unfold format_byte_size, byte_unit.
    rewrite (format_byte_size_from_units n ltac:(lia) _ (inject_Z n) 0 k).
    + by rewrite Z.add_0_l, Hpw by lia.
    + lia.
    + cbn [length]. lia.
    + cbn [Qnum Qden inject_Z]. change (2 ^ (10 * 0)) with 1. lia.
    + cbn [length]. lia.
    + intros Hk0. rewrite Z.add_0_l, Hpw by lia. by apply Hlow.
    + cbn [length]. intros Hk5.
      replace (0 + Z.of_nat k + 1) with (Z.of_nat (S k)) by lia.
      rewrite Hpw by lia. by apply Hhigh.
Qed.

(** 90,000,000 bytes are 85.83 MB; one byte less than a mebibyte is
    printed as 1024.00 KB. *)
Lemma format_byte_size_integer_witness :
  format_byte_size (FFinite (inject_Z 90000000)) = "85.83" +:+ " " +:+ "MB" /\
  format_byte_size (FFinite (inject_Z 1048575)) = "1024.00" +:+ " " +:+ "KB".
Proof.
  split.
  - apply (format_byte_size_integer 90000000 2); [lia|lia|simpl; lia|simpl; lia].
  - apply (format_byte_size_integer 1048575 1); [lia|lia|simpl; lia|simpl; lia].
Defined.

(** ** One name per second *)

(** X17: two captures get the same file name exactly when they fall
    into the same second of the same day; the microseconds play no
    part. *)
Theorem save_image_filename_same_iff cfg t1 t2 :
  valid_datetime t1 -> valid_datetime t2 ->
  save_image_filename cfg t1 = save_image_filename cfg t2 <-> same_second t1 t2.
Proof.
  intros Hv1 Hv2. split.
  - intros Heq. apply stamp_eq_same_second; [done..|].
    apply Z.compare_eq. rewrite <- (save_image_filename_compare cfg t1 t2 Hv1 Hv2).
    rewrite Heq. apply string_compare_refl.
  - apply save_image_filename_same_second.
Qed.

Lemma save_image_filename_same_iff_witness :
  save_image_filename source_config (Sample.noon 1)
  = save_image_filename source_config (Sample.noon 2)
  <-> same_second (Sample.noon 1) (Sample.noon 2).
Proof.
  apply (save_image_filename_same_iff source_config (Sample.noon 1) (Sample.noon 2)).
  - unfold valid_datetime. cbn. lia.
  - unfold valid_datetime. cbn. lia.
Defined.

(** ** The frames of a run *)

Section Run.

Variable py : Builtins.
Variable lib : Library.
Variable env : Env.

(** X18: a completed turn consists of ten operations, so the [i]-th
    turn of a run reads the clock at step [10 i + 1]; and after [n]
    completed turns, the file named after the capture time of each of
    them exists. *)
Theorem capture_loop_keeps_every_frame cfg n : forall w w',
  capture_loop py lib env cfg n w = (Ok (), w') ->
  length (trace w') = (length (trace w) + 10 * n)%nat /\
  forall i, (i < n)%nat ->
    is_Some (files w' !! save_image_filename cfg
                           (clock env (S (length (trace w) + 10 * i)))).
Proof.
  induction n as [|n IH]; intros w w' H.
  - unfold capture_loop, mret, M_ret in H. simplify_eq. split; [lia|]. intros i Hi. lia.
  - cbn [capture_loop] in H.
    apply bind_inv_ok in H as ([] & w1 & Hturn & H).
    apply (loop_body_completed py lib env) in Hturn
      as (body & reply & data & ps & ys & _ & _ & _ & _ & _ & _ & Hf & _ & _ & Hl).
    pose proof (capture_loop_only_adds py lib env cfg n w1 _ w' H) as Hkeep.
    apply IH in H as [Hl' Hall]. split; [lia|].
    intros [|i] Hi.
    + rewrite Nat.mul_0_r, Nat.add_0_r.
      set (name := save_image_filename cfg _) in *.
      destruct (Hkeep name) as [Heq|[_ Hsome]]; [|done].
      rewrite Heq, Hf, lookup_insert_eq. by eexists.
    + replace (length (trace w) + 10 * S i)%nat
        with (length (trace w1) + 10 * i)%nat by lia.
      apply Hall. lia.
Qed.

End Run.

(** Two turns on the sample camera. *)
Lemma capture_loop_keeps_every_frame_witness :
  let run := capture_loop Sample.py Sample.lib Sample.env source_config 2 Sample.world in
  is_Some (files (snd run) !! "images/image_20240601_120001.jpg") /\
  is_Some (files (snd run) !! "images/image_20240601_120011.jpg").
Proof.
  intros run.
  assert (Hr : fst run = Ok ()) by (vm_compute; reflexivity).
  destruct (capture_loop_keeps_every_frame Sample.py Sample.lib Sample.env
              source_config 2 Sample.world (snd run)) as [_ Hall].
  { rewrite <- Hr. apply surjective_pairing. }
  split; [exact (Hall 0%nat ltac:(lia))|exact (Hall 1%nat ltac:(lia))].
Defined.
